(** * A shallow embedding of the proxy client (package [proxyclient])

    The development follows [tun2socks/engine/proxyclient.go] and
    [tun2socks/engine/android.go]:

    - Go [[]byte] is [list byte]; Go [string] is [string] (a byte sequence);
    - Go [int] and [uint16] are [Z]; every narrowing conversion is written out;
    - an index or slice expression is checked: out of range is [Panic];
    - a [for] loop whose trip count is not syntactically bounded takes fuel,
      and the entry points supply the amount the theorems show to suffice;
    - network effects are an event trace and a scripted environment. *)

From Stdlib Require Import ZArith List String Ascii Lia Bool.
From Stdlib.Strings Require Import Byte.
From stdpp Require Import gmap strings.
Import ListNotations.
Local Open Scope Z_scope.

(** ** Bytes and machine integers *)

(** [int(b)] for a byte [b]. *)
Definition u8 (b : byte) : Z := Z.of_N (Byte.to_N b).

(** [byte(z)]: the low eight bits. *)
Definition byte_of_Z (z : Z) : byte :=
  match Byte.of_N (Z.to_N (z mod 256)) with
  | Some b => b
  | None => x00
  end.

(** [len(s)] as a Go [int]. *)
Definition len (s : list byte) : Z := Z.of_nat (length s).

(** ** Outcomes of a call that may panic *)

Inductive outcome (A : Type) : Type :=
| Done (a : A)
| Panic
| OutOfFuel.
Arguments Done {A} a.
Arguments Panic {A}.
Arguments OutOfFuel {A}.

#[global] Instance outcome_ret : MRet outcome := fun A a => Done a.
#[global] Instance outcome_bind : MBind outcome := fun A B f m =>
  match m with
  | Done a => f a
  | Panic => Panic
  | OutOfFuel => OutOfFuel
  end.

(** [s[i]]: panics unless [0 <= i < len(s)]. *)
Definition index (s : list byte) (i : Z) : outcome byte :=
  if (0 <=? i) && (i <? len s) then
    match nth_error s (Z.to_nat i) with
    | Some b => Done b
    | None => Panic
    end
  else Panic.

(** [s[lo:hi]]: panics unless [0 <= lo <= hi <= len(s)].  (Go allows [hi] up
    to the capacity; the stricter bound is the one the parser is held to.) *)
Definition slice (s : list byte) (lo hi : Z) : outcome (list byte) :=
  if (0 <=? lo) && (lo <=? hi) && (hi <=? len s) then
    Done (firstn (Z.to_nat (hi - lo)) (skipn (Z.to_nat lo) s))
  else Panic.

(** [binary.BigEndian.Uint16(b)]: [_ = b[1]; uint16(b[1]) | uint16(b[0])<<8]. *)
Definition Uint16 (b : list byte) : outcome Z :=
  b1 ← index b 1;
  b0 ← index b 0;
  Done (Z.lor (u8 b1) (Z.shiftl (u8 b0) 8)).

(** ** The parts of package [strings] that work on bytes *)

Module Strings.

(** [strings.Split(s, sep)] for a one-byte separator. *)
Fixpoint Split (s : string) (sep : ascii) : list string :=
  match s with
  | EmptyString => [EmptyString]
  | String c rest =>
      if Ascii.eqb c sep then EmptyString :: Split rest sep
      else match Split rest sep with
           | [] => [String c EmptyString]
           | hd :: tl => String c hd :: tl
           end
  end.

(** [strings.HasPrefix(s, p)]. *)
Definition HasPrefix (s p : string) : bool := String.prefix p s.

(** [strings.TrimPrefix(s, p)]. *)
Definition TrimPrefix (s p : string) : string :=
  if HasPrefix s p
  then String.substring (String.length p) (String.length s - String.length p) s
  else s.

(** [strings.Index(s, sub)], with [-1] for absent. *)
Definition Index (s sub : string) : Z :=
  match String.index 0 sub s with
  | Some i => Z.of_nat i
  | None => -1
  end.

(** [strings.Contains(s, sub)]. *)
Definition Contains (s sub : string) : bool := 0 <=? Index s sub.

(** [strings.TrimLeftFunc] and [strings.TrimRightFunc] on bytes. *)
Fixpoint TrimLeftFunc (f : ascii -> bool) (s : string) : string :=
  match s with
  | EmptyString => EmptyString
  | String c rest => if f c then TrimLeftFunc f rest else s
  end.

Fixpoint TrimRightFunc (f : ascii -> bool) (s : string) : string :=
  match s with
  | EmptyString => EmptyString
  | String c rest =>
      match TrimRightFunc f rest with
      | EmptyString => if f c then EmptyString else String c EmptyString
      | t => String c t
      end
  end.

Definition CR : ascii := "013"%char.
Definition LF : ascii := "010"%char.
Definition CRLF : string := String CR (String LF EmptyString).

Definition is_crlf (c : ascii) : bool := Ascii.eqb c CR || Ascii.eqb c LF.

(** [strings.TrimRight(s, "\r\n")]. *)
Definition TrimRight_crlf (s : string) : string := TrimRightFunc is_crlf s.

(** [s[:i]] and [s[i:]] for [0 <= i <= len(s)]. *)
Definition upto (s : string) (i : Z) : string :=
  String.substring 0 (Z.to_nat i) s.
Definition from (s : string) (i : Z) : string :=
  String.substring (Z.to_nat i) (String.length s - Z.to_nat i) s.

End Strings.

(** ** [encoding/base64], standard alphabet with padding *)

Module Base64.

Definition encodeStd : string :=
  "ABCDEFGHIJKLMNOPQRSTUVWXYZabcdefghijklmnopqrstuvwxyz0123456789+/".

Definition pad : ascii := "="%char.

(** [enc.encode[v]] *)
Definition enc6 (v : Z) : ascii :=
  match String.get (Z.to_nat v) encodeStd with
  | Some c => c
  | None => pad
  end.

(** [StdEncoding.EncodeToString]: full three-byte groups, then the
    remainder of one or two bytes with padding. *)
Fixpoint EncodeToString (src : list byte) : string :=
  match src with
  | [] => EmptyString
  | [a] =>
      let val := Z.shiftl (u8 a) 16 in
      String (enc6 (Z.land (Z.shiftr val 18) 63))
        (String (enc6 (Z.land (Z.shiftr val 12) 63))
           (String pad (String pad EmptyString)))
  | [a; b] =>
      let val := Z.lor (Z.shiftl (u8 a) 16) (Z.shiftl (u8 b) 8) in
      String (enc6 (Z.land (Z.shiftr val 18) 63))
        (String (enc6 (Z.land (Z.shiftr val 12) 63))
           (String (enc6 (Z.land (Z.shiftr val 6) 63))
              (String pad EmptyString)))
  | a :: b :: c :: rest =>
      let val := Z.lor (Z.lor (Z.shiftl (u8 a) 16) (Z.shiftl (u8 b) 8)) (u8 c) in
      String (enc6 (Z.land (Z.shiftr val 18) 63))
        (String (enc6 (Z.land (Z.shiftr val 12) 63))
           (String (enc6 (Z.land (Z.shiftr val 6) 63))
              (String (enc6 (Z.land val 63))
                 (EncodeToString rest))))
  end.

(** [enc.decodeMap[c]]: the six-bit value of an alphabet byte. *)
Definition dec6 (c : ascii) : option Z :=
  let n := Z.of_N (N_of_ascii c) in
  if (65 <=? n) && (n <=? 90) then Some (n - 65)
  else if (97 <=? n) && (n <=? 122) then Some (n - 71)
  else if (48 <=? n) && (n <=? 57) then Some (n + 4)
  else if n =? 43 then Some 62
  else if n =? 47 then Some 63
  else None.

Definition is_pad (c : ascii) : bool := Ascii.eqb c pad.

(** One quantum of four characters; [last] says nothing follows it, the
    only place where padding is accepted. *)
Definition decodeQuantum (c0 c1 c2 c3 : ascii) (last : bool)
  : option (list byte) :=
  match dec6 c0, dec6 c1 with
  | Some s0, Some s1 =>
      if is_pad c2 then
        if is_pad c3 && last then
          let val := Z.lor (Z.shiftl s0 18) (Z.shiftl s1 12) in
          Some [byte_of_Z (Z.shiftr val 16)]
        else None
      else
        match dec6 c2 with
        | Some s2 =>
            if is_pad c3 then
              if last then
                let val :=
                  Z.lor (Z.lor (Z.shiftl s0 18) (Z.shiftl s1 12)) (Z.shiftl s2 6) in
                Some [byte_of_Z (Z.shiftr val 16); byte_of_Z (Z.shiftr val 8)]
              else None
            else
              match dec6 c3 with
              | Some s3 =>
                  let val :=
                    Z.lor (Z.lor (Z.lor (Z.shiftl s0 18) (Z.shiftl s1 12))
                             (Z.shiftl s2 6)) s3 in
                  Some [byte_of_Z (Z.shiftr val 16); byte_of_Z (Z.shiftr val 8);
                        byte_of_Z val]
              | None => None
              end
        | None => None
        end
  | _, _ => None
  end.

Fixpoint decodeQuanta (s : string) : option (list byte) :=
  match s with
  | EmptyString => Some []
  | String c0 (String c1 (String c2 (String c3 rest))) =>
      match decodeQuantum c0 c1 c2 c3
              match rest with EmptyString => true | _ => false end with
      | Some bs =>
          match decodeQuanta rest with
          | Some tl => Some (bs ++ tl)
          | None => None
          end
      | None => None
      end
  | _ => None
  end.

(** [StdEncoding.DecodeString]: carriage returns and line feeds are
    skipped, anything else outside the alphabet is a corrupt input
    ([None]). *)
Fixpoint dropNewlines (s : string) : string :=
  match s with
  | EmptyString => EmptyString
  | String c rest =>
      if Strings.is_crlf c then dropNewlines rest
      else String c (dropNewlines rest)
  end.

Definition DecodeString (s : string) : option (list byte) :=
  decodeQuanta (dropNewlines s).

End Base64.

(** ** DNS: the HTTPS-record query and its parser *)

Module DNS.

Definition typeHTTPS : Z := 65.

(** The two errors [parseDNSResponse] creates with [errors.New]. *)
Inductive dns_error : Type :=
| ErrTooShort      (* errors.New: response too short *)
| ErrNoAnswer.     (* errors.New: no answer records *)

(** [append(query, byte(len(label))); append(query, []byte(label)...)] *)
Definition appendLabel (query : list byte) (label : string) : list byte :=
  (query ++ [byte_of_Z (Z.of_nat (String.length label))])
    ++ list_byte_of_string label.

Definition queryHeader : list byte :=
  [x00; x01; x01; x00; x00; x01; x00; x00; x00; x00; x00; x00].

Definition buildDNSQuery (domain : string) (qtype : Z) : list byte :=
  let query := queryHeader in
  let query := fold_left appendLabel (Strings.Split domain "."%char) query in
  query ++ [x00; byte_of_Z (Z.shiftr qtype 8); byte_of_Z qtype; x00; x01].

(** [for offset < len(buf) && buf[offset] != 0 { offset += int(buf[offset]) + 1 }]
    The loop occurs three times in the source (question name, owner name,
    TargetName) with the same text. *)
Fixpoint skipLabels (fuel : nat) (buf : list byte) (offset : Z) : outcome Z :=
  match fuel with
  | O => OutOfFuel
  | S fuel' =>
      if offset <? len buf then
        b ← index buf offset;
        if u8 b =? 0 then Done offset
        else
          b' ← index buf offset;
          skipLabels fuel' buf (offset + (u8 b' + 1))
      else Done offset
  end.

(** The loop over SvcParams in [parseHTTPSRecord]. *)
Fixpoint svcParams (fuel : nat) (data : list byte) (offset : Z)
  : outcome string :=
  match fuel with
  | O => OutOfFuel
  | S fuel' =>
      if offset + 4 <=? len data then
        k ← slice data offset (offset + 2);
        key ← Uint16 k;
        l ← slice data (offset + 2) (offset + 4);
        length ← Uint16 l;
        let offset := offset + 4 in
        if len data <? offset + length then Done EmptyString
        else
          value ← slice data offset (offset + length);
          let offset := offset + length in
          if key =? 5 then Done (Base64.EncodeToString value)
          else svcParams fuel' data offset
      else Done EmptyString
  end.

Definition parseHTTPSRecord (data : list byte) : outcome string :=
  if len data <? 2 then Done EmptyString
  else
    let offset := 2 in
    root ← (if offset <? len data
            then b ← index data offset; Done (u8 b =? 0)
            else Done false);
    offset ← (if root : bool then Done (offset + 1)
              else o ← skipLabels (S (length data)) data offset; Done (o + 1));
    svcParams (S (length data)) data offset.

Definition nonEmpty (s : string) : bool :=
  match s with EmptyString => false | _ => true end.

(** The loop [for i := 0; i < int(ancount); i++], by the number of
    iterations left; [break] leaves to the final [return "", nil]. *)
Fixpoint answers (left : nat) (response : list byte) (offset : Z)
  : outcome (string * option dns_error) :=
  match left with
  | O => Done (EmptyString, None)
  | S left' =>
      if len response <=? offset then Done (EmptyString, None)
      else
        b ← index response offset;
        offset ← (if Z.land (u8 b) 192 =? 192 then Done (offset + 2)
                  else o ← skipLabels (S (length response)) response offset;
                       Done (o + 1));
        if len response <? offset + 10 then Done (EmptyString, None)
        else
          t ← slice response offset (offset + 2);
          rrType ← Uint16 t;
          let offset := offset + 8 in
          d ← slice response offset (offset + 2);
          dataLen ← Uint16 d;
          let offset := offset + 2 in
          if len response <? offset + dataLen then Done (EmptyString, None)
          else
            data ← slice response offset (offset + dataLen);
            let offset := offset + dataLen in
            if rrType =? typeHTTPS then
              ech ← parseHTTPSRecord data;
              if nonEmpty ech then Done (ech, None)
              else answers left' response offset
            else answers left' response offset
  end.

(** The pair is Go's [(string, error)]; [None] is the [nil] error. *)
Definition parseDNSResponse (response : list byte)
  : outcome (string * option dns_error) :=
  if len response <? 12 then Done (EmptyString, Some ErrTooShort)
  else
    h ← slice response 6 8;
    ancount ← Uint16 h;
    if ancount =? 0 then Done (EmptyString, Some ErrNoAnswer)
    else
      let offset := 12 in
      offset ← skipLabels (S (length response)) response offset;
      let offset := offset + 5 in
      answers (Z.to_nat ancount) response offset.

End DNS.

(** ** The WebSocket dialer and its retry loop *)

Module Dial.

(** What one call of [dialer.Dial] gives back. *)
Inductive dial_reply : Type :=
| DialOk (wsConn : nat)
| DialErr (msg : string).

(** The errors [dialWebSocketWithECH] can return. *)
Inductive dial_error : Type :=
| ErrServerAddr        (* parseServerAddr failed *)
| ErrECHNotLoaded      (* getECHList: the ECH list is empty *)
| ErrTLSConfig         (* buildTLSConfigWithECH: no system roots *)
| ErrDial (msg : string)   (* the error of dialer.Dial, as returned *)
| ErrMaxRetries.       (* errors.New: connection failed, max retries reached *)

Inductive dial_result : Type :=
| Connected (wsConn : nat)
| Failed (e : dial_error).

Inductive event : Type :=
| EvDial (attempt : Z) (reply : dial_reply)
| EvLogInfo (attempt maxRetries : Z)
| EvRefresh
| EvSleep (milliseconds : Z).

(** Everything outside the function: whether the configured address
    parses, whether the system roots load, what the k-th ECH refresh
    finds and what the k-th dial answers. *)
Record environment : Type := {
  serverAddrOK : bool;
  rootsOK : bool;
  dnsReply : nat -> option (list byte);
  dialReply : nat -> dial_reply;
}.

(** The client's ECH store, the calls made so far and the trace. *)
Record state : Type := {
  echList : list byte;
  refreshes : nat;
  dials : nat;
  trace : list event;
}.

Definition emit (ev : event) (st : state) : state :=
  {| echList := echList st; refreshes := refreshes st; dials := dials st;
     trace := trace st ++ [ev] |}.

(** [c.refreshECH()]: [prepareECH] stores the list on success and leaves
    the store alone on failure; the caller drops the error. *)
Definition refreshECH (env : environment) (st : state) : state :=
  let st' := emit EvRefresh st in
  {| echList := match dnsReply env (refreshes st) with
                | Some raw => raw
                | None => echList st
                end;
     refreshes := S (refreshes st);
     dials := dials st';
     trace := trace st' |}.

(** [dialer.Dial(wsURL, nil)] *)
Definition dial (env : environment) (attempt : Z) (st : state)
  : dial_reply * state :=
  let r := dialReply env (dials st) in
  (r, {| echList := echList st; refreshes := refreshes st;
         dials := S (dials st);
         trace := trace st ++ [EvDial attempt r] |}).

Definition isEmpty (l : list byte) : bool :=
  match l with [] => true | _ => false end.

(** The loop [for attempt := 1; attempt <= maxRetries; attempt++], by the
    number of iterations left ([maxRetries - attempt + 1]); running out
    of iterations falls through to the final [return]. *)
Fixpoint attempts (env : environment) (left : nat) (maxRetries attempt : Z)
  (st : state) : dial_result * state :=
  match left with
  | O => (Failed ErrMaxRetries, st)
  | S left' =>
      if isEmpty (echList st) then
        if attempt <? maxRetries then
          attempts env left' maxRetries (attempt + 1) (refreshECH env st)
        else (Failed ErrECHNotLoaded, st)
      else if negb (rootsOK env) then (Failed ErrTLSConfig, st)
      else
        let '(r, st) := dial env attempt st in
        match r with
        | DialErr msg =>
            if Strings.Contains msg "ECH" && (attempt <? maxRetries) then
              let st := emit (EvLogInfo attempt maxRetries) st in
              let st := refreshECH env st in
              let st := emit (EvSleep 1000) st in
              attempts env left' maxRetries (attempt + 1) st
            else (Failed (ErrDial msg), st)
        | DialOk wsConn => (Connected wsConn, st)
        end
  end.

Definition dialWebSocketWithECH (env : environment) (maxRetries : Z)
  (st : state) : dial_result * state :=
  if negb (serverAddrOK env) then (Failed ErrServerAddr, st)
  else attempts env (Z.to_nat maxRetries) maxRetries 1 st.

(** For the statements: the event sequences the retry policy allows from
    attempt [a] on.  No dial at all (no ECH list on the last attempt, no
    system roots, no attempt left); a refresh for an empty ECH list while
    attempts remain; a last dial, which succeeds, fails without "ECH" in
    its message, or is the final attempt; and a dial that fails on ECH with
    attempts remaining, followed by the log line, the refresh, the
    one-second sleep and what attempt [a + 1] does. *)
Inductive policyTrace (maxRetries : Z) : Z -> list event -> Prop :=
| policy_none (a : Z) : policyTrace maxRetries a []
| policy_reload (a : Z) (t : list event) :
    a < maxRetries ->
    policyTrace maxRetries (a + 1) t ->
    policyTrace maxRetries a (EvRefresh :: t)
| policy_last (a : Z) (reply : dial_reply) :
    match reply with
    | DialOk _ => True
    | DialErr msg => Strings.Contains msg "ECH" = false \/ maxRetries <= a
    end ->
    policyTrace maxRetries a [EvDial a reply]
| policy_retry (a : Z) (msg : string) (t : list event) :
    Strings.Contains msg "ECH" = true ->
    a < maxRetries ->
    policyTrace maxRetries (a + 1) t ->
    policyTrace maxRetries a
      (EvDial a (DialErr msg) :: EvLogInfo a maxRetries :: EvRefresh
         :: EvSleep 1000 :: t).

(** Number of dial attempts recorded in a trace. *)
Definition isDial (ev : event) : bool :=
  match ev with EvDial _ _ => true | _ => false end.
Definition dialCount (t : list event) : nat := length (List.filter isDial t).

End Dial.

(** ** The listener's protocol sniffer *)

Module Sniff.

(** What [handleConnection] does to the outside, in order. *)
Inductive action : Type :=
| SetDeadline (conn : nat) (seconds : Z)
| Read (conn : nat) (count : Z)
| Write (conn : nat) (data : list byte)
| Close (conn : nat)
| LogUnknownProtocol (firstByte : byte) (conn : nat).

(** The result [n, err] of [conn.Read(buf)] and [buf[0]] after it. *)
Record read_result : Type := {
  n : Z;
  failed : bool;
  buf0 : byte;
}.

(** The [case] list of the HTTP branch: 'C','G','P','H','D','O','T'. *)
Definition httpFirstBytes : list byte :=
  ["C"%byte; "G"%byte; "P"%byte; "H"%byte; "D"%byte; "O"%byte; "T"%byte].

Definition byteIn (b : byte) (l : list byte) : bool :=
  existsb (Byte.eqb b) l.

Section Handlers.

(** The two protocol handlers, as the actions they perform. *)
Variable handleSOCKS5 : nat -> byte -> list action.
Variable handleHTTP : nat -> byte -> list action.

(** [defer conn.Close()] runs last on every path. *)
Definition handleConnection (conn : nat) (r : read_result) : list action :=
  [SetDeadline conn 30; Read conn 1]
    ++ (if failed r || (n r =? 0) then []
        else
          let firstByte := buf0 r in
          if Byte.eqb firstByte x05 then handleSOCKS5 conn firstByte
          else if byteIn firstByte httpFirstBytes
               then handleHTTP conn firstByte
               else [LogUnknownProtocol firstByte conn])
    ++ [Close conn].

End Handlers.

Definition isWrite (a : action) : bool :=
  match a with Write _ _ => true | _ => false end.

(** The connection an action touches, if any. *)
Definition touches (a : action) : option nat :=
  match a with
  | SetDeadline c _ | Read c _ | Write c _ | Close c => Some c
  | LogUnknownProtocol _ _ => None
  end.

End Sniff.

(** ** The HTTP/1.1 proxy front *)

Module HTTP.

(** The library calls of [handleHTTP] whose results depend on Unicode
    tables or on [fmt]'s scanner.  The development is generic in them;
    [asciiText] below is their behaviour on ASCII text. *)
Class GoText : Type := {
  Fields : string -> list string;      (* strings.Fields *)
  TrimSpace : string -> string;        (* strings.TrimSpace *)
  ToLower : string -> string;          (* strings.ToLower *)
  (* fmt.Sscanf(s, "%d", &n): the integer stored in n, if one is stored *)
  Sscanf_d : string -> option Z;
}.

(** A Go [error] value as far as [isNormalCloseError] looks at it. *)
Inductive error : Type :=
| EOF
| Err (msg : string).

Definition errorText (e : error) : string :=
  match e with EOF => "EOF" | Err msg => msg end.

Definition isNormalCloseError (err : option error) : bool :=
  match err with
  | None => false
  | Some EOF => true
  | Some (Err errStr) =>
      Strings.Contains errStr "use of closed network connection"
      || Strings.Contains errStr "broken pipe"
      || Strings.Contains errStr "connection reset by peer"
      || Strings.Contains errStr "normal closure"
  end.

Definition modeSOCKS5 : Z := 1.
Definition modeHTTPConnect : Z := 2.
Definition modeHTTPProxy : Z := 3.

(** What the handler does to the outside, in order. *)
Inductive action : Type :=
| Write (data : string)
| LogInfo (msg : string)
| LogError (msg : string)
| Tunnel (target : string) (mode : Z) (firstFrame : string).

Definition nonEmpty (s : string) : bool :=
  match s with EmptyString => false | _ => true end.

(** [reader.ReadString('\n')]: the line with its delimiter and what is
    left to read; [None] when the input ends first (a non-nil error). *)
Fixpoint ReadString (input : string) : option (string * string) :=
  match input with
  | EmptyString => None
  | String c rest =>
      if Ascii.eqb c Strings.LF then Some (String c EmptyString, rest)
      else match ReadString rest with
           | Some (line, rest') => Some (String c line, rest')
           | None => None
           end
  end.

(** [io.ReadFull(reader, body)] with [len(body) = n]: all [n] bytes or an
    error. *)
Definition ReadFull (input : string) (n : Z) : option (string * string) :=
  if n <=? Z.of_nat (String.length input)
  then Some (Strings.upto input n, Strings.from input n)
  else None.

Definition bad400 : string := "HTTP/1.1 400 Bad Request" +:+ Strings.CRLF +:+ Strings.CRLF.
Definition bad405 : string :=
  "HTTP/1.1 405 Method Not Allowed" +:+ Strings.CRLF +:+ Strings.CRLF.

Definition isProxyMethod (method : string) : bool :=
  existsb (String.eqb method)
    ["GET"; "POST"; "PUT"; "DELETE"; "HEAD"; "OPTIONS"; "PATCH"; "TRACE"].

Section Handler.

Context {T : GoText}.

(** [c.handleTunnel(conn, target, clientAddr, mode, firstFrame)]: the
    error it returns. *)
Variable handleTunnel : string -> Z -> string -> option error.

(** The header loop of [handleHTTP]; [None] is the [return] on a read
    error. *)
Fixpoint readHeaders (fuel : nat) (input : string)
  (headers : gmap string string) (headerLines : list string)
  : outcome (option (gmap string string * list string * string)) :=
  match fuel with
  | O => OutOfFuel
  | S fuel' =>
      match ReadString input with
      | None => Done None
      | Some (line, input) =>
          let line := Strings.TrimRight_crlf line in
          if nonEmpty line then
            let headerLines := headerLines ++ [line] in
            let idx := Strings.Index line ":" in
            let headers :=
              if 0 <? idx then
                let key := TrimSpace (Strings.upto line idx) in
                let value := TrimSpace (Strings.from line (idx + 1)) in
                <[ToLower key := value]> headers
              else headers in
            readHeaders fuel' input headers headerLines
          else Done (Some (headers, headerLines, input))
      end
  end.

(** The test in the loop over [headerLines]. *)
Definition keepHeader (line : string) : bool :=
  let key := hd EmptyString (Strings.Split line ":"%char) in
  let keyLower := ToLower (TrimSpace key) in
  negb (String.eqb keyLower "proxy-connection")
  && negb (String.eqb keyLower "proxy-authorization").

(** One iteration: two [WriteString]s for a line that is kept. *)
Definition writeHeader (requestBuilder line : string) : string :=
  if keepHeader line then (requestBuilder +:+ line) +:+ Strings.CRLF
  else requestBuilder.

(** [requestBuilder.String()] after the request line, the header loop,
    the blank line and the body. *)
Definition firstFrame (method path httpVersion : string)
  (headerLines : list string) (headers : gmap string string)
  (input : string) : string :=
  let requestBuilder :=
    method +:+ " " +:+ path +:+ " " +:+ httpVersion +:+ Strings.CRLF in
  let requestBuilder := fold_left writeHeader headerLines requestBuilder in
  let requestBuilder := requestBuilder +:+ Strings.CRLF in
  let contentLength := default EmptyString (headers !! "content-length") in
  if nonEmpty contentLength then
    let length := default 0 (Sscanf_d contentLength) in
    if (0 <? length) && (length <? 10 * 1024 * 1024) then
      match ReadFull input length with
      | Some (body, _) => requestBuilder +:+ body
      | None => requestBuilder
      end
    else requestBuilder
  else requestBuilder.

(** For the statements: the kept header lines, each closed by CRLF, and
    the frame up to and including the blank line. *)
Definition headerBlock (kept : list string) : string :=
  fold_right (fun line acc => line +:+ Strings.CRLF +:+ acc)
    EmptyString kept.

Definition frameHead (method path httpVersion : string)
  (headerLines : list string) : string :=
  (method +:+ " " +:+ path +:+ " " +:+ httpVersion +:+ Strings.CRLF)
    +:+ headerBlock (List.filter keepHeader headerLines) +:+ Strings.CRLF.

(** [target] and [path] of a forwarded request. *)
Definition targetAndPath (requestURL : string)
  (headers : gmap string string) : string * string :=
  if Strings.HasPrefix requestURL "http://" then
    let urlWithoutScheme := Strings.TrimPrefix requestURL "http://" in
    let idx := Strings.Index urlWithoutScheme "/" in
    if 0 <? idx
    then (Strings.upto urlWithoutScheme idx, Strings.from urlWithoutScheme idx)
    else (urlWithoutScheme, "/")
  else (default EmptyString (headers !! "host"), requestURL).

Definition logTunnelError (what clientAddr : string) (err : option error)
  : list action :=
  match err with
  | Some e =>
      if isNormalCloseError err then []
      else [LogError (what +:+ " 代理失败 " +:+ clientAddr +:+ ": "
                        +:+ errorText e)]
  | None => []
  end.

(** The [switch method]. *)
Definition serve (clientAddr method requestURL httpVersion : string)
  (headers : gmap string string) (headerLines : list string)
  (input : string) : list action :=
  if String.eqb method "CONNECT" then
    [LogInfo ("HTTP-CONNECT: " +:+ clientAddr +:+ " -> " +:+ requestURL);
     Tunnel requestURL modeHTTPConnect EmptyString]
      ++ logTunnelError "HTTP-CONNECT" clientAddr
           (handleTunnel requestURL modeHTTPConnect EmptyString)
  else if isProxyMethod method then
    LogInfo ("HTTP-" +:+ method +:+ ": " +:+ clientAddr +:+ " -> "
               +:+ requestURL)
    :: (let '(target, path) := targetAndPath requestURL headers in
        if nonEmpty target then
          let target :=
            if Strings.Contains target ":" then target
            else target +:+ ":80" in
          let frame :=
            firstFrame method path httpVersion headerLines headers input in
          Tunnel target modeHTTPProxy frame
            :: logTunnelError ("HTTP-" +:+ method) clientAddr
                 (handleTunnel target modeHTTPProxy frame)
        else [Write bad400])
  else
    [LogInfo ("HTTP 不支持的方法: " +:+ method +:+ " from " +:+ clientAddr);
     Write bad405].

(** [conn] is what the client sends after the sniffed first byte;
    [string(firstByte)] is that one byte for the ASCII bytes the sniffer
    passes on. *)
Definition handleHTTP (clientAddr : string) (firstByte : ascii)
  (conn : string) : outcome (list action) :=
  let reader := String firstByte conn in
  match ReadString reader with
  | None => Done []
  | Some (requestLine, reader) =>
      let parts := Fields requestLine in
      if (length parts <? 3)%nat then Done []
      else
        let method := nth 0 parts EmptyString in
        let requestURL := nth 1 parts EmptyString in
        let httpVersion := nth 2 parts EmptyString in
        r ← readHeaders (S (String.length reader)) reader ∅ [];
        match r with
        | None => Done []
        | Some (headers, headerLines, reader) =>
            Done (serve clientAddr method requestURL httpVersion
                    headers headerLines reader)
        end
  end.

End Handler.

(** *** The library calls on ASCII text *)

Definition isSpace (c : ascii) : bool :=
  let n := N_of_ascii c in
  ((9 <=? n) && (n <=? 13) || (n =? 32))%N.

(** The field that starts at the head of [s], and the fields after it. *)
Fixpoint fieldsFrom (s : string) : string * list string :=
  match s with
  | EmptyString => (EmptyString, [])
  | String c rest =>
      let '(w, ws) := fieldsFrom rest in
      if isSpace c then (EmptyString, if nonEmpty w then w :: ws else ws)
      else (String c w, ws)
  end.

Definition asciiFields (s : string) : list string :=
  let '(w, ws) := fieldsFrom s in
  if nonEmpty w then w :: ws else ws.

Definition asciiTrimSpace (s : string) : string :=
  Strings.TrimRightFunc isSpace (Strings.TrimLeftFunc isSpace s).

Definition lowerChar (c : ascii) : ascii :=
  let n := N_of_ascii c in
  if ((65 <=? n) && (n <=? 90))%N then ascii_of_N (n + 32) else c.

Fixpoint asciiToLower (s : string) : string :=
  match s with
  | EmptyString => EmptyString
  | String c rest => String (lowerChar c) (asciiToLower rest)
  end.

Definition digitOf (c : ascii) : option Z :=
  let n := Z.of_N (N_of_ascii c) in
  if (48 <=? n) && (n <=? 57) then Some (n - 48) else None.

(** The longest run of decimal digits at the head, as a number. *)
Fixpoint scanDigits (s : string) (acc : option Z) : option Z :=
  match s with
  | EmptyString => acc
  | String c rest =>
      match digitOf c with
      | Some d => scanDigits rest (Some (default 0 acc * 10 + d))
      | None => acc
      end
  end.

(** The verb [%d] on a 64-bit [int]: blanks, a sign, digits. *)
Definition asciiSscanf_d (s : string) : option Z :=
  let s := Strings.TrimLeftFunc isSpace s in
  let '(neg, s) :=
    match s with
    | String c rest =>
        if Ascii.eqb c "-" then (true, rest)
        else if Ascii.eqb c "+" then (false, rest)
        else (false, s)
    | EmptyString => (false, s)
    end in
  match scanDigits s None with
  | Some v =>
      let v := if neg : bool then - v else v in
      if (- 2 ^ 63 <=? v) && (v <? 2 ^ 63) then Some v else None
  | None => None
  end.

Definition asciiText : GoText := {|
  Fields := asciiFields;
  TrimSpace := asciiTrimSpace;
  ToLower := asciiToLower;
  Sscanf_d := asciiSscanf_d;
|}.

End HTTP.

(** ** The Android binding *)

Module Android.

(** The fields of [ProxyClient] that the status calls read. *)
Record ProxyClient : Type := {
  serverAddr : string;
  running : bool;
}.

Record AndroidProxyClient : Type := {
  client : ProxyClient;
}.

Definition ProxyClient_IsRunning (c : ProxyClient) : bool := running c.

Definition IsRunning (a : AndroidProxyClient) : bool :=
  ProxyClient_IsRunning (client a).

Definition GetStatus (a : AndroidProxyClient) : string :=
  if ProxyClient_IsRunning (client a) then "运行中" else "已停止".

Definition GetVersion : string := "1.0.0".

End Android.

(** ** The DNS wire format (RFC 1035, RFC 9460)

    The layout of the messages the parser is run on in the statements
    below: what a server that answers the query puts on the wire. *)

Module Wire.

(** A 16-bit field, big-endian. *)
Definition be16 (z : Z) : list byte :=
  [byte_of_Z (Z.shiftr z 8); byte_of_Z z].

(** A 32-bit field, big-endian. *)
Definition be32 (z : Z) : list byte := be16 (Z.shiftr z 16) ++ be16 z.

(** Length-prefixed labels, without the closing zero octet. *)
Definition encodeLabels (labels : list (list byte)) : list byte :=
  concat (map (fun l => byte_of_Z (len l) :: l) labels).

(** An uncompressed domain name. *)
Definition encodeName (labels : list (list byte)) : list byte :=
  encodeLabels labels ++ [x00].

(** Every label has between 1 and [max] octets. *)
Definition wfLabels (max : Z) (labels : list (list byte)) : bool :=
  forallb (fun l => (1 <=? len l) && (len l <=? max)) labels.

(** The labels of a dotted name, as [buildDNSQuery] cuts them. *)
Definition labelsOf (domain : string) : list (list byte) :=
  map list_byte_of_string (Strings.Split domain "."%char).

(** The twelve-octet header. *)
Definition header (id flags qdcount ancount nscount arcount : Z) : list byte :=
  be16 id ++ be16 flags ++ be16 qdcount ++ be16 ancount
    ++ be16 nscount ++ be16 arcount.

(** The owner name of a resource record: a two-octet compression pointer
    (top two bits of the first octet set) or an uncompressed name. *)
Inductive owner : Type :=
| OwnerPointer (hi lo : byte)
| OwnerName (labels : list (list byte)).

Definition encodeOwner (o : owner) : list byte :=
  match o with
  | OwnerPointer hi lo => [hi; lo]
  | OwnerName labels => encodeName labels
  end.

Definition wfOwner (o : owner) : bool :=
  match o with
  | OwnerPointer hi _ => Z.land (u8 hi) 192 =? 192
  | OwnerName labels => wfLabels 63 labels
  end.

(** A resource record: owner, TYPE, CLASS, TTL, RDLENGTH, RDATA. *)
Definition record (o : owner) (rrtype class ttl : Z) (rdata : list byte)
  : list byte :=
  encodeOwner o ++ be16 rrtype ++ be16 class ++ be32 ttl
    ++ be16 (len rdata) ++ rdata.

(** The fields of a record, for lists of records. *)
Record rr : Type := {
  rr_owner : owner;
  rr_type : Z;
  rr_class : Z;
  rr_ttl : Z;
  rr_data : list byte;
}.




(** One SvcParam: key, length, value. *)
Definition encodeParam (p : Z * list byte) : list byte :=
  be16 (fst p) ++ be16 (len (snd p)) ++ snd p.

Definition encodeParams (ps : list (Z * list byte)) : list byte :=
  concat (map encodeParam ps).

(** SvcParams other than [ech]: a 16-bit key different from 5 and a value
    whose length fits 16 bits. *)
Definition wfOtherParams (ps : list (Z * list byte)) : bool :=
  forallb (fun p => (0 <=? fst p) && (fst p <? 65536) && negb (fst p =? 5)
                    && (len (snd p) <? 65536)) ps.

(** HTTPS RDATA: SvcPriority, TargetName, SvcParams with [ech] (key 5)
    carrying [e] among them, and whatever follows. *)
Definition httpsRData (priority : Z) (targetName : list byte)
  (before : list (Z * list byte)) (e : list byte) (after : list byte)
  : list byte :=
  be16 priority ++ targetName ++ encodeParams before
    ++ encodeParam (5, e) ++ after.

End Wire.

(** ** Decimal and hexadecimal text, as [fmt] prints it *)

Module Fmt.

Definition digitChar (d : Z) : ascii := ascii_of_N (Z.to_N (48 + d)).

(** The digits of a non-negative number, most significant first. *)
Fixpoint digits (fuel : nat) (n : Z) (acc : string) : string :=
  match fuel with
  | O => acc
  | S fuel' =>
      let acc := String (digitChar (n mod 10)) acc in
      if n <? 10 then acc else digits fuel' (n / 10) acc
  end.

(** The verb [%d] on a 64-bit [int]. *)
Definition itoa (n : Z) : string :=
  if n <? 0 then String "-" (digits 20 (- n) EmptyString)
  else digits 20 n EmptyString.

Definition hexChar (d : Z) : ascii :=
  ascii_of_N (Z.to_N (if d <? 10 then 48 + d else 87 + d)).

(** The verb [%02x] on a byte. *)
Definition hex2 (b : byte) : string :=
  String (hexChar (u8 b / 16)) (String (hexChar (u8 b mod 16)) EmptyString).

End Fmt.

(** ** The client: construction, ECH store, lifecycle *)

Module Client.

Record Config : Type := {
  ServerAddr : string;
  ServerIP : string;
  Token : string;
  DNSServer : string;
  ECHDomain : string;
}.

(** What the client logs and does to the outside, in order. *)
Inductive event : Type :=
| InfoFetchingECH                      (* logInfo: fetching the ECH configuration *)
| InfoRefreshECH                       (* logInfo: refreshing the ECH configuration *)
| InfoECHLoaded (length : Z)           (* logInfo: ECH configuration loaded, length *)
| InfoStarted (listenAddr : string)    (* logInfo: proxy server started *)
| InfoBackend (serverAddr : string)    (* logInfo: backend server *)
| InfoFixedIP (serverIP : string)      (* logInfo: using the fixed IP *)
| InfoStopped                          (* logInfo: proxy server stopped *)
| Query (domain dnsServer : string)    (* c.queryHTTPSRecord *)
| Listen (listenAddr : string)         (* net.Listen("tcp", listenAddr) *)
| AcceptLoop (listener : nat)          (* go c.acceptLoop() *)
| CloseListener (listener : nat).      (* c.listener.Close() *)

(** A function given to [SetLogCallback]. *)
Inductive log_callback : Type :=
| ForwardToBinding      (* the closure that NewAndroidProxyClient makes: it
                           passes the line to the wrapper's logCallback
                           when that is not nil *)
| Function (id : nat).  (* any other function *)

(** The struct, with the journal of what has happened so far. *)
Record ProxyClient : Type := {
  serverAddr : string;
  serverIP : string;
  token : string;
  dnsServer : string;
  echDomain : string;
  echList : list byte;
  listener : option nat;
  running : bool;
  logCallback : option log_callback;
  journal : list event;
}.

Inductive query_error : Type :=
| TransportError                       (* the UDP or DoH exchange failed *)
| ParseError (e : DNS.dns_error).      (* the error of parseDNSResponse *)

Inductive ech_error : Type :=
| ErrDNSQuery (e : query_error)        (* DNS query failed: %w *)
| ErrNoECHParam                        (* errors.New: no ECH parameter found *)
| ErrECHDecode                         (* ECH decoding failed: %w *)
| ErrECHNotLoaded.                     (* errors.New: ECH configuration not loaded *)

Inductive client_error : Type :=
| ErrNoServerAddr                      (* errors.New: the server address is required *)
| ErrAlreadyRunning                    (* errors.New: the proxy server is already running *)
| ErrNotRunning                        (* errors.New: the proxy server is not running *)
| ErrPrepareECH (e : ech_error)        (* fetching the ECH configuration failed: %w *)
| ErrListenFailed.                     (* listening failed: %w *)

Definition isEmptyString (s : string) : bool := String.eqb s EmptyString.

Definition NewProxyClient (config : Config) : ProxyClient + client_error :=
  if isEmptyString (ServerAddr config) then inr ErrNoServerAddr
  else
    let dns := if isEmptyString (DNSServer config)
               then "dns.alidns.com/dns-query"%string else DNSServer config in
    let ech := if isEmptyString (ECHDomain config)
               then "cloudflare-ech.com"%string else ECHDomain config in
    inl {| serverAddr := ServerAddr config;
           serverIP := ServerIP config;
           token := Token config;
           dnsServer := dns;
           echDomain := ech;
           echList := [];
           listener := None;
           running := false;
           logCallback := None;
           journal := [] |}.

Definition SetLogCallback (callback : option log_callback) (c : ProxyClient)
  : ProxyClient :=
  {| serverAddr := serverAddr c; serverIP := serverIP c; token := token c;
     dnsServer := dnsServer c; echDomain := echDomain c;
     echList := echList c; listener := listener c; running := running c;
     logCallback := callback; journal := journal c |}.

(** Where [logInfo] and [logError] send a line: to the callback when one
    is set, to the standard logger otherwise. *)
Inductive log_sink : Type :=
| StandardLogger
| Callback (f : log_callback).

Definition logSink (c : ProxyClient) : log_sink :=
  match logCallback c with
  | Some f => Callback f
  | None => StandardLogger
  end.

Definition record (ev : event) (c : ProxyClient) : ProxyClient :=
  {| serverAddr := serverAddr c; serverIP := serverIP c; token := token c;
     dnsServer := dnsServer c; echDomain := echDomain c;
     echList := echList c; listener := listener c; running := running c;
     logCallback := logCallback c; journal := journal c ++ [ev] |}.

Definition setECHList (raw : list byte) (c : ProxyClient) : ProxyClient :=
  {| serverAddr := serverAddr c; serverIP := serverIP c; token := token c;
     dnsServer := dnsServer c; echDomain := echDomain c;
     echList := raw; listener := listener c; running := running c;
     logCallback := logCallback c; journal := journal c |}.

Definition setListener (l : option nat) (r : bool) (c : ProxyClient)
  : ProxyClient :=
  {| serverAddr := serverAddr c; serverIP := serverIP c; token := token c;
     dnsServer := dnsServer c; echDomain := echDomain c;
     echList := echList c; listener := l; running := r;
     logCallback := logCallback c; journal := journal c |}.

(** [c.queryHTTPSRecord(domain, dnsServer)]: both transports end in
    [parseDNSResponse] on the bytes received; [reply] is what the
    resolver delivers ([None]: the exchange itself failed). *)
Definition queryHTTPSRecord (reply : option (list byte))
  : outcome (string * option query_error) :=
  match reply with
  | None => Done (EmptyString, Some TransportError)
  | Some response =>
      r ← DNS.parseDNSResponse response;
      Done (fst r, option_map ParseError (snd r))
  end.

Definition prepareECH (reply : option (list byte)) (c : ProxyClient)
  : outcome (ProxyClient * option ech_error) :=
  let c := record (Query (echDomain c) (dnsServer c)) c in
  q ← queryHTTPSRecord reply;
  match snd q with
  | Some e => Done (c, Some (ErrDNSQuery e))
  | None =>
      let echBase64 := fst q in
      if isEmptyString echBase64 then Done (c, Some ErrNoECHParam)
      else
        match Base64.DecodeString echBase64 with
        | None => Done (c, Some ErrECHDecode)
        | Some raw =>
            let c := setECHList raw c in
            Done (record (InfoECHLoaded (len raw)) c, None)
        end
  end.

Definition refreshECH (reply : option (list byte)) (c : ProxyClient)
  : outcome (ProxyClient * option ech_error) :=
  prepareECH reply (record InfoRefreshECH c).

Definition getECHList (c : ProxyClient) : list byte + ech_error :=
  if len (echList c) =? 0 then inr ErrECHNotLoaded else inl (echList c).

(** What [Start] meets outside: the resolver's reply and the result of
    [net.Listen] (the listener, or [None] for an error). *)
Record start_env : Type := {
  echReply : option (list byte);
  listenReply : option nat;
}.

Definition Start (env : start_env) (listenAddr : string) (c : ProxyClient)
  : outcome (ProxyClient * option client_error) :=
  if running c then Done (c, Some ErrAlreadyRunning)
  else
    let c := record InfoFetchingECH c in
    r ← prepareECH (echReply env) c;
    let c := fst r in
    match snd r with
    | Some e => Done (c, Some (ErrPrepareECH e))
    | None =>
        let c := record (Listen listenAddr) c in
        match listenReply env with
        | None => Done (c, Some ErrListenFailed)
        | Some l =>
            let c := setListener (Some l) true c in
            let c := record (InfoStarted listenAddr) c in
            let c := record (InfoBackend (serverAddr c)) c in
            let c := if isEmptyString (serverIP c) then c
                     else record (InfoFixedIP (serverIP c)) c in
            Done (record (AcceptLoop l) c, None)
        end
    end.

Definition Stop (c : ProxyClient) : ProxyClient * option client_error :=
  if negb (running c) then (c, Some ErrNotRunning)
  else
    let c' := setListener None false c in
    let c' := match listener c with
              | Some l => record (CloseListener l) c'
              | None => c'
              end in
    (record InfoStopped c', None).

Definition IsRunning (c : ProxyClient) : bool := running c.

(** The calls an embedder can make, with what each meets outside. *)
Inductive call : Type :=
| CallStart (env : start_env) (listenAddr : string)
| CallStop
| CallRefresh (reply : option (list byte)).

Definition step (k : call) (c : ProxyClient) : outcome ProxyClient :=
  match k with
  | CallStart env listenAddr => r ← Start env listenAddr c; Done (fst r)
  | CallStop => Done (fst (Stop c))
  | CallRefresh reply => r ← refreshECH reply c; Done (fst r)
  end.

Fixpoint run (ks : list call) (c : ProxyClient) : outcome ProxyClient :=
  match ks with
  | [] => Done c
  | k :: ks => c' ← step k c; run ks c'
  end.

(** The part of the client that the Android status call reads. *)
Definition statusView (c : ProxyClient) : Android.AndroidProxyClient :=
  {| Android.client := {| Android.serverAddr := serverAddr c;
                          Android.running := running c |} |}.

End Client.

(** ** The server address *)

Module Addr.

Section Parse.

(** [net.SplitHostPort]: host and port, or [None] for an error. *)
Variable SplitHostPort : string -> option (string * string).

Definition parseServerAddr (addr : string)
  : option (string * string * string) :=
  let path := "/"%string in
  let slashIdx := Strings.Index addr "/" in
  let '(path, addr) :=
    if negb (slashIdx =? -1)
    then (Strings.from addr slashIdx, Strings.upto addr slashIdx)
    else (path, addr) in
  match SplitHostPort addr with
  | None => None
  | Some (host, port) => Some (host, port, path)
  end.

(** [ValidateServerAddr]: [true] for the [nil] error. *)
Definition ValidateServerAddr (addr : string) : bool :=
  if Client.isEmptyString addr then false
  else match parseServerAddr addr with
       | None => false
       | Some _ => true
       end.

End Parse.

(** [net.SplitHostPort] on text without brackets: the text before and
    after the only colon, an error without a colon or with more than one.
    Hosts in brackets are left out ([None]). *)
Definition plainSplitHostPort (hostport : string) : option (string * string) :=
  match Strings.Split hostport ":"%char with
  | [host; port] =>
      if Strings.Contains hostport "[" || Strings.Contains hostport "]"
      then None else Some (host, port)
  | _ => None
  end.

End Addr.

(** ** The Android binding: constructors and [Start]

    The methods of [AndroidProxyClient] that only call the client
    ([Start], [TestConnection]) are given on the client they call. *)

Module Binding.

(** The wrapper: the client and the [LogCallback] given from Java (nil
    until [SetLogCallback]). *)
Record AndroidProxyClient : Type := {
  client : Client.ProxyClient;
  logCallback : option nat;
}.

Definition NewAndroidProxyClient
  (serverAddr serverIP token dnsServer echDomain : string)
  : AndroidProxyClient + Client.client_error :=
  let dns := if Client.isEmptyString dnsServer
             then "dns.alidns.com/dns-query"%string else dnsServer in
  let ech := if Client.isEmptyString echDomain
             then "cloudflare-ech.com"%string else echDomain in
  match Client.NewProxyClient
          {| Client.ServerAddr := serverAddr;
             Client.ServerIP := serverIP;
             Client.Token := token;
             Client.DNSServer := dns;
             Client.ECHDomain := ech |} with
  | inr err => inr err
  | inl client =>
      let client :=
        Client.SetLogCallback (Some Client.ForwardToBinding) client in
      inl {| client := client; logCallback := None |}
  end.

Definition SetLogCallback (callback : option nat) (a : AndroidProxyClient)
  : AndroidProxyClient :=
  {| client := client a; logCallback := callback |}.

(** Where a line that the wrapped client logs ends up. *)
Inductive delivery : Type :=
| OnLog (callback : nat)     (* a.logCallback.OnLog(level, message) *)
| Dropped                    (* the closure finds a.logCallback nil *)
| Printed                    (* log.Printf *)
| Called (id : nat).         (* some other function set on the client *)

Definition deliver (a : AndroidProxyClient) : delivery :=
  match Client.logSink (client a) with
  | Client.StandardLogger => Printed
  | Client.Callback Client.ForwardToBinding =>
      match logCallback a with
      | Some callback => OnLog callback
      | None => Dropped
      end
  | Client.Callback (Client.Function id) => Called id
  end.

Definition CreateClient (serverAddr token : string)
  : AndroidProxyClient + Client.client_error :=
  NewAndroidProxyClient serverAddr EmptyString token EmptyString EmptyString.

Definition CreateClientWithIP (serverAddr serverIP token : string)
  : AndroidProxyClient + Client.client_error :=
  NewAndroidProxyClient serverAddr serverIP token EmptyString EmptyString.

Definition CreateClientFull
  (serverAddr serverIP token dnsServer echDomain : string)
  : AndroidProxyClient + Client.client_error :=
  NewAndroidProxyClient serverAddr serverIP token dnsServer echDomain.

Definition Start (env : Client.start_env) (listenAddr : string)
  (c : Client.ProxyClient)
  : outcome (Client.ProxyClient * option Client.client_error) :=
  let listenAddr := if Client.isEmptyString listenAddr
                    then "127.0.0.1:1080"%string else listenAddr in
  Client.Start env listenAddr c.

Inductive test_error : Type :=
| ErrFetchECH (e : Client.ech_error)   (* fetching the ECH configuration failed: %v *)
| ErrConnect (e : Dial.dial_error).    (* connecting to the server failed: %v *)

(** The dialer's view of a client that has dialled nothing yet. *)
Definition dialState (c : Client.ProxyClient) : Dial.state :=
  {| Dial.echList := Client.echList c; Dial.refreshes := 0%nat;
     Dial.dials := 0%nat; Dial.trace := [] |}.

(** [TestConnection]: the error, the client afterwards, what the dialer
    did and the connection closed by the deferred [wsConn.Close()]. *)
Definition TestConnection (reply : option (list byte))
  (env : Dial.environment) (c : Client.ProxyClient)
  : outcome (option test_error * Client.ProxyClient * list Dial.event
             * option nat) :=
  r ← Client.prepareECH reply c;
  let c := fst r in
  match snd r with
  | Some e => Done (Some (ErrFetchECH e), c, [], None)
  | None =>
      let '(res, st) := Dial.dialWebSocketWithECH env 1 (dialState c) in
      let c := Client.setECHList (Dial.echList st) c in
      match res with
      | Dial.Failed e => Done (Some (ErrConnect e), c, Dial.trace st, None)
      | Dial.Connected wsConn => Done (None, c, Dial.trace st, Some wsConn)
      end
  end.

End Binding.

(** ** SOCKS5 *)

Module SOCKS5.

(** [io.ReadFull(conn, buf)] with [len(buf) = n]: the bytes read and what
    is left on the connection, or [None] for an error. *)
Definition ReadFull (conn : list byte) (n : Z)
  : option (list byte * list byte) :=
  if n <=? len conn
  then Some (take (Z.to_nat n) conn, drop (Z.to_nat n) conn)
  else None.

Definition at_ (buf : list byte) (i : nat) : byte := nth i buf x00.

Definition greeting : list byte := [x05; x00].

(** The ten-octet reply with reply code [rep]. *)
Definition reply (rep : byte) : list byte :=
  [x05; rep; x00; x01; x00; x00; x00; x00; x00; x00].

Definition write (data : list byte) : HTTP.action :=
  HTTP.Write (string_of_list_byte data).

Section Handler.

(** [net.IP(buf).String()] *)
Variable IPString : list byte -> string.

(** [c.handleTunnel(conn, target, clientAddr, modeSOCKS5, "")]: the error
    it returns. *)
Variable handleTunnel : string -> Z -> string -> option HTTP.error.

(** The address of the request, by [atyp]: the host and what is left on
    the connection.  [inl] is a [return]: silent on a read error, with
    the reply 0x08 written for an address type that is not supported. *)
Definition readHost (atyp : byte) (conn : list byte)
  : list HTTP.action + (string * list byte) :=
  if Byte.eqb atyp x01 then
    match ReadFull conn 4 with
    | None => inl []
    | Some (buf, conn) => inr (IPString buf, conn)
    end
  else if Byte.eqb atyp x03 then
    match ReadFull conn 1 with
    | None => inl []
    | Some (buf, conn) =>
        match ReadFull conn (u8 (at_ buf 0)) with
        | None => inl []
        | Some (domainBuf, conn) => inr (string_of_list_byte domainBuf, conn)
        end
    end
  else if Byte.eqb atyp x04 then
    match ReadFull conn 16 with
    | None => inl []
    | Some (buf, conn) => inr (IPString buf, conn)
    end
  else inl [write (reply x08)].

Definition targetOf (atyp : byte) (host : string) (port : Z) : string :=
  if Byte.eqb atyp x04
  then "[" +:+ host +:+ "]:" +:+ Fmt.itoa port
  else host +:+ ":" +:+ Fmt.itoa port.

(** What follows the method negotiation. *)
Definition request (clientAddr : string) (conn : list byte)
  : list HTTP.action :=
  match ReadFull conn 4 with
  | None => []
  | Some (buf, conn) =>
      if negb (u8 (at_ buf 0) =? 5) then []
      else
        let command := at_ buf 1 in
        let atyp := at_ buf 3 in
        match readHost atyp conn with
        | inl actions => actions
        | inr (host, conn) =>
            match ReadFull conn 2 with
            | None => []
            | Some (buf, conn) =>
                let port :=
                  Z.lor (Z.shiftl (u8 (at_ buf 0)) 8) (u8 (at_ buf 1)) in
                let target := targetOf atyp host port in
                if negb (Byte.eqb command x01) then [write (reply x07)]
                else
                  [HTTP.LogInfo ("SOCKS5: " +:+ clientAddr +:+ " -> "
                                   +:+ target);
                   HTTP.Tunnel target HTTP.modeSOCKS5 EmptyString]
                    ++ HTTP.logTunnelError "SOCKS5" clientAddr
                         (handleTunnel target HTTP.modeSOCKS5 EmptyString)
            end
        end
  end.

(** [conn] is what the client sends after the sniffed first byte;
    [greetingOK] is whether the write of the method selection succeeds. *)
Definition handleSOCKS5 (greetingOK : bool) (clientAddr : string)
  (firstByte : byte) (conn : list byte) : list HTTP.action :=
  if negb (Byte.eqb firstByte x05) then
    [HTTP.LogError ("SOCKS5 版本错误: 0x" +:+ Fmt.hex2 firstByte
                      +:+ " from " +:+ clientAddr)]
  else
    match ReadFull conn 1 with
    | None => []
    | Some (buf, conn) =>
        let nmethods := at_ buf 0 in
        match ReadFull conn (u8 nmethods) with
        | None => []
        | Some (_, conn) =>
            write greeting
              :: (if greetingOK then request clientAddr conn else [])
        end
    end.

End Handler.

(** A CONNECT request as a client puts it on the wire (RFC 1928), behind
    the version octet: the methods offered, then version, command,
    reserved octet, address type, address and port. *)
Inductive address : Type :=
| IPv4 (ip : list byte)
| Domain (name : list byte)
| IPv6 (ip : list byte).

Definition atypOf (a : address) : byte :=
  match a with IPv4 _ => x01 | Domain _ => x03 | IPv6 _ => x04 end.

Definition encodeAddress (a : address) : list byte :=
  match a with
  | IPv4 ip => ip
  | Domain name => byte_of_Z (len name) :: name
  | IPv6 ip => ip
  end.

Definition wfAddress (a : address) : bool :=
  match a with
  | IPv4 ip => len ip =? 4
  | Domain name => len name <? 256
  | IPv6 ip => len ip =? 16
  end.

Definition encodeRequest (methods : list byte) (command rsv : byte)
  (a : address) (port : Z) : list byte :=
  byte_of_Z (len methods) :: methods
    ++ [x05; command; rsv; atypOf a] ++ encodeAddress a
    ++ [byte_of_Z (Z.shiftr port 8); byte_of_Z port].

(** The target the request names, as text. *)
Definition hostOf (IPString : list byte -> string) (a : address) : string :=
  match a with
  | IPv4 ip => IPString ip
  | Domain name => string_of_list_byte name
  | IPv6 ip => IPString ip
  end.

(** [net.IP(buf).String()] on a four-byte address: dotted decimal. *)
Definition dottedQuad (buf : list byte) : string :=
  Fmt.itoa (u8 (at_ buf 0)) +:+ "." +:+ Fmt.itoa (u8 (at_ buf 1)) +:+ "."
    +:+ Fmt.itoa (u8 (at_ buf 2)) +:+ "." +:+ Fmt.itoa (u8 (at_ buf 3)).

Definition targetText (IPString : list byte -> string) (a : address)
  (port : Z) : string :=
  match a with
  | IPv6 _ => "[" +:+ hostOf IPString a +:+ "]:" +:+ Fmt.itoa port
  | _ => hostOf IPString a +:+ ":" +:+ Fmt.itoa port
  end.

End SOCKS5.

(** ** Reading the handlers' actions and the dialer's trace *)

Module Actions.

Definition isTunnel (a : HTTP.action) : bool :=
  match a with HTTP.Tunnel _ _ _ => true | _ => false end.

Definition isWrite (a : HTTP.action) : bool :=
  match a with HTTP.Write _ => true | _ => false end.

Definition isSleep (ev : Dial.event) : bool :=
  match ev with Dial.EvSleep _ => true | _ => false end.

Definition isRefresh (ev : Dial.event) : bool :=
  match ev with Dial.EvRefresh => true | _ => false end.

Definition sleepCount (t : list Dial.event) : nat :=
  length (List.filter isSleep t).

Definition refreshCount (t : list Dial.event) : nat :=
  length (List.filter isRefresh t).

(** The first byte of a method name, as the sniffer sees it. *)
Definition firstByteOf (method : string) : option byte :=
  match method with
  | EmptyString => None
  | String c _ => Some (byte_of_ascii c)
  end.

Definition isSupportedMethod (method : string) : bool :=
  String.eqb method "CONNECT" || HTTP.isProxyMethod method.

(** A header line as a client sends it before CRLF: not empty, no line
    feed inside, no carriage return or line feed at its end. *)
Fixpoint cleanLine (line : string) : bool :=
  match line with
  | EmptyString => false
  | String c EmptyString => negb (Strings.is_crlf c)
  | String c rest => negb (Ascii.eqb c Strings.LF) && cleanLine rest
  end.

(** A complete record that the answer loop steps over: one of another
    type than HTTPS, or an HTTPS record in which no [ech] value is
    found. *)
Definition steppedOver (r : Wire.rr) : bool :=
  Wire.wfOwner (Wire.rr_owner r)
  && (0 <=? Wire.rr_type r) && (Wire.rr_type r <? 65536)
  && (len (Wire.rr_data r) <? 65536)
  && (negb (Wire.rr_type r =? DNS.typeHTTPS)
      || match DNS.parseHTTPSRecord (Wire.rr_data r) with
         | Done EmptyString => true
         | _ => false
         end).

(** [s] is the base64 text of a non-empty run of bytes of [response]. *)
Definition takenFrom (s : string) (response : list byte) : Prop :=
  exists pre v post,
    response = pre ++ v ++ post /\ v <> []
    /\ s = Base64.EncodeToString v.

(** The client is running exactly when it holds a listener, and then its
    ECH store is loaded. *)
Definition consistent (c : Client.ProxyClient) : Prop :=
  (Client.running c = true <-> Client.listener c <> None)
  /\ (Client.running c = true -> Client.echList c <> []).

End Actions.

(** ** The tunnel handshake *)

Module Tunnel.

Inductive action : Type :=
| ClientWrite (data : string)          (* conn.Write *)
| ClearDeadline                        (* conn.SetDeadline(time.Time{}) *)
| Peek                                 (* the 100 ms read for early data *)
| StartKeepalive                       (* the ping goroutine *)
| StopKeepalive                        (* close(stopPing), deferred *)
| WSWriteText (msg : string)           (* wsConn.WriteMessage(TextMessage, _) *)
| WSRead                               (* wsConn.ReadMessage() *)
| WSClose (wsConn : nat)               (* wsConn.Close(), deferred *)
| LogConnected (clientAddr target : string)
| Relay                                (* the two copying goroutines, until one is done *)
| LogDisconnected (clientAddr target : string).

Inductive tunnel_error : Type :=
| ErrDialFailed (e : Dial.dial_error)  (* the error of dialWebSocketWithECH *)
| ErrWSWrite                           (* the error of WriteMessage *)
| ErrWSRead                            (* the error of ReadMessage *)
| ErrGateway (response : string)       (* errors.New(response) *)
| ErrUnexpected (response : string)    (* unexpected response: %s *)
| ErrClientWrite.                      (* the error of conn.Write *)

(** Everything outside the function. *)
Record environment : Type := {
  dialEnv : Dial.environment;
  peeked : list byte;          (* what the client has sent within 100 ms *)
  wsWriteOK : bool;            (* the CONNECT message is written *)
  wsReply : option string;     (* the gateway's first message *)
  clientWriteOK : bool;        (* the success response is written *)
}.

Definition socks5Failure : string :=
  string_of_list_byte [x05; x04; x00; x01; x00; x00; x00; x00; x00; x00].
Definition socks5Success : string :=
  string_of_list_byte [x05; x00; x00; x01; x00; x00; x00; x00; x00; x00].
Definition badGateway : string :=
  "HTTP/1.1 502 Bad Gateway" +:+ Strings.CRLF +:+ Strings.CRLF.
Definition established : string :=
  "HTTP/1.1 200 Connection Established" +:+ Strings.CRLF +:+ Strings.CRLF.

Definition sendErrorResponse (mode : Z) : list action :=
  if mode =? HTTP.modeSOCKS5 then [ClientWrite socks5Failure]
  else if (mode =? HTTP.modeHTTPConnect) || (mode =? HTTP.modeHTTPProxy)
  then [ClientWrite badGateway]
  else [].

(** The actions and whether the write, if any, succeeds. *)
Definition sendSuccessResponse (writeOK : bool) (mode : Z)
  : list action * bool :=
  if mode =? HTTP.modeSOCKS5 then ([ClientWrite socks5Success], writeOK)
  else if mode =? HTTP.modeHTTPConnect
  then ([ClientWrite established], writeOK)
  else ([], true).

Definition connectMsg (target firstFrame : string) : string :=
  "CONNECT:" +:+ target +:+ "|" +:+ firstFrame.

(** What happens between the two deferred calls being registered and
    being run. *)
Definition handshake (env : environment) (target clientAddr : string)
  (mode : Z) (firstFrame : string) : option tunnel_error * list action :=
  let '(firstFrame, peekActions) :=
    if negb (HTTP.nonEmpty firstFrame) && (mode =? HTTP.modeSOCKS5) then
      let n := Z.min (len (peeked env)) 32768 in
      (if 0 <? n then string_of_list_byte (take (Z.to_nat n) (peeked env))
       else firstFrame, [Peek])
    else (firstFrame, []) in
  let before :=
    [ClearDeadline] ++ peekActions
      ++ [WSWriteText (connectMsg target firstFrame)] in
  if negb (wsWriteOK env)
  then (Some ErrWSWrite, before ++ sendErrorResponse mode)
  else
    let before := before ++ [WSRead] in
    match wsReply env with
    | None => (Some ErrWSRead, before ++ sendErrorResponse mode)
    | Some response =>
        if Strings.HasPrefix response "ERROR:"
        then (Some (ErrGateway response), before ++ sendErrorResponse mode)
        else if negb (String.eqb response "CONNECTED")
        then (Some (ErrUnexpected response),
              before ++ sendErrorResponse mode)
        else
          let '(success, ok) := sendSuccessResponse (clientWriteOK env) mode in
          if negb ok then (Some ErrClientWrite, before ++ success)
          else (None,
                before ++ success
                  ++ [LogConnected clientAddr target; Relay;
                      LogDisconnected clientAddr target])
    end.

Definition handleTunnel (env : environment) (st : Dial.state)
  (target clientAddr : string) (mode : Z) (firstFrame : string)
  : option tunnel_error * list action * Dial.state :=
  let '(res, st) := Dial.dialWebSocketWithECH (dialEnv env) 2 st in
  match res with
  | Dial.Failed e => (Some (ErrDialFailed e), sendErrorResponse mode, st)
  | Dial.Connected wsConn =>
      let '(err, actions) :=
        handshake env target clientAddr mode firstFrame in
      (err,
       [StartKeepalive] ++ actions ++ [StopKeepalive; WSClose wsConn],
       st)
  end.

Definition isClientWrite (a : action) : bool :=
  match a with ClientWrite _ => true | _ => false end.

Definition isRelay (a : action) : bool :=
  match a with Relay => true | _ => false end.

Definition isPeek (a : action) : bool :=
  match a with Peek => true | _ => false end.

End Tunnel.

(** ** A request's headers, by name *)

Module Request.

Section Headers.

Context {T : HTTP.GoText}.

(** The name of a header line: the text before its first colon, trimmed
    and in lower case.  A line without a colon, or with nothing before
    it, has none. *)
Definition headerName (line : string) : option string :=
  let idx := Strings.Index line ":" in
  if 0 <? idx
  then Some (HTTP.ToLower (HTTP.TrimSpace (Strings.upto line idx)))
  else None.

(** Its value: the text behind the first colon, trimmed. *)
Definition headerValue (line : string) : string :=
  HTTP.TrimSpace (Strings.from line (Strings.Index line ":" + 1)).

Definition named (name line : string) : bool :=
  match headerName line with
  | Some n => String.eqb n name
  | None => false
  end.

(** The value of header [name] among the header lines of a request: that
    of the last line so named. *)
Fixpoint headerOf (name : string) (lines : list string) : option string :=
  match lines with
  | [] => None
  | line :: rest =>
      match headerOf name rest with
      | Some value => Some value
      | None => if named name line then Some (headerValue line) else None
      end
  end.

End Headers.

End Request.

(** ** The retry policy, as a relation *)

Module Policy.

(** The answers of [count] dials in a row, the first being dial number
    [from] of the environment. *)
Fixpoint replies (env : Dial.environment) (from count : nat)
  : list Dial.dial_reply :=
  match count with
  | O => []
  | S count' => Dial.dialReply env from :: replies env (S from) count'
  end.

(** What the policy makes of the answers to its dials, from attempt [a]
    on, for a client that has an ECH configuration and system roots: the
    events and the result.  A dial that succeeds ends the run with its
    connection; a dial that fails without "ECH" in its message, or as
    the last attempt permitted, ends it with its own error; a dial that
    fails on ECH with attempts remaining is followed by the log line, the
    refresh, the one-second sleep and the run from attempt [a + 1]; with
    no attempt permitted nothing happens and the result is the "max
    retries" error. *)
Inductive run (maxRetries : Z)
  : Z -> list Dial.dial_reply -> list Dial.event -> Dial.dial_result -> Prop :=
| run_success (a : Z) (c : nat) :
    a <= maxRetries ->
    run maxRetries a [Dial.DialOk c] [Dial.EvDial a (Dial.DialOk c)]
      (Dial.Connected c)
| run_failure (a : Z) (msg : string) :
    a <= maxRetries ->
    Strings.Contains msg "ECH" = false \/ maxRetries <= a ->
    run maxRetries a [Dial.DialErr msg] [Dial.EvDial a (Dial.DialErr msg)]
      (Dial.Failed (Dial.ErrDial msg))
| run_retry (a : Z) (msg : string) (answers : list Dial.dial_reply)
    (t : list Dial.event) (r : Dial.dial_result) :
    Strings.Contains msg "ECH" = true ->
    a < maxRetries ->
    run maxRetries (a + 1) answers t r ->
    run maxRetries a (Dial.DialErr msg :: answers)
      (Dial.EvDial a (Dial.DialErr msg) :: Dial.EvLogInfo a maxRetries
         :: Dial.EvRefresh :: Dial.EvSleep 1000 :: t) r
| run_none (a : Z) :
    maxRetries < a ->
    run maxRetries a [] [] (Dial.Failed Dial.ErrMaxRetries).

End Policy.

(** * Properties *)

(** ** Bytes, lengths, indexing *)

Lemma u8_range b : 0 <= u8 b < 256.
Proof. unfold u8. pose proof (Byte.to_N_bounded b). lia. Qed.

Lemma byte_of_Z_u8 b : byte_of_Z (u8 b) = b.
Proof.
  unfold byte_of_Z. pose proof (u8_range b).
  rewrite Z.mod_small by lia. unfold u8. rewrite N2Z.id, Byte.of_to_N. reflexivity.
Qed.

Lemma byte_of_Z_mod z b : z mod 256 = u8 b -> byte_of_Z z = b.
Proof.
  intros H. rewrite <- (byte_of_Z_u8 b). unfold byte_of_Z at 1 2.
  rewrite H. pose proof (u8_range b). rewrite (Z.mod_small (u8 b)) by lia.
  reflexivity.
Qed.

Lemma u8_byte_of_Z z : u8 (byte_of_Z z) = z mod 256.
Proof.
  unfold byte_of_Z, u8.
  pose proof (Z.mod_pos_bound z 256 ltac:(lia)).
  destruct (Byte.of_N (Z.to_N (z mod 256))) eqn:E.
  - apply Byte.to_of_N in E. rewrite E. lia.
  - exfalso. pose proof (Byte.to_of_N_option_map (Z.to_N (z mod 256))) as H1.
    rewrite E in H1. simpl in H1.
    destruct (N.leb_spec (Z.to_N (z mod 256)) 255); [discriminate | lia].
Qed.

Lemma len_app a b : len (a ++ b) = len a + len b.
Proof. unfold len. rewrite length_app. lia. Qed.

Lemma len_cons x l : len (x :: l) = 1 + len l.
Proof. unfold len. simpl length. lia. Qed.

Lemma len_nil : len [] = 0.
Proof. reflexivity. Qed.

Lemma len_nonneg l : 0 <= len l.
Proof. unfold len. lia. Qed.

Lemma len_take k l : len (take k l) = Z.min (Z.of_nat k) (len l).
Proof. unfold len. rewrite length_take. lia. Qed.

(** Disjoint bit ranges: [or] is addition. *)
Lemma lor_disjoint_add x y n :
  0 <= n -> 0 <= y < 2 ^ n -> x mod 2 ^ n = 0 -> Z.lor x y = x + y.
Proof.
  intros Hn Hy Hx. symmetry. apply Z.add_nocarry_lor.
  apply Z.bits_inj'. intros i Hi. rewrite Z.land_spec, Z.bits_0.
  destruct (Z.lt_ge_cases i n) as [Hlt|Hge].
  - replace (Z.testbit x i) with false; [reflexivity|].
    symmetry. rewrite <- (Z.mod_pow2_bits_low x n i) by lia.
    rewrite Hx. apply Z.bits_0.
  - replace (Z.testbit y i) with false; [apply andb_false_r|].
    symmetry. destruct (Z.eq_dec y 0) as [->|Hy0]; [apply Z.bits_0|].
    apply Z.bits_above_log2; [lia|].
    assert (2 ^ n <= 2 ^ i) by (apply Z.pow_le_mono_r; lia).
    apply Z.log2_lt_pow2; lia.
Qed.

Lemma bind_Done {A B} (a : A) (k : A -> outcome B) : (Done a ≫= k) = k a.
Proof. reflexivity. Qed.

(** Reading at the seam of a concatenation. *)
Lemma index_at buf pre b post off :
  buf = pre ++ b :: post -> off = len pre -> index buf off = Done b.
Proof.
  intros -> ->. unfold index. rewrite len_app, len_cons.
  pose proof (len_nonneg pre). pose proof (len_nonneg post).
  destruct (Z.leb_spec 0 (len pre)); [|lia].
  destruct (Z.ltb_spec (len pre) (len pre + (1 + len post))); [|lia].
  simpl. unfold len. rewrite Nat2Z.id.
  rewrite nth_error_app2 by lia. rewrite Nat.sub_diag. reflexivity.
Qed.

Lemma slice_at buf pre mid post lo hi :
  buf = pre ++ mid ++ post -> lo = len pre -> hi = lo + len mid ->
  slice buf lo hi = Done mid.
Proof.
  intros -> -> ->. unfold slice. rewrite !len_app.
  pose proof (len_nonneg pre). pose proof (len_nonneg mid).
  pose proof (len_nonneg post).
  destruct (Z.leb_spec 0 (len pre)); [|lia].
  destruct (Z.leb_spec (len pre) (len pre + len mid)); [|lia].
  destruct (Z.leb_spec (len pre + len mid) (len pre + (len mid + len post))); [|lia].
  simpl. f_equal.
  replace (len pre + len mid - len pre) with (len mid) by lia.
  unfold len. rewrite !Nat2Z.id.
  rewrite drop_app_length, take_app_length. reflexivity.
Qed.

Lemma index_in_range s i : 0 <= i < len s -> exists b, index s i = Done b.
Proof.
  intros H. unfold index.
  destruct (Z.leb_spec 0 i); [|lia]. destruct (Z.ltb_spec i (len s)); [|lia].
  simpl. destruct (nth_error s (Z.to_nat i)) eqn:E; [eauto|].
  apply nth_error_None in E. unfold len in *. lia.
Qed.

Lemma slice_in_range s lo hi :
  0 <= lo -> lo <= hi -> hi <= len s ->
  exists l, slice s lo hi = Done l /\ len l = hi - lo.
Proof.
  intros H1 H2 H3. unfold slice.
  destruct (Z.leb_spec 0 lo); [|lia]. destruct (Z.leb_spec lo hi); [|lia].
  destruct (Z.leb_spec hi (len s)); [|lia]. simpl.
  eexists; split; [reflexivity|].
  unfold len in *. rewrite length_take, length_drop. lia.
Qed.

Lemma Uint16_in_range l :
  2 <= len l -> exists z, Uint16 l = Done z /\ 0 <= z < 65536.
Proof.
  intros H. unfold Uint16.
  destruct (index_in_range l 1) as [b1 E1]; [lia|].
  destruct (index_in_range l 0) as [b0 E0]; [lia|].
  rewrite E1, bind_Done, E0, bind_Done.
  eexists; split; [reflexivity|].
  pose proof (u8_range b0). pose proof (u8_range b1).
  rewrite Z.lor_comm, Z.shiftl_mul_pow2 by lia. change (2 ^ 8) with 256.
  rewrite (lor_disjoint_add _ _ 8);
    [lia|lia|change (2 ^ 8) with 256; lia|apply Z.mod_mul; lia].
Qed.

Lemma Uint16_pair a b : Uint16 [a; b] = Done (u8 a * 256 + u8 b).
Proof.
  unfold Uint16.
  change (index [a; b] 1) with (Done b). change (index [a; b] 0) with (Done a).
  rewrite !bind_Done. f_equal.
  pose proof (u8_range a). pose proof (u8_range b).
  rewrite Z.lor_comm, Z.shiftl_mul_pow2 by lia. change (2 ^ 8) with 256.
  apply (lor_disjoint_add _ _ 8); [lia|change (2 ^ 8) with 256; lia|].
  apply Z.mod_mul; lia.
Qed.

(** ** The parser never leaves its input *)

Lemma skipLabels_total fuel buf off :
  0 <= off -> Z.max 0 (len buf - off) < Z.of_nat fuel ->
  exists o, DNS.skipLabels fuel buf off = Done o /\ off <= o.
Proof.
  revert off. induction fuel as [|fuel IH]; intros off Hoff Hfuel; [lia|].
  simpl. destruct (Z.ltb_spec off (len buf)) as [Hlt|Hge].
  - destruct (index_in_range buf off) as [b Eb]; [lia|].
    rewrite Eb, !bind_Done.
    destruct (Z.eqb_spec (u8 b) 0) as [|Hnz]; [exists off; split; [reflexivity|lia]|].
    pose proof (u8_range b).
    destruct (IH (off + (u8 b + 1))) as (o & Eo & Ho); [lia|lia|].
    exists o. split; [exact Eo|lia].
  - exists off. split; [reflexivity|lia].
Qed.

Lemma svcParams_total fuel data off :
  0 <= off -> Z.max 0 (len data - off) < Z.of_nat fuel ->
  exists s, DNS.svcParams fuel data off = Done s.
Proof.
  revert off. induction fuel as [|fuel IH]; intros off Hoff Hfuel; [lia|].
  simpl. destruct (Z.leb_spec (off + 4) (len data)) as [Hle|Hgt]; [|eauto].
  destruct (slice_in_range data off (off + 2)) as (k & Ek & Lk); [lia..|].
  destruct (Uint16_in_range k) as (key & Ekey & _); [lia|].
  destruct (slice_in_range data (off + 2) (off + 4)) as (l & El & Ll); [lia..|].
  destruct (Uint16_in_range l) as (n & En & Hn); [lia|].
  rewrite Ek, bind_Done, Ekey, bind_Done, El, bind_Done, En, bind_Done.
  destruct (Z.ltb_spec (len data) (off + 4 + n)) as [|Hfit]; [eauto|].
  destruct (slice_in_range data (off + 4) (off + 4 + n)) as (v & Ev & _); [lia..|].
  rewrite Ev, bind_Done.
  destruct (key =? 5); [eauto|].
  apply IH; lia.
Qed.

Lemma parseHTTPSRecord_total data : exists s, DNS.parseHTTPSRecord data = Done s.
Proof.
  unfold DNS.parseHTTPSRecord.
  destruct (Z.ltb_spec (len data) 2) as [|Hlen]; [eauto|].
  assert (Hroot : exists root : bool,
    (if 2 <? len data then b ← index data 2; Done (u8 b =? 0) else Done false)
      = Done root).
  { destruct (Z.ltb_spec 2 (len data)); [|eauto].
    destruct (index_in_range data 2) as [b Eb]; [lia|].
    rewrite Eb, bind_Done. eauto. }
  destruct Hroot as [root ->]. rewrite bind_Done.
  destruct root.
  - rewrite bind_Done. apply svcParams_total; unfold len; lia.
  - destruct (skipLabels_total (S (length data)) data 2) as (o & Eo & Ho);
      [lia|unfold len; lia|].
    rewrite Eo, !bind_Done. apply svcParams_total; unfold len; lia.
Qed.

Lemma answers_total left response off :
  0 <= off -> exists r, DNS.answers left response off = Done r.
Proof.
  revert off. induction left as [|left IH]; intros off Hoff; cbn [DNS.answers]; [eauto|].
  destruct (Z.leb_spec (len response) off) as [|Hin]; [eauto|].
  destruct (index_in_range response off) as [b Eb]; [lia|].
  rewrite Eb, bind_Done.
  assert (Hown : exists o, off <= o /\
    (if Z.land (u8 b) 192 =? 192 then Done (off + 2)
     else o ← DNS.skipLabels (S (length response)) response off; Done (o + 1))
      = Done o).
  { destruct (Z.land (u8 b) 192 =? 192).
    - exists (off + 2). split; [lia|reflexivity].
    - destruct (skipLabels_total (S (length response)) response off)
        as (o & Eo & Ho); [lia|unfold len; lia|].
      rewrite Eo, bind_Done. exists (o + 1). split; [lia|reflexivity]. }
  destruct Hown as (o & Ho & ->). rewrite bind_Done.
  destruct (Z.ltb_spec (len response) (o + 10)) as [|Hfix]; [eauto|].
  destruct (slice_in_range response o (o + 2)) as (t & Et & Lt); [lia..|].
  destruct (Uint16_in_range t) as (rrType & Ety & _); [lia|].
  destruct (slice_in_range response (o + 8) (o + 8 + 2)) as (d & Ed & Ld); [lia..|].
  destruct (Uint16_in_range d) as (dataLen & Edl & Hdl); [lia|].
  rewrite Et, bind_Done, Ety, bind_Done, Ed, bind_Done, Edl, bind_Done.
  destruct (Z.ltb_spec (len response) (o + 8 + 2 + dataLen)) as [|Hdata]; [eauto|].
  destruct (slice_in_range response (o + 8 + 2) (o + 8 + 2 + dataLen))
    as (data & Edata & _); [lia..|].
  rewrite Edata, bind_Done.
  destruct (rrType =? DNS.typeHTTPS); [|apply IH; lia].
  destruct (parseHTTPSRecord_total data) as [ech ->]. rewrite bind_Done.
  destruct (DNS.nonEmpty ech); [eauto|apply IH; lia].
Qed.

(** C10. On every input [parseDNSResponse] and [parseHTTPSRecord] return:
    no index or slice expression leaves the bounds of the input (no
    [Panic]), and the loops end within the budget the entry points give
    them (no [OutOfFuel]). *)
Theorem parser_never_panics :
  (forall response, exists r, DNS.parseDNSResponse response = Done r)
  /\ (forall data, exists s, DNS.parseHTTPSRecord data = Done s).
Proof.
  split; [|apply parseHTTPSRecord_total].
  intros response. unfold DNS.parseDNSResponse.
  destruct (Z.ltb_spec (len response) 12) as [|Hlen]; [eauto|].
  destruct (slice_in_range response 6 8) as (h & Eh & Lh); [lia..|].
  destruct (Uint16_in_range h) as (ancount & Ean & _); [lia|].
  rewrite Eh, bind_Done, Ean, bind_Done.
  destruct (ancount =? 0); [eauto|].
  destruct (skipLabels_total (S (length response)) response 12) as (o & Eo & Ho);
    [lia|unfold len; lia|].
  rewrite Eo, bind_Done. apply answers_total. lia.
Qed.

(** ** Base64 *)

Section Base64Facts.
Import Base64.

Lemma enc6_sound v : 0 <= v < 64 -> dec6 (enc6 v) = Some v /\ is_pad (enc6 v) = false.
Proof.
  intros H.
  assert (E : exists n, (n < 64)%nat /\ v = Z.of_nat n) by (exists (Z.to_nat v); lia).
  destruct E as (n & Hn & ->). clear H.
  do 64 (destruct n as [|n]; [vm_compute; split; reflexivity|]). lia.
Qed.

Lemma enc6_not_newline v : Strings.is_crlf (enc6 v) = false.
Proof.
  unfold enc6.
  destruct (Nat.lt_ge_cases (Z.to_nat v) 64) as [Hn|Hn].
  - revert Hn. generalize (Z.to_nat v). intros n Hn.
    do 64 (destruct n as [|n]; [vm_compute; reflexivity|]). lia.
  - replace (String.get (Z.to_nat v) encodeStd) with (@None ascii); [reflexivity|].
    replace (Z.to_nat v) with (64 + (Z.to_nat v - 64))%nat by lia. reflexivity.
Qed.


Lemma group_val a b c :
  Z.lor (Z.lor (Z.shiftl (u8 a) 16) (Z.shiftl (u8 b) 8)) (u8 c)
  = u8 a * 65536 + u8 b * 256 + u8 c.
Proof.
  pose proof (u8_range a). pose proof (u8_range b). pose proof (u8_range c).
  rewrite !Z.shiftl_mul_pow2 by lia.
  change (2 ^ 16) with 65536. change (2 ^ 8) with 256.
  rewrite (lor_disjoint_add (u8 a * 65536) (u8 b * 256) 16);
    [|lia|change (2 ^ 16) with 65536; lia|change (2 ^ 16) with 65536; apply Z.mod_mul; lia].
  apply (lor_disjoint_add _ _ 8); [lia|change (2 ^ 8) with 256; lia|].
  change (2 ^ 8) with 256.
  replace (u8 a * 65536 + u8 b * 256) with ((u8 a * 256 + u8 b) * 256) by lia.
  apply Z.mod_mul; lia.
Qed.

Lemma quantum_val s0 s1 s2 s3 :
  0 <= s0 < 64 -> 0 <= s1 < 64 -> 0 <= s2 < 64 -> 0 <= s3 < 64 ->
  Z.lor (Z.lor (Z.lor (Z.shiftl s0 18) (Z.shiftl s1 12)) (Z.shiftl s2 6)) s3
  = s0 * 262144 + s1 * 4096 + s2 * 64 + s3.
Proof.
  intros H0 H1 H2 H3.
  rewrite !Z.shiftl_mul_pow2 by lia.
  change (2 ^ 18) with 262144. change (2 ^ 12) with 4096. change (2 ^ 6) with 64.
  rewrite (lor_disjoint_add (s0 * 262144) (s1 * 4096) 18);
    [|lia|change (2 ^ 18) with 262144; lia|change (2 ^ 18) with 262144; apply Z.mod_mul; lia].
  rewrite (lor_disjoint_add (s0 * 262144 + s1 * 4096) (s2 * 64) 12);
    [|lia|change (2 ^ 12) with 4096; lia|].
  2:{ change (2 ^ 12) with 4096.
      replace (s0 * 262144 + s1 * 4096) with ((s0 * 64 + s1) * 4096) by lia.
      apply Z.mod_mul; lia. }
  apply (lor_disjoint_add _ _ 6); [lia|change (2 ^ 6) with 64; lia|].
  change (2 ^ 6) with 64.
  replace (s0 * 262144 + s1 * 4096 + s2 * 64) with ((s0 * 4096 + s1 * 64 + s2) * 64) by lia.
  apply Z.mod_mul; lia.
Qed.

Lemma sextet v k : 0 <= k -> Z.land (Z.shiftr v k) 63 = (v / 2 ^ k) mod 64.
Proof.
  intros Hk. rewrite Z.shiftr_div_pow2 by lia.
  change 63 with (Z.ones 6). rewrite Z.land_ones by lia. reflexivity.
Qed.

Lemma sextet0 v : Z.land v 63 = v mod 64.
Proof. change 63 with (Z.ones 6). rewrite Z.land_ones by lia. reflexivity. Qed.


Lemma bytes_of_sextets a b c :
  0 <= a < 256 -> 0 <= b < 256 -> 0 <= c < 256 ->
  let V := a * 65536 + b * 256 + c in
  let W := (V / 262144) mod 64 * 262144 + (V / 4096) mod 64 * 4096
           + (V / 64) mod 64 * 64 + V mod 64 in
  (W / 65536) mod 256 = a /\ (W / 256) mod 256 = b /\ W mod 256 = c.
Proof.
  intros Ha Hb Hc V W.
  assert (HW : W = V) by (subst W; Z.div_mod_to_equations; lia).
  rewrite HW. subst V. clear HW W. Z.div_mod_to_equations. lia.
Qed.

Lemma decode_group a b c last :
  let val := Z.lor (Z.lor (Z.shiftl (u8 a) 16) (Z.shiftl (u8 b) 8)) (u8 c) in
  decodeQuantum (enc6 (Z.land (Z.shiftr val 18) 63))
                (enc6 (Z.land (Z.shiftr val 12) 63))
                (enc6 (Z.land (Z.shiftr val 6) 63))
                (enc6 (Z.land val 63)) last = Some [a; b; c].
Proof.
  intros val. subst val. rewrite group_val.
  pose proof (u8_range a) as Ha. pose proof (u8_range b) as Hb.
  pose proof (u8_range c) as Hc.
  rewrite !sextet by lia. rewrite sextet0.
  change (2 ^ 18) with 262144. change (2 ^ 12) with 4096. change (2 ^ 6) with 64.
  set (V := u8 a * 65536 + u8 b * 256 + u8 c).
  pose proof (Z.mod_pos_bound (V / 262144) 64 ltac:(lia)) as B0.
  pose proof (Z.mod_pos_bound (V / 4096) 64 ltac:(lia)) as B1.
  pose proof (Z.mod_pos_bound (V / 64) 64 ltac:(lia)) as B2.
  pose proof (Z.mod_pos_bound V 64 ltac:(lia)) as B3.
  unfold decodeQuantum.
  destruct (enc6_sound _ B0) as [-> _]. destruct (enc6_sound _ B1) as [-> _].
  destruct (enc6_sound _ B2) as [-> ->]. destruct (enc6_sound _ B3) as [-> ->].
  rewrite quantum_val by lia. rewrite !Z.shiftr_div_pow2 by lia.
  change (2 ^ 16) with 65536. change (2 ^ 8) with 256.
  destruct (bytes_of_sextets (u8 a) (u8 b) (u8 c) Ha Hb Hc) as (E0 & E1 & E2).
  fold V in E0, E1, E2.
  rewrite (byte_of_Z_mod _ a E0), (byte_of_Z_mod _ b E1), (byte_of_Z_mod _ c E2).
  reflexivity.
Qed.

Lemma decode_tail1 a :
  let val := Z.shiftl (u8 a) 16 in
  decodeQuantum (enc6 (Z.land (Z.shiftr val 18) 63))
                (enc6 (Z.land (Z.shiftr val 12) 63)) pad pad true = Some [a].
Proof.
  intros val. subst val.
  pose proof (u8_range a) as Ha.
  rewrite !sextet by lia. rewrite Z.shiftl_mul_pow2 by lia.
  change (2 ^ 18) with 262144. change (2 ^ 12) with 4096. change (2 ^ 16) with 65536.
  set (V := u8 a * 65536).
  pose proof (Z.mod_pos_bound (V / 262144) 64 ltac:(lia)) as B0.
  pose proof (Z.mod_pos_bound (V / 4096) 64 ltac:(lia)) as B1.
  unfold decodeQuantum.
  destruct (enc6_sound _ B0) as [-> _]. destruct (enc6_sound _ B1) as [-> _].
  change (is_pad pad) with true. cbn [andb].
  pose proof (quantum_val _ _ 0 0 B0 B1 ltac:(lia) ltac:(lia)) as Q.
  change (Z.shiftl 0 6) with 0 in Q. rewrite !Z.lor_0_r in Q. rewrite Q.
  rewrite Z.shiftr_div_pow2 by lia. change (2 ^ 16) with 65536.
  f_equal. f_equal. apply byte_of_Z_mod. subst V.
  Z.div_mod_to_equations. lia.
Qed.

Lemma decode_tail2 a b :
  let val := Z.lor (Z.shiftl (u8 a) 16) (Z.shiftl (u8 b) 8) in
  decodeQuantum (enc6 (Z.land (Z.shiftr val 18) 63))
                (enc6 (Z.land (Z.shiftr val 12) 63))
                (enc6 (Z.land (Z.shiftr val 6) 63)) pad true = Some [a; b].
Proof.
  intros val. subst val.
  pose proof (u8_range a) as Ha. pose proof (u8_range b) as Hb.
  pose proof (group_val a b x00) as G.
  change (u8 x00) with 0 in G. rewrite Z.lor_0_r, Z.add_0_r in G. rewrite G.
  rewrite !sextet by lia.
  change (2 ^ 18) with 262144. change (2 ^ 12) with 4096. change (2 ^ 6) with 64.
  set (V := u8 a * 65536 + u8 b * 256).
  pose proof (Z.mod_pos_bound (V / 262144) 64 ltac:(lia)) as B0.
  pose proof (Z.mod_pos_bound (V / 4096) 64 ltac:(lia)) as B1.
  pose proof (Z.mod_pos_bound (V / 64) 64 ltac:(lia)) as B2.
  unfold decodeQuantum.
  destruct (enc6_sound _ B0) as [-> _]. destruct (enc6_sound _ B1) as [-> _].
  destruct (enc6_sound _ B2) as [-> ->].
  change (is_pad pad) with true. cbv iota.
  pose proof (quantum_val _ _ _ 0 B0 B1 B2 ltac:(lia)) as Q.
  rewrite Z.lor_0_r, Z.add_0_r in Q. rewrite Q.
  rewrite !Z.shiftr_div_pow2 by lia. change (2 ^ 16) with 65536. change (2 ^ 8) with 256.
  assert (E0 : ((V / 262144) mod 64 * 262144 + (V / 4096) mod 64 * 4096
                + (V / 64) mod 64 * 64) / 65536 mod 256 = u8 a)
    by (subst V; Z.div_mod_to_equations; lia).
  assert (E1 : ((V / 262144) mod 64 * 262144 + (V / 4096) mod 64 * 4096
                + (V / 64) mod 64 * 64) / 256 mod 256 = u8 b)
    by (subst V; Z.div_mod_to_equations; lia).
  rewrite (byte_of_Z_mod _ a E0), (byte_of_Z_mod _ b E1). reflexivity.
Qed.

Lemma list_ind3 {A} (P : list A -> Prop) :
  P [] -> (forall a, P [a]) -> (forall a b, P [a; b]) ->
  (forall a b c l, P l -> P (a :: b :: c :: l)) ->
  forall l, P l.
Proof.
  intros H0 H1 H2 H3 l.
  assert (H : P l /\ (forall a, P (a :: l)) /\ (forall a b, P (a :: b :: l))).
  { induction l as [|x l (IH0 & IH1 & IH2)]; [auto|].
    split; [apply IH1|]. split; [intros; apply IH2|].
    intros a b. apply H3, IH0. }
  apply H.
Qed.


Lemma decodeQuanta_encode src : decodeQuanta (EncodeToString src) = Some src.
Proof.
  induction src as [|a|a b|a b c rest IH] using list_ind3.
  - reflexivity.
  - cbn [EncodeToString decodeQuanta]. cbv zeta.
    pose proof (decode_tail1 a) as E. cbv zeta in E. rewrite E. reflexivity.
  - cbn [EncodeToString decodeQuanta]. cbv zeta.
    pose proof (decode_tail2 a b) as E. cbv zeta in E. rewrite E. reflexivity.
  - cbn [EncodeToString decodeQuanta]. cbv zeta.
    pose proof (decode_group a b c) as E. cbv zeta in E. rewrite E, IH. reflexivity.
Qed.

Lemma dropNewlines_encode src : dropNewlines (EncodeToString src) = EncodeToString src.
Proof.
  induction src as [|a|a b|a b c rest IH] using list_ind3;
    cbn [EncodeToString dropNewlines]; cbv zeta;
    rewrite ?enc6_not_newline; cbn [dropNewlines]; try reflexivity.
  rewrite IH. reflexivity.
Qed.

Lemma DecodeString_EncodeToString src :
  DecodeString (EncodeToString src) = Some src.
Proof. unfold DecodeString. rewrite dropNewlines_encode. apply decodeQuanta_encode. Qed.

End Base64Facts.

(** ** The wire format *)

Import Wire.

Lemma len_be16 z : len (be16 z) = 2.
Proof. reflexivity. Qed.

Lemma len_be32 z : len (be32 z) = 4.
Proof. reflexivity. Qed.

Lemma Uint16_be16 z : 0 <= z < 65536 -> Uint16 (be16 z) = Done z.
Proof.
  intros Hz. unfold be16. rewrite Uint16_pair, !u8_byte_of_Z. f_equal.
  rewrite Z.shiftr_div_pow2 by lia. change (2 ^ 8) with 256.
  Z.div_mod_to_equations. lia.
Qed.

Lemma encodeLabels_cons l ls :
  encodeLabels (l :: ls) = (byte_of_Z (len l) :: l) ++ encodeLabels ls.
Proof. reflexivity. Qed.

Lemma wfLabels_cons max l ls :
  wfLabels max (l :: ls) = true ->
  1 <= len l <= max /\ wfLabels max ls = true.
Proof.
  unfold wfLabels. cbn [forallb]. intros H.
  apply andb_prop in H as [H1 H2]. apply andb_prop in H1 as [H0 H1].
  split; [lia|exact H2].
Qed.


Lemma labels_count ls :
  wfLabels 255 ls = true -> Z.of_nat (length ls) <= len (encodeLabels ls).
Proof.
  induction ls as [|l ls IH]; intros H; [unfold len; simpl; lia|].
  apply wfLabels_cons in H as [Hl Hls].
  rewrite encodeLabels_cons, len_app, len_cons. specialize (IH Hls).
  simpl length. lia.
Qed.

(** The label loop stops on the zero octet that closes the name. *)
Lemma skipLabels_name fuel buf pre ls post :
  wfLabels 255 ls = true -> (length ls < fuel)%nat ->
  buf = pre ++ encodeLabels ls ++ x00 :: post ->
  DNS.skipLabels fuel buf (len pre) = Done (len pre + len (encodeLabels ls)).
Proof.
  revert fuel buf pre. induction ls as [|l ls IH]; intros fuel buf pre Hwf Hfuel ->.
  - destruct fuel as [|fuel]; [simpl in Hfuel; lia|].
    cbn [DNS.skipLabels encodeLabels map concat app].
    rewrite len_app, len_cons.
    pose proof (len_nonneg pre). pose proof (len_nonneg post).
    destruct (Z.ltb_spec (len pre) (len pre + (1 + len post))); [|lia].
    rewrite (index_at _ pre x00 post) by reflexivity.
    rewrite bind_Done. change (u8 x00 =? 0) with true. cbv iota.
    rewrite len_nil. f_equal. lia.
  - apply wfLabels_cons in Hwf as [Hl Hwf].
    destruct fuel as [|fuel]; [simpl in Hfuel; lia|].
    cbn [DNS.skipLabels]. rewrite encodeLabels_cons.
    set (n := byte_of_Z (len l)).
    assert (Hn : u8 n = len l)
      by (subst n; rewrite u8_byte_of_Z; apply Z.mod_small; lia).
    rewrite !len_app, !len_cons.
    pose proof (len_nonneg pre). pose proof (len_nonneg post).
    pose proof (len_nonneg (encodeLabels ls)).
    destruct (Z.ltb_spec (len pre)
                (len pre + (1 + len l + len (encodeLabels ls) + (1 + len post))));
      [|lia].
    rewrite (index_at _ pre n (l ++ encodeLabels ls ++ x00 :: post))
      by (try reflexivity; cbn [app]; rewrite <- ?app_assoc; reflexivity).
    rewrite !bind_Done, Hn.
    destruct (Z.eqb_spec (len l) 0); [lia|].
    replace (len pre + (len l + 1)) with (len (pre ++ n :: l))
      by (rewrite len_app, len_cons; lia).
    rewrite (IH fuel _ (pre ++ n :: l) Hwf); [|simpl in Hfuel; lia|].
    + f_equal. rewrite len_app, len_cons. lia.
    + cbn [app]. rewrite <- !app_assoc. reflexivity.
Qed.


Lemma len_encodeParam k v : len (encodeParam (k, v)) = 4 + len v.
Proof. unfold encodeParam. cbn [fst snd]. rewrite !len_app, !len_be16. lia. Qed.

(** One round of the SvcParam loop on a complete parameter. *)
Lemma svcParams_step fuel data pre k v rest :
  0 <= k < 65536 -> len v < 65536 ->
  data = pre ++ encodeParam (k, v) ++ rest ->
  DNS.svcParams (S fuel) data (len pre)
  = if k =? 5 then Done (Base64.EncodeToString v)
    else DNS.svcParams fuel data (len pre + (4 + len v)).
Proof.
  intros Hk Hv ->. unfold encodeParam. cbn [fst snd DNS.svcParams].
  pose proof (len_nonneg pre). pose proof (len_nonneg v).
  pose proof (len_nonneg rest).
  rewrite !len_app, !len_be16.
  destruct (Z.leb_spec (len pre + 4) (len pre + (2 + (2 + len v) + len rest)));
    [|lia].
  rewrite (slice_at _ pre (be16 k) (be16 (len v) ++ v ++ rest) (len pre)
             (len pre + 2));
    [|rewrite <- ?app_assoc; reflexivity|reflexivity|rewrite len_be16; lia].
  rewrite bind_Done, Uint16_be16, bind_Done by lia.
  rewrite (slice_at _ (pre ++ be16 k) (be16 (len v)) (v ++ rest)
             (len pre + 2) (len pre + 4));
    [|rewrite <- ?app_assoc; reflexivity|rewrite len_app, len_be16; lia
     |rewrite len_be16; lia].
  rewrite bind_Done, Uint16_be16, bind_Done by lia.
  destruct (Z.ltb_spec (len pre + (2 + (2 + len v) + len rest))
              (len pre + 4 + len v)); [lia|].
  rewrite (slice_at _ (pre ++ be16 k ++ be16 (len v)) v rest
             (len pre + 4) (len pre + 4 + len v));
    [|rewrite <- ?app_assoc; reflexivity|rewrite !len_app, !len_be16; lia|lia].
  rewrite bind_Done.
  replace (len pre + 4 + len v) with (len pre + (4 + len v)) by lia.
  reflexivity.
Qed.

Lemma wfOtherParams_cons p ps :
  wfOtherParams (p :: ps) = true ->
  (0 <= fst p < 65536 /\ fst p <> 5 /\ len (snd p) < 65536)
  /\ wfOtherParams ps = true.
Proof.
  unfold wfOtherParams. cbn [forallb]. intros H.
  apply andb_prop in H as [H1 H2]. apply andb_prop in H1 as [H1 H5].
  apply andb_prop in H1 as [H1 H4]. apply andb_prop in H1 as [H1 H3].
  apply negb_true_iff in H4. split; [|exact H2]. lia.
Qed.

(** The SvcParam loop finds key 5 behind any parameters with other keys. *)
Lemma svcParams_find fuel data pre before e after :
  wfOtherParams before = true -> len e < 65536 ->
  (length before < fuel)%nat ->
  data = pre ++ encodeParams before ++ encodeParam (5, e) ++ after ->
  DNS.svcParams fuel data (len pre) = Done (Base64.EncodeToString e).
Proof.
  revert fuel data pre.
  induction before as [|[k v] ps IH]; intros fuel data pre Hwf He Hfuel ->.
  - destruct fuel as [|fuel]; [simpl in Hfuel; lia|].
    cbn [encodeParams map concat app].
    rewrite (svcParams_step fuel _ pre 5 e after) by (reflexivity || lia).
    reflexivity.
  - destruct fuel as [|fuel]; [simpl in Hfuel; lia|].
    apply wfOtherParams_cons in Hwf as [(Hk & Hk5 & Hv) Hwf].
    cbn [fst snd] in Hk, Hk5, Hv.
    change (encodeParams ((k, v) :: ps))
      with (encodeParam (k, v) ++ encodeParams ps).
    rewrite (svcParams_step fuel _ pre k v
               (encodeParams ps ++ encodeParam (5, e) ++ after));
      [|lia|lia|rewrite <- ?app_assoc; reflexivity].
    destruct (Z.eqb_spec k 5); [lia|].
    replace (len pre + (4 + len v)) with (len (pre ++ encodeParam (k, v)))
      by (rewrite len_app, len_encodeParam; lia).
    apply IH; [exact Hwf|exact He|simpl in Hfuel; lia|].
    rewrite <- ?app_assoc. reflexivity.
Qed.

Lemma params_count ps : Z.of_nat (length ps) <= len (encodeParams ps).
Proof.
  induction ps as [|[k v] ps IH]; [unfold len; simpl; lia|].
  change (encodeParams ((k, v) :: ps))
    with (encodeParam (k, v) ++ encodeParams ps).
  rewrite len_app, len_encodeParam. pose proof (len_nonneg v).
  simpl length. lia.
Qed.


Ltac lens :=
  repeat first
    [ rewrite len_app | rewrite len_cons | rewrite len_nil
    | rewrite len_be16 | rewrite len_be32 | rewrite len_encodeParam ].

Lemma len_encodeName ls : len (encodeName ls) = len (encodeLabels ls) + 1.
Proof. unfold encodeName. lens. lia. Qed.

(** [parseHTTPSRecord] steps over an uncompressed TargetName and returns
    the value of key 5 in base64. *)
Lemma parseHTTPSRecord_uncompressed priority target before e after :
  wfLabels 255 target = true -> wfOtherParams before = true ->
  len e < 65536 ->
  DNS.parseHTTPSRecord
    (httpsRData priority (encodeName target) before e after)
  = Done (Base64.EncodeToString e).
Proof.
  intros Hwf Hps He.
  set (data := httpsRData priority (encodeName target) before e after).
  assert (Hdata : data = be16 priority ++ encodeLabels target ++ x00 ::
                    (encodeParams before ++ encodeParam (5, e) ++ after)).
  { unfold data, httpsRData, encodeName. rewrite <- ?app_assoc. reflexivity. }
  assert (Hlen : len data = 2 + len (encodeLabels target) + 1
                            + len (encodeParams before) + (4 + len e)
                            + len after).
  { rewrite Hdata. lens. lia. }
  pose proof (len_nonneg (encodeLabels target)) as Hl.
  pose proof (len_nonneg (encodeParams before)) as Hp.
  pose proof (len_nonneg e). pose proof (len_nonneg after).
  pose proof (labels_count target Hwf) as Hcl.
  pose proof (params_count before) as Hcp.
  assert (Hfl : (length target < S (length data))%nat)
    by (unfold len in *; lia).
  assert (Hfp : (length before < S (length data))%nat)
    by (unfold len in *; lia).
  assert (Hsvc : DNS.svcParams (S (length data)) data
                   (2 + len (encodeLabels target) + 1)
                 = Done (Base64.EncodeToString e)).
  { replace (2 + len (encodeLabels target) + 1)
      with (len (be16 priority ++ encodeName target))
      by (lens; rewrite len_encodeName; lia).
    apply (svcParams_find _ _ _ before e after Hps He Hfp).
    unfold data, httpsRData. rewrite <- ?app_assoc. reflexivity. }
  unfold DNS.parseHTTPSRecord. fold data.
  destruct (Z.ltb_spec (len data) 2); [lia|].
  destruct (Z.ltb_spec 2 (len data)); [|lia].
  destruct target as [|l ls].
  - rewrite (index_at data (be16 priority) x00
               (encodeParams before ++ encodeParam (5, e) ++ after))
      by (try reflexivity; exact Hdata).
    rewrite !bind_Done. change (u8 x00 =? 0) with true. cbv iota.
    rewrite bind_Done. exact Hsvc.
  - pose proof Hwf as Hwf'. apply wfLabels_cons in Hwf' as [Hl1 _].
    rewrite (index_at data (be16 priority) (byte_of_Z (len l))
               (l ++ encodeLabels ls ++ x00 ::
                  (encodeParams before ++ encodeParam (5, e) ++ after)))
      by (try reflexivity; rewrite Hdata, encodeLabels_cons; cbn [app];
          rewrite <- ?app_assoc; reflexivity).
    rewrite !bind_Done, u8_byte_of_Z, Z.mod_small by lia.
    destruct (Z.eqb_spec (len l) 0); [lia|]. cbv iota.
    change 2 with (len (be16 priority)) at 1.
    rewrite (skipLabels_name _ data (be16 priority) (l :: ls) _ Hwf Hfl Hdata).
    rewrite !bind_Done. rewrite len_be16. exact Hsvc.
Qed.







(** What [buildDNSQuery] puts on the wire. *)
Lemma length_list_byte_of_string s :
  length (list_byte_of_string s) = String.length s.
Proof.
  unfold list_byte_of_string.
  induction s as [|c s IH]; [reflexivity|]. cbn. rewrite IH. reflexivity.
Qed.

Lemma fold_appendLabel labels query :
  fold_left DNS.appendLabel labels query
  = query ++ encodeLabels (map list_byte_of_string labels).
Proof.
  revert query. induction labels as [|l ls IH]; intros query.
  - cbn. rewrite app_nil_r. reflexivity.
  - cbn [fold_left map]. rewrite IH, encodeLabels_cons.
    unfold DNS.appendLabel, len. rewrite length_list_byte_of_string.
    cbn [app]. rewrite <- !app_assoc. reflexivity.
Qed.

Lemma buildDNSQuery_wire domain qtype :
  DNS.buildDNSQuery domain qtype
  = DNS.queryHeader ++ encodeLabels (labelsOf domain)
      ++ x00 :: be16 qtype ++ be16 1.
Proof.
  unfold DNS.buildDNSQuery. rewrite fold_appendLabel.
  rewrite <- app_assoc. reflexivity.
Qed.






(** ** Query, answer, parse: the round trip *)



(** ** Messages that are cut short *)







(** ** Malformed responses *)




(** ** TargetName in HTTPS RDATA *)

(** C6, as stated, fails: behind a TargetName written as a compression
    pointer the [ech] parameter is not found, while behind the root name
    it is. *)
Lemma compressed_targetName_misread :
  let e := [xaa] in
  DNS.parseHTTPSRecord (httpsRData 1 (encodeName []) [] e [])
    = Done (Base64.EncodeToString e)
  /\ Z.land (u8 xc0) 192 = 192
  /\ DNS.parseHTTPSRecord (httpsRData 1 [xc0; x0c] [] e []) = Done EmptyString
  /\ Base64.EncodeToString e <> EmptyString.
Proof. repeat split; try reflexivity. discriminate. Qed.

Lemma pointer_octet hi : Z.land (u8 hi) 192 = 192 -> 192 <= u8 hi.
Proof. destruct hi; vm_compute; intros H; congruence. Qed.

(** C6, amended. [parseHTTPSRecord] steps over an uncompressed TargetName
    (the root or a label sequence) and then finds key 5; it has no case
    for a compression pointer: the pointer's first octet is taken as a
    label length, and for RDATA of fewer than 200 octets the result is
    empty. *)
Theorem targetName_skipping :
  (forall priority target before e after,
     wfLabels 255 target = true -> wfOtherParams before = true ->
     len e < 65536 ->
     DNS.parseHTTPSRecord
       (httpsRData priority (encodeName target) before e after)
     = Done (Base64.EncodeToString e))
  /\ (forall priority hi lo before e after,
        Z.land (u8 hi) 192 = 192 ->
        len (httpsRData priority [hi; lo] before e after) < 200 ->
        DNS.parseHTTPSRecord (httpsRData priority [hi; lo] before e after)
        = Done EmptyString).
Proof.
  split; [apply parseHTTPSRecord_uncompressed|].
  intros priority hi lo before e after Hhi Hlen.
  apply pointer_octet in Hhi.
  set (rest := encodeParams before ++ encodeParam (5, e) ++ after).
  set (data := httpsRData priority [hi; lo] before e after) in *.
  assert (Hdata : data = be16 priority ++ hi :: lo :: rest) by reflexivity.
  assert (Hl : len data = 4 + len rest) by (rewrite Hdata; lens; lia).
  pose proof (len_nonneg rest).
  unfold DNS.parseHTTPSRecord.
  destruct (Z.ltb_spec (len data) 2); [lia|].
  destruct (Z.ltb_spec 2 (len data)); [|lia].
  rewrite (index_at data (be16 priority) hi (lo :: rest) 2 Hdata)
    by reflexivity.
  rewrite !bind_Done.
  destruct (Z.eqb_spec (u8 hi) 0); [lia|].
  cbn [DNS.skipLabels].
  destruct (Z.ltb_spec 2 (len data)); [|lia].
  rewrite (index_at data (be16 priority) hi (lo :: rest) 2 Hdata)
    by reflexivity.
  rewrite !bind_Done.
  destruct (Z.eqb_spec (u8 hi) 0); [lia|].
  destruct (skipLabels_total (length data) data (2 + (u8 hi + 1)))
    as (o & -> & Ho); [lia|unfold len in *; lia|].
  rewrite !bind_Done.
  cbn [DNS.svcParams].
  destruct (Z.leb_spec (o + 1 + 4) (len data)); [lia|reflexivity].
Qed.

(** The same parameters behind a two-label TargetName and behind a
    pointer. *)
Lemma targetName_skipping_witness :
  DNS.parseHTTPSRecord
    (httpsRData 1 (encodeName [["a"%byte]; ["b"%byte; "c"%byte]])
       [(1, [x02; "h"%byte; "2"%byte])] [xaa; xbb] [x00; x06; x00; x00])
  = Done "qrs="%string
  /\ DNS.parseHTTPSRecord
       (httpsRData 1 [xc0; x0c] [(1, [x02; "h"%byte; "2"%byte])] [xaa; xbb] [])
     = Done EmptyString.
Proof.
  destruct targetName_skipping as [Hplain Hptr]. split.
  - apply (Hplain 1 [["a"%byte]; ["b"%byte; "c"%byte]]
             [(1, [x02; "h"%byte; "2"%byte])] [xaa; xbb] [x00; x06; x00; x00]);
      vm_compute; reflexivity.
  - apply (Hptr 1 xc0 x0c [(1, [x02; "h"%byte; "2"%byte])] [xaa; xbb] []);
      vm_compute; reflexivity.
Defined.

(** ** The sniffer *)

Section SniffFacts.
Import Sniff.

Lemma byteIn_In b l : byteIn b l = true <-> In b l.
Proof.
  unfold byteIn. rewrite existsb_exists. split.
  - intros (x & Hx & E). apply Byte.byte_dec_bl in E. subst. exact Hx.
  - intros H. exists b. split; [exact H|apply Byte.byte_dec_lb; reflexivity].
Qed.

(** C1. Once a first byte is read, it alone decides: 0x05 runs the SOCKS5
    handler, a byte of 'C','G','P','H','D','O','T' runs the HTTP handler, and
    any other byte is logged and the connection closed, with nothing
    written and no other connection touched. *)
Theorem first_byte_dispatch
  (handleSOCKS5 handleHTTP : nat -> byte -> list action)
  (conn : nat) (r : read_result) :
  failed r = false -> n r <> 0 ->
  let b := buf0 r in
  let acts := handleConnection handleSOCKS5 handleHTTP conn r in
  (b = x05 ->
     acts = [SetDeadline conn 30; Read conn 1]
              ++ handleSOCKS5 conn b ++ [Close conn])
  /\ (In b httpFirstBytes ->
        acts = [SetDeadline conn 30; Read conn 1]
                 ++ handleHTTP conn b ++ [Close conn])
  /\ (b <> x05 -> ~ In b httpFirstBytes ->
        acts = [SetDeadline conn 30; Read conn 1;
                LogUnknownProtocol b conn; Close conn]
        /\ Forall (fun a => isWrite a = false) acts
        /\ Forall (fun a => touches a = None \/ touches a = Some conn) acts).
Proof.
  intros Hfailed Hn b acts. subst acts. unfold handleConnection. fold b.
  rewrite Hfailed. destruct (Z.eqb_spec (n r) 0) as [|_]; [contradiction|].
  cbn [orb].
  split; [|split].
  - intros ->. reflexivity.
  - intros Hin.
    assert (Hne : Byte.eqb b x05 = false).
    { destruct (Byte.eqb b x05) eqn:E; [|reflexivity].
      apply Byte.byte_dec_bl in E. rewrite E in Hin.
      cbn in Hin. intuition discriminate. }
    rewrite Hne. apply byteIn_In in Hin. rewrite Hin. reflexivity.
  - intros H5 Hhttp.
    assert (Hne : Byte.eqb b x05 = false).
    { destruct (Byte.eqb b x05) eqn:E; [|reflexivity].
      apply Byte.byte_dec_bl in E. contradiction. }
    assert (Hout : byteIn b httpFirstBytes = false).
    { destruct (byteIn b httpFirstBytes) eqn:E; [|reflexivity].
      apply byteIn_In in E. contradiction. }
    rewrite Hne, Hout. split; [reflexivity|].
    split.
    + repeat (apply Forall_cons; split; [reflexivity|]). apply Forall_nil_2.
    + repeat (apply Forall_cons; split; [cbn; auto|]). apply Forall_nil_2.
Qed.

(** A connection that opens with 'G', with handlers that write one
    recognisable frame each. *)
Lemma first_byte_dispatch_witness :
  let socks := fun (c : nat) (_ : byte) => [Write c [x05; x00]] in
  let http := fun (c : nat) (b : byte) => [Write c [b]] in
  let r := {| n := 1; failed := false; buf0 := "G"%byte |} in
  failed r = false /\ n r <> 0
  /\ handleConnection socks http 7 r
     = [SetDeadline 7 30; Read 7 1; Write 7 ["G"%byte]; Close 7].
Proof.
  intros socks http r.
  assert (Hf : failed r = false) by reflexivity.
  assert (Hn : n r <> 0) by discriminate.
  split; [exact Hf|]. split; [exact Hn|].
  destruct (first_byte_dispatch socks http 7 r Hf Hn) as (_ & Hhttp & _).
  apply Hhttp. vm_compute. tauto.
Defined.

End SniffFacts.

(** ** The Android status call *)

(** C9, as stated, fails: a running client does not report "Running". *)
Lemma status_of_running_client :
  let a := {| Android.client :=
                {| Android.serverAddr := "x.workers.dev:443";
                   Android.running := true |} |} in
  Android.IsRunning a = true
  /\ Android.GetStatus a <> "Running"%string.
Proof. split; [reflexivity|discriminate]. Qed.

(** C9, amended. [GetStatus] returns the UTF-8 text of the Chinese word for
    "running" (E8 BF 90 E8 A1 8C E4 B8 AD) whenever [IsRunning] is true and
    that of "stopped" (E5 B7 B2 E5 81 9C E6 AD A2) whenever it is false. *)
Theorem GetStatus_follows_IsRunning (a : Android.AndroidProxyClient) :
  list_byte_of_string (Android.GetStatus a)
  = if Android.IsRunning a
    then [xe8; xbf; x90; xe8; xa1; x8c; xe4; xb8; xad]
    else [xe5; xb7; xb2; xe5; x81; x9c; xe6; xad; xa2].
Proof.
  destruct a as [[addr r]]. unfold Android.GetStatus, Android.IsRunning.
  cbn [Android.client Android.ProxyClient_IsRunning Android.running].
  destruct r; reflexivity.
Qed.

(** ** The HTTP front *)

Section HTTPFacts.
Import HTTP.
Context {T : GoText}.
Variable handleTunnel : string -> Z -> string -> option error.

Lemma append_assoc (a b c : string) : (a +:+ b) +:+ c = a +:+ (b +:+ c).
Proof.
  induction a as [|x a IH]; [reflexivity|].
  change (String x ((a +:+ b) +:+ c) = String x (a +:+ b +:+ c)).
  f_equal. exact IH.
Qed.

Lemma append_nil_r (a : string) : a +:+ EmptyString = a.
Proof.
  induction a as [|x a IH]; [reflexivity|].
  change (String x (a +:+ EmptyString) = String x a). f_equal. exact IH.
Qed.

Lemma length_substring0 (s : string) (k : nat) :
  (k <= String.length s)%nat -> String.length (String.substring 0 k s) = k.
Proof.
  revert k. induction s as [|c s IH]; intros [|k] Hk; cbn in *;
    try reflexivity; try lia.
  rewrite IH by lia. reflexivity.
Qed.

Lemma upto_0 (s : string) : Strings.upto s 0 = EmptyString.
Proof. destruct s; reflexivity. Qed.

Lemma fold_writeHeader (headerLines : list string) (requestBuilder : string) :
  fold_left writeHeader headerLines requestBuilder
  = requestBuilder +:+ headerBlock (List.filter keepHeader headerLines).
Proof.
  revert requestBuilder.
  induction headerLines as [|line lines IH]; intros requestBuilder.
  - cbn. rewrite append_nil_r. reflexivity.
  - cbn [fold_left List.filter]. rewrite IH. unfold writeHeader.
    destruct (keepHeader line); [|reflexivity].
    cbn [headerBlock fold_right]. rewrite !append_assoc. reflexivity.
Qed.

Lemma keepHeader_spec (line : string) :
  keepHeader line = true
  <-> ToLower (TrimSpace (hd EmptyString (Strings.Split line ":"%char)))
        <> "proxy-connection"%string
      /\ ToLower (TrimSpace (hd EmptyString (Strings.Split line ":"%char)))
           <> "proxy-authorization"%string.
Proof.
  unfold keepHeader. rewrite andb_true_iff, !negb_true_iff, !String.eqb_neq.
  reflexivity.
Qed.

Lemma filter_sublist {A} (f : A -> bool) (l : list A) :
  sublist (List.filter f l) l.
Proof.
  induction l as [|x l IH]; cbn; [constructor|].
  destruct (f x); [apply sublist_skip|apply sublist_cons]; exact IH.
Qed.

Lemma firstFrame_cases method path httpVersion headerLines headers input :
  firstFrame method path httpVersion headerLines headers input
  = let head := frameHead method path httpVersion headerLines in
    let contentLength := default EmptyString (headers !! "content-length") in
    if nonEmpty contentLength then
      let length := default 0 (Sscanf_d contentLength) in
      if (0 <? length) && (length <? 10 * 1024 * 1024) then
        match ReadFull input length with
        | Some (body, _) => head +:+ body
        | None => head
        end
      else head
    else head.
Proof.
  unfold firstFrame, frameHead. rewrite fold_writeHeader.
  rewrite !append_assoc. reflexivity.
Qed.

Lemma proxy_method_not_connect (method : string) :
  isProxyMethod method = true -> String.eqb method "CONNECT" = false.
Proof.
  unfold isProxyMethod. intros H. apply existsb_exists in H as (m & Hm & E).
  apply String.eqb_eq in E. subst m.
  cbn in Hm. intuition (subst; reflexivity).
Qed.

(** Where the frame goes: a forwarded method with a target hands
    [firstFrame] to the tunnel in mode [modeHTTPProxy]. *)
Lemma serve_forwards (clientAddr method requestURL httpVersion : string)
  (headers : gmap string string) (headerLines : list string) (input : string) :
  isProxyMethod method = true ->
  fst (targetAndPath requestURL headers) <> EmptyString ->
  exists target log,
    serve handleTunnel clientAddr method requestURL httpVersion
      headers headerLines input
    = LogInfo ("HTTP-" +:+ method +:+ ": " +:+ clientAddr +:+ " -> "
                 +:+ requestURL)
        :: Tunnel target modeHTTPProxy
             (firstFrame method (snd (targetAndPath requestURL headers))
                httpVersion headerLines headers input)
        :: log.
Proof.
  intros Hm Ht. unfold serve.
  rewrite (proxy_method_not_connect method Hm), Hm.
  destruct (targetAndPath requestURL headers) as [target path].
  cbn [fst snd] in *.
  assert (Hnon : nonEmpty target = true)
    by (destruct target; [contradiction|reflexivity]).
  rewrite Hnon. eauto.
Qed.

Lemma ReadString_shorter (input line rest : string) :
  ReadString input = Some (line, rest) ->
  (String.length rest < String.length input)%nat.
Proof.
  revert line rest. induction input as [|c input IH]; intros line rest H;
    [discriminate|].
  cbn [ReadString] in H. destruct (Ascii.eqb c Strings.LF).
  - injection H as _ <-. cbn. lia.
  - destruct (ReadString input) as [[l r]|]; [|discriminate].
    injection H as _ <-. specialize (IH l r eq_refl). cbn. lia.
Qed.

(** The header loop ends within its budget. *)
Lemma readHeaders_returns (fuel : nat) (input : string)
  (headers : gmap string string) (headerLines : list string) :
  (String.length input < fuel)%nat ->
  exists r, readHeaders fuel input headers headerLines = Done r.
Proof.
  revert input headers headerLines.
  induction fuel as [|fuel IH]; intros input headers headerLines Hfuel; [lia|].
  cbn [readHeaders].
  destruct (ReadString input) as [[line rest]|] eqn:E; [|eauto].
  apply ReadString_shorter in E.
  destruct (nonEmpty (Strings.TrimRight_crlf line)); [|eauto].
  apply IH. lia.
Qed.

Lemma handleHTTP_returns (clientAddr : string) (firstByte : ascii)
  (conn : string) :
  exists acts, handleHTTP handleTunnel clientAddr firstByte conn = Done acts.
Proof.
  unfold handleHTTP.
  destruct (ReadString (String firstByte conn)) as [[line rest]|]; [|eauto].
  destruct (_ <? 3)%nat; [eauto|].
  destruct (readHeaders_returns (S (String.length rest)) rest ∅ [])
    as [r ->]; [lia|].
  rewrite bind_Done. destruct r as [[[h l] i]|]; eauto.
Qed.


End HTTPFacts.



(** ** The retry loop of the dialer *)

Section DialFacts.
Import Dial.
Variable env : environment.

Lemma dialCount_snoc (t : list event) (ev : event) :
  dialCount (t ++ [ev]) = (dialCount t + if isDial ev then 1 else 0)%nat.
Proof.
  unfold dialCount. rewrite List.filter_app, length_app. cbn.
  destruct (isDial ev); reflexivity.
Qed.

Lemma dialCount_refresh (st : state) :
  dialCount (trace (refreshECH env st)) = dialCount (trace st).
Proof.
  unfold refreshECH. cbn [trace emit]. rewrite dialCount_snoc. cbn [isDial]. lia.
Qed.

(** One failed dial that mentions ECH, with attempts remaining: the log
    line, the refresh, the one-second sleep, and the next attempt. *)
Lemma attempts_retry (left : nat) (maxRetries attempt : Z) (st : state)
  (msg : string) :
  isEmpty (echList st) = false -> rootsOK env = true ->
  dialReply env (dials st) = DialErr msg ->
  Strings.Contains msg "ECH" = true -> attempt < maxRetries ->
  attempts env (S left) maxRetries attempt st
  = attempts env left maxRetries (attempt + 1)
      (emit (EvSleep 1000)
         (refreshECH env
            (emit (EvLogInfo attempt maxRetries) (snd (dial env attempt st))))).
Proof.
  intros He Hr Hd Hc Ha. cbn [attempts]. rewrite He, Hr. cbn [negb].
  unfold dial at 1. rewrite Hd, Hc.
  destruct (Z.ltb_spec attempt maxRetries); [|lia]. cbn [andb].
  unfold dial. rewrite Hd. reflexivity.
Qed.

Lemma attempts_dial_bound (left : nat) (maxRetries attempt : Z) (st : state) :
  (dialCount (trace (snd (attempts env left maxRetries attempt st)))
   <= dialCount (trace st) + left)%nat.
Proof.
  revert attempt st. induction left as [|left IH]; intros attempt st.
  - cbn. lia.
  - cbn [attempts].
    destruct (isEmpty (echList st)).
    { destruct (attempt <? maxRetries); [|cbn; lia].
      etransitivity; [apply IH|]. rewrite dialCount_refresh. lia. }
    destruct (rootsOK env); cbn [negb]; [|cbn; lia].
    unfold dial. destruct (dialReply env (dials st)) as [c|msg] eqn:Ed.
    + cbn [snd trace]. rewrite dialCount_snoc. cbn. lia.
    + destruct (Strings.Contains msg "ECH" && (attempt <? maxRetries)).
      * etransitivity; [apply IH|]. cbn [emit trace].
        rewrite dialCount_snoc. cbn [isDial].
        rewrite dialCount_refresh. cbn [emit trace].
        rewrite !dialCount_snoc. cbn. lia.
      * cbn [snd trace]. rewrite dialCount_snoc. cbn. lia.
Qed.

Lemma attempts_result (left : nat) (maxRetries attempt : Z) (st : state) :
  let r := attempts env left maxRetries attempt st in
  (forall c, fst r = Connected c ->
     exists a, last (trace (snd r)) = Some (EvDial a (DialOk c)))
  /\ (forall msg, fst r = Failed (ErrDial msg) ->
        exists a, last (trace (snd r)) = Some (EvDial a (DialErr msg))
                  /\ (Strings.Contains msg "ECH" = false \/ maxRetries <= a)).
Proof.
  revert attempt st. induction left as [|left IH]; intros attempt st.
  - cbn. split; intros; discriminate.
  - cbn [attempts].
    destruct (isEmpty (echList st)).
    { destruct (attempt <? maxRetries); [apply IH|].
      cbn. split; intros; discriminate. }
    destruct (rootsOK env); cbn [negb]; [|cbn; split; intros; discriminate].
    unfold dial. destruct (dialReply env (dials st)) as [c|msg] eqn:Ed.
    + cbn. split; [|intros; discriminate].
      intros c' [= <-]. exists attempt. apply last_snoc.
    + destruct (Strings.Contains msg "ECH") eqn:Ec;
        destruct (Z.ltb_spec attempt maxRetries); cbn [andb];
        try apply IH;
        (cbn; split; [intros; discriminate|];
         intros m [= <-]; exists attempt; split; [apply last_snoc|]).
      * right. lia.
      * left. exact Ec.
      * left. exact Ec.
Qed.

Lemma attempts_never_max (left : nat) (maxRetries attempt : Z) (st : state) :
  Z.of_nat left = maxRetries - attempt + 1 -> (1 <= left)%nat ->
  fst (attempts env left maxRetries attempt st) <> Failed ErrMaxRetries.
Proof.
  revert attempt st. induction left as [|left IH]; intros attempt st Hinv Hpos;
    [lia|].
  cbn [attempts].
  destruct (isEmpty (echList st)).
  { destruct (Z.ltb_spec attempt maxRetries); [apply IH; lia|].
    cbn. discriminate. }
  destruct (rootsOK env); cbn [negb]; [|cbn; discriminate].
  unfold dial. destruct (dialReply env (dials st)) as [c|msg].
  - cbn. discriminate.
  - destruct (Strings.Contains msg "ECH");
      destruct (Z.ltb_spec attempt maxRetries); cbn [andb];
      try (cbn; discriminate).
    apply IH; lia.
Qed.

Lemma attempts_trace (left : nat) (maxRetries attempt : Z) (st : state) :
  exists new,
    trace (snd (attempts env left maxRetries attempt st)) = trace st ++ new
    /\ policyTrace maxRetries attempt new.
Proof.
  revert attempt st. induction left as [|left IH]; intros attempt st.
  - exists []. split; [cbn; rewrite app_nil_r; reflexivity|constructor].
  - cbn [attempts].
    destruct (isEmpty (echList st)).
    { destruct (Z.ltb_spec attempt maxRetries) as [Hlt|];
        [|exists []; split; [cbn; rewrite app_nil_r; reflexivity|constructor]].
      destruct (IH (attempt + 1) (refreshECH env st)) as (new & E & P).
      exists (EvRefresh :: new). split; [|constructor; assumption].
      rewrite E. cbn [refreshECH trace emit]. rewrite <- app_assoc. reflexivity. }
    destruct (rootsOK env); cbn [negb];
      [|exists []; split; [cbn; rewrite app_nil_r; reflexivity|constructor]].
    unfold dial. destruct (dialReply env (dials st)) as [c|msg] eqn:Ed.
    + exists [EvDial attempt (DialOk c)]. split; [reflexivity|].
      apply policy_last. exact I.
    + destruct (Strings.Contains msg "ECH") eqn:Ec;
        destruct (Z.ltb_spec attempt maxRetries) as [Hlt|Hge]; cbn [andb].
      * match goal with
        | |- context [attempts env left maxRetries (attempt + 1) ?s] =>
            destruct (IH (attempt + 1) s) as (new & E & P)
        end.
        exists (EvDial attempt (DialErr msg) :: EvLogInfo attempt maxRetries
                  :: EvRefresh :: EvSleep 1000 :: new).
        split; [|apply policy_retry; assumption].
        rewrite E. cbn [refreshECH trace emit].
        rewrite <- !app_assoc. reflexivity.
      * exists [EvDial attempt (DialErr msg)]. split; [reflexivity|].
        apply policy_last. right. lia.
      * exists [EvDial attempt (DialErr msg)]. split; [reflexivity|].
        apply policy_last. left. exact Ec.
      * exists [EvDial attempt (DialErr msg)]. split; [reflexivity|].
        apply policy_last. left. exact Ec.
Qed.

(** Every dial recorded decides the result as the policy says: a dial
    that succeeds is the result, and so is a dial that fails without
    "ECH" in its message or as the last attempt permitted. *)
Lemma attempts_events (left : nat) (maxRetries attempt : Z) (st : state) :
  exists new,
    trace (snd (attempts env left maxRetries attempt st)) = trace st ++ new
    /\ policyTrace maxRetries attempt new
    /\ (forall a c,
          In (EvDial a (DialOk c)) new ->
          fst (attempts env left maxRetries attempt st) = Connected c)
    /\ (forall a msg,
          In (EvDial a (DialErr msg)) new ->
          Strings.Contains msg "ECH" = false \/ maxRetries <= a ->
          fst (attempts env left maxRetries attempt st) = Failed (ErrDial msg)).
Proof.
  revert attempt st. induction left as [|left IH]; intros attempt st.
  - exists []. split; [cbn; rewrite app_nil_r; reflexivity|].
    split; [constructor|]. split; intros ? ? [].
  - cbn [attempts].
    destruct (isEmpty (echList st)).
    { destruct (Z.ltb_spec attempt maxRetries) as [Hlt|].
      - destruct (IH (attempt + 1) (refreshECH env st))
          as (new & E & P & Hok & Herr).
        exists (EvRefresh :: new).
        split; [rewrite E; cbn [refreshECH trace emit];
                rewrite <- app_assoc; reflexivity|].
        split; [constructor; assumption|].
        split.
        + intros a c [Hin|Hin]; [discriminate|]. exact (Hok a c Hin).
        + intros a msg [Hin|Hin]; [discriminate|]. exact (Herr a msg Hin).
      - exists []. split; [cbn; rewrite app_nil_r; reflexivity|].
        split; [constructor|]. split; intros ? ? []. }
    destruct (rootsOK env); cbn [negb].
    2: { exists []. split; [cbn; rewrite app_nil_r; reflexivity|].
         split; [constructor|]. split; intros ? ? []. }
    unfold dial. destruct (dialReply env (dials st)) as [c|msg] eqn:Ed.
    + exists [EvDial attempt (DialOk c)]. split; [reflexivity|].
      split; [apply policy_last; exact I|].
      split.
      * intros a c' [Hin|[]]. injection Hin as _ <-. reflexivity.
      * intros a msg [Hin|[]]. discriminate.
    + destruct (Strings.Contains msg "ECH") eqn:Ec;
        destruct (Z.ltb_spec attempt maxRetries) as [Hlt|Hge]; cbn [andb].
      * match goal with
        | |- context [attempts env left maxRetries (attempt + 1) ?s] =>
            destruct (IH (attempt + 1) s) as (new & E & P & Hok & Herr)
        end.
        exists (EvDial attempt (DialErr msg) :: EvLogInfo attempt maxRetries
                  :: EvRefresh :: EvSleep 1000 :: new).
        split; [rewrite E; cbn [refreshECH trace emit];
                rewrite <- !app_assoc; reflexivity|].
        split; [apply policy_retry; assumption|].
        split.
        -- intros a c [Hin|[Hin|[Hin|[Hin|Hin]]]]; try discriminate.
           exact (Hok a c Hin).
        -- intros a m [Hin|[Hin|[Hin|[Hin|Hin]]]] Hlast; try discriminate.
           ++ injection Hin as <- <-. destruct Hlast as [Hc|Hc];
                [congruence|lia].
           ++ exact (Herr a m Hin Hlast).
      * exists [EvDial attempt (DialErr msg)]. split; [reflexivity|].
        split; [apply policy_last; right; lia|].
        split.
        -- intros a c [Hin|[]]. discriminate.
        -- intros a m [Hin|[]] _. injection Hin as _ <-. reflexivity.
      * exists [EvDial attempt (DialErr msg)]. split; [reflexivity|].
        split; [apply policy_last; left; exact Ec|].
        split.
        -- intros a c [Hin|[]]. discriminate.
        -- intros a m [Hin|[]] _. injection Hin as _ <-. reflexivity.
      * exists [EvDial attempt (DialErr msg)]. split; [reflexivity|].
        split; [apply policy_last; left; exact Ec|].
        split.
        -- intros a c [Hin|[]]. discriminate.
        -- intros a m [Hin|[]] _. injection Hin as _ <-. reflexivity.
Qed.

(** With an ECH configuration that stays and system roots, the loop is
    the policy run on the answers to its dials. *)
Lemma attempts_run (left : nat) (maxRetries attempt : Z) (st : state) :
  rootsOK env = true ->
  (forall k, dnsReply env k <> Some []) ->
  echList st <> [] ->
  Z.of_nat left = Z.max 0 (maxRetries - attempt + 1) ->
  exists n new,
    trace (snd (attempts env left maxRetries attempt st)) = trace st ++ new
    /\ Policy.run maxRetries attempt (Policy.replies env (dials st) n) new
         (fst (attempts env left maxRetries attempt st)).
Proof.
  intros Hroots Hdns. revert attempt st.
  induction left as [|left IH]; intros attempt st Hech Hleft.
  - exists O, []. split; [cbn; rewrite app_nil_r; reflexivity|].
    cbn. apply Policy.run_none. lia.
  - cbn [attempts].
    assert (Hne : isEmpty (echList st) = false)
      by (destruct (echList st); [contradiction|reflexivity]).
    rewrite Hne, Hroots. cbn [negb].
    unfold dial. destruct (dialReply env (dials st)) as [c|msg] eqn:Ed.
    + exists 1%nat, [EvDial attempt (DialOk c)]. split; [reflexivity|].
      cbn [Policy.replies fst]. rewrite Ed. apply Policy.run_success. lia.
    + destruct (Strings.Contains msg "ECH") eqn:Ec;
        destruct (Z.ltb_spec attempt maxRetries) as [Hlt|Hge]; cbn [andb].
      * match goal with
        | |- context [attempts env left maxRetries (attempt + 1) ?s] =>
            destruct (IH (attempt + 1) s) as (n & new & E & Hrun)
        end.
        { cbn [emit refreshECH echList refreshes].
          destruct (dnsReply env (refreshes st)) as [raw|] eqn:Er;
            [|exact Hech].
          intros ->. exact (Hdns _ Er). }
        { lia. }
        exists (S n),
          (EvDial attempt (DialErr msg) :: EvLogInfo attempt maxRetries
             :: EvRefresh :: EvSleep 1000 :: new).
        split; [rewrite E; cbn [refreshECH trace emit];
                rewrite <- !app_assoc; reflexivity|].
        cbn [Policy.replies]. rewrite Ed.
        apply Policy.run_retry; [exact Ec|exact Hlt|exact Hrun].
      * exists 1%nat, [EvDial attempt (DialErr msg)]. split; [reflexivity|].
        cbn [Policy.replies fst]. rewrite Ed.
        apply Policy.run_failure; [lia|right; lia].
      * exists 1%nat, [EvDial attempt (DialErr msg)]. split; [reflexivity|].
        cbn [Policy.replies fst]. rewrite Ed.
        apply Policy.run_failure; [lia|left; exact Ec].
      * exists 1%nat, [EvDial attempt (DialErr msg)]. split; [reflexivity|].
        cbn [Policy.replies fst]. rewrite Ed.
        apply Policy.run_failure; [lia|left; exact Ec].
Qed.

(** C4, amended. [dialWebSocketWithECH maxRetries] dials at most
    [maxRetries] times; a failed dial whose message contains "ECH", with
    attempts remaining, is followed by a refresh, a one-second sleep and
    the next attempt; a successful dial returns its connection; when the
    last permitted attempt fails, its own error is returned; the "max
    retries" error is returned only for [maxRetries <= 0], when no attempt
    is made.  Each part holds in both directions: a dial that succeeds is
    what the function returns, as is a dial that fails without "ECH" or as
    the last attempt permitted, and the function returns a connection or a
    dial error only from its last dial; and for a client that has an ECH
    configuration and system roots, the events and the result are those
    of the policy run on the answers to the dials. *)
Theorem dial_retry_policy (maxRetries : Z) (st : state) :
  let r := dialWebSocketWithECH env maxRetries st in
  (dialCount (trace (snd r)) <= dialCount (trace st) + Z.to_nat maxRetries)%nat
  /\ (exists new,
        trace (snd r) = trace st ++ new /\ policyTrace maxRetries 1 new
        /\ (forall a c, In (EvDial a (DialOk c)) new -> fst r = Connected c)
        /\ (forall a msg,
              In (EvDial a (DialErr msg)) new ->
              Strings.Contains msg "ECH" = false \/ maxRetries <= a ->
              fst r = Failed (ErrDial msg)))
  /\ (forall c, fst r = Connected c ->
        exists a, last (trace (snd r)) = Some (EvDial a (DialOk c)))
  /\ (forall msg, fst r = Failed (ErrDial msg) ->
        exists a, last (trace (snd r)) = Some (EvDial a (DialErr msg))
                  /\ (Strings.Contains msg "ECH" = false \/ maxRetries <= a))
  /\ (1 <= maxRetries -> fst r <> Failed ErrMaxRetries)
  /\ (maxRetries <= 0 -> serverAddrOK env = true ->
        r = (Failed ErrMaxRetries, st))
  /\ (serverAddrOK env = true -> rootsOK env = true ->
      echList st <> [] -> (forall k, dnsReply env k <> Some []) ->
      exists n new,
        trace (snd r) = trace st ++ new
        /\ Policy.run maxRetries 1 (Policy.replies env (dials st) n) new
             (fst r)).
Proof.
  intros r. subst r. unfold dialWebSocketWithECH.
  destruct (serverAddrOK env); cbn [negb].
  - pose proof (attempts_result (Z.to_nat maxRetries) maxRetries 1 st)
      as [Hok Herr].
    split; [apply attempts_dial_bound|].
    split; [apply attempts_events|].
    split; [exact Hok|]. split; [exact Herr|].
    split; [intros H; apply attempts_never_max; lia|].
    split.
    + intros H _. replace (Z.to_nat maxRetries) with O by lia. reflexivity.
    + intros _ Hroots Hech Hdns. apply attempts_run; try assumption. lia.
  - cbn [fst snd].
    split; [lia|].
    split.
    { exists []. split; [rewrite app_nil_r; reflexivity|].
      split; [constructor|]. split; intros ? ? []. }
    split; [intros; discriminate|].
    split; [intros; discriminate|].
    split; [intros; discriminate|]. split; intros; discriminate.
Qed.

End DialFacts.

(** C4, as stated, fails: when both of two attempts fail on ECH, the
    second attempt's own error comes back, not the "max retries" error. *)
Lemma exhausted_retries_return_last_error :
  let env := {| Dial.serverAddrOK := true; Dial.rootsOK := true;
                Dial.dnsReply := fun _ => Some [x01];
                Dial.dialReply := fun _ => Dial.DialErr "tls: server rejected ECH" |} in
  let st := {| Dial.echList := [x01]; Dial.refreshes := 0; Dial.dials := 0;
               Dial.trace := [] |} in
  let r := Dial.dialWebSocketWithECH env 2 st in
  Dial.trace (snd r)
  = [Dial.EvDial 1 (Dial.DialErr "tls: server rejected ECH");
     Dial.EvLogInfo 1 2; Dial.EvRefresh; Dial.EvSleep 1000;
     Dial.EvDial 2 (Dial.DialErr "tls: server rejected ECH")]
  /\ fst r = Dial.Failed (Dial.ErrDial "tls: server rejected ECH")
  /\ fst r <> Dial.Failed Dial.ErrMaxRetries.
Proof. repeat split; try reflexivity. discriminate. Qed.

(** A first dial rejected on ECH and a second one accepted. *)
Lemma dial_retry_policy_witness :
  let env := {| Dial.serverAddrOK := true; Dial.rootsOK := true;
                Dial.dnsReply := fun _ => Some [x01];
                Dial.dialReply := fun k =>
                  match k with
                  | O => Dial.DialErr "tls: server rejected ECH"
                  | _ => Dial.DialOk 42
                  end |} in
  let st := {| Dial.echList := [x01]; Dial.refreshes := 0; Dial.dials := 0;
               Dial.trace := [] |} in
  let r := Dial.dialWebSocketWithECH env 2 st in
  fst r = Dial.Connected 42
  /\ (Dial.dialCount (Dial.trace (snd r)) <= 2)%nat
  /\ fst r <> Dial.Failed Dial.ErrMaxRetries.
Proof.
  intros env st r.
  destruct (dial_retry_policy env 2 st)
    as (Hcount & (new & Htrace & _ & Hok & _) & _ & _ & Hmax & _).
  split.
  - apply (Hok 2 42%nat).
    assert (E : new = [Dial.EvDial 1 (Dial.DialErr "tls: server rejected ECH");
                       Dial.EvLogInfo 1 2; Dial.EvRefresh; Dial.EvSleep 1000;
                       Dial.EvDial 2 (Dial.DialOk 42)])
      by (apply (app_inv_head (Dial.trace st)); rewrite <- Htrace;
          reflexivity).
    rewrite E. do 4 right. left. reflexivity.
  - split; [exact Hcount|]. apply Hmax. lia.
Defined.

(** ** Worked requests and responses *)

(** The forwarded GET of an absolute URI: the scheme and authority leave
    the request line, [Proxy-Connection] leaves the headers, port 80 is
    supplied. *)
Example get_absolute_uri :
  HTTP.handleHTTP (T:=HTTP.asciiText) (fun _ _ _ => None) "127.0.0.1:50000" "G"
    ("ET http://example.com/path HTTP/1.1" +:+ Strings.CRLF
       +:+ "Host: example.com" +:+ Strings.CRLF
       +:+ "Proxy-Connection: keep-alive" +:+ Strings.CRLF +:+ Strings.CRLF)
  = Done [HTTP.LogInfo "HTTP-GET: 127.0.0.1:50000 -> http://example.com/path";
          HTTP.Tunnel "example.com:80" HTTP.modeHTTPProxy
            ("GET /path HTTP/1.1" +:+ Strings.CRLF
               +:+ "Host: example.com" +:+ Strings.CRLF +:+ Strings.CRLF)].
Proof. vm_compute. reflexivity. Qed.

(** A POST whose Content-Length is read from the header lines: three of
    the six bytes that follow the blank line go into the first frame. *)
Example post_with_body :
  HTTP.handleHTTP (T:=HTTP.asciiText) (fun _ _ _ => None) "127.0.0.1:50000" "P"
    ("OST /x HTTP/1.1" +:+ Strings.CRLF
       +:+ "Host: example.com" +:+ Strings.CRLF
       +:+ "PROXY-Authorization : Basic eA==" +:+ Strings.CRLF
       +:+ "Content-Length: 3" +:+ Strings.CRLF +:+ Strings.CRLF +:+ "abcdef")
  = Done [HTTP.LogInfo "HTTP-POST: 127.0.0.1:50000 -> /x";
          HTTP.Tunnel "example.com:80" HTTP.modeHTTPProxy
            ("POST /x HTTP/1.1" +:+ Strings.CRLF
               +:+ "Host: example.com" +:+ Strings.CRLF
               +:+ "Content-Length: 3" +:+ Strings.CRLF +:+ Strings.CRLF
               +:+ "abc")].
Proof. vm_compute. reflexivity. Qed.

(** Content-Length 0 and Content-Length 10*1048576: no body in the frame. *)
Example post_without_body :
  let request (n : string) :=
    "OST /x HTTP/1.1" +:+ Strings.CRLF
      +:+ "Host: example.com" +:+ Strings.CRLF
      +:+ "Content-Length: " +:+ n +:+ Strings.CRLF +:+ Strings.CRLF
      +:+ "abcdef" in
  let frame (n : string) :=
    "POST /x HTTP/1.1" +:+ Strings.CRLF
      +:+ "Host: example.com" +:+ Strings.CRLF
      +:+ "Content-Length: " +:+ n +:+ Strings.CRLF +:+ Strings.CRLF in
  forall n, In n ["0"%string; "10485760"%string; "many"%string] ->
    HTTP.handleHTTP (T:=HTTP.asciiText) (fun _ _ _ => None) "127.0.0.1:50000"
      "P" (request n)
    = Done [HTTP.LogInfo "HTTP-POST: 127.0.0.1:50000 -> /x";
            HTTP.Tunnel "example.com:80" HTTP.modeHTTPProxy (frame n)].
Proof.
  intros request frame n [<-|[<-|[<-|[]]]]; vm_compute; reflexivity.
Qed.

(** The label hypothesis of the round trip is needed: a trailing dot makes
    [buildDNSQuery] emit an empty label, the parser takes its zero octet
    for the end of the name, and the answer behind it is not found. *)
Example empty_label_question :
  let response (domain : string) :=
    header 1 33152 1 1 0 0
      ++ drop 12 (DNS.buildDNSQuery domain DNS.typeHTTPS)
      ++ record (OwnerPointer xc0 x0c) DNS.typeHTTPS 1 300
           (httpsRData 1 (encodeName []) [] [xaa] []) in
  wfLabels 255 (labelsOf "example.com.") = false
  /\ DNS.parseDNSResponse (response "example.com.") = Done (EmptyString, None)
  /\ DNS.parseDNSResponse (response "example.com") = Done ("qg=="%string, None).
Proof. repeat split; vm_compute; reflexivity. Qed.

(** * The rest of the client *)

(** ** Strings: the position of a character *)

Lemma append_cons (a : ascii) (s t : string) :
  String a s +:+ t = String a (s +:+ t).
Proof. reflexivity. Qed.

Lemma append_empty_l (t : string) : EmptyString +:+ t = t.
Proof. reflexivity. Qed.

Lemma length_append (s t : string) :
  String.length (s +:+ t) = (String.length s + String.length t)%nat.
Proof.
  induction s as [|a s IH]; [reflexivity|].
  rewrite append_cons. cbn [String.length]. now rewrite IH.
Qed.

Lemma index_char (c b : ascii) (s : string) :
  String.index 0 (String c EmptyString) (String b s)
  = if Ascii.eqb c b then Some 0%nat
    else option_map S (String.index 0 (String c EmptyString) s).
Proof.
  cbn [String.index String.prefix].
  destruct (ascii_dec c b) as [->|Hne].
  - rewrite Ascii.eqb_refl. destruct s; reflexivity.
  - apply Ascii.eqb_neq in Hne. rewrite Hne.
    destruct (String.index 0 (String c EmptyString) s); reflexivity.
Qed.

Lemma Index_char_nil (c : ascii) :
  Strings.Index EmptyString (String c EmptyString) = -1.
Proof. reflexivity. Qed.

Lemma Index_char_cons (c b : ascii) (s : string) :
  Strings.Index (String b s) (String c EmptyString)
  = if Ascii.eqb c b then 0
    else if Strings.Index s (String c EmptyString) =? -1 then -1
         else 1 + Strings.Index s (String c EmptyString).
Proof.
  unfold Strings.Index. rewrite index_char.
  destruct (Ascii.eqb c b); [reflexivity|].
  destruct (String.index 0 (String c EmptyString) s) as [i|]; cbn [option_map].
  - destruct (Z.eqb_spec (Z.of_nat i) (-1)); lia.
  - reflexivity.
Qed.

Lemma Index_char_range (c : ascii) (s : string) :
  -1 <= Strings.Index s (String c EmptyString) < Z.of_nat (String.length s).
Proof.
  induction s as [|b s IH]; [cbn; lia|].
  rewrite Index_char_cons. cbn [String.length].
  destruct (Ascii.eqb c b); [lia|].
  destruct (Z.eqb_spec (Strings.Index s (String c EmptyString)) (-1)); lia.
Qed.

Lemma upto_cons (b : ascii) (s : string) (i : Z) :
  0 <= i -> Strings.upto (String b s) (1 + i) = String b (Strings.upto s i).
Proof.
  intros Hi. unfold Strings.upto.
  replace (Z.to_nat (1 + i)) with (S (Z.to_nat i)) by lia. reflexivity.
Qed.

Lemma from_0 (s : string) : Strings.from s 0 = s.
Proof.
  unfold Strings.from. change (Z.to_nat 0) with 0%nat. rewrite Nat.sub_0_r.
  induction s as [|b s IH]; [reflexivity|].
  cbn [String.length String.substring]. now rewrite IH.
Qed.

Lemma from_cons (b : ascii) (s : string) (i : Z) :
  0 <= i -> Strings.from (String b s) (1 + i) = Strings.from s i.
Proof.
  intros Hi. unfold Strings.from.
  replace (Z.to_nat (1 + i)) with (S (Z.to_nat i)) by lia. reflexivity.
Qed.

(** The first occurrence cuts the string: nothing before it is the
    character, and the two slices at it are the two parts. *)
Lemma Index_char_split (c : ascii) (s : string) :
  0 <= Strings.Index s (String c EmptyString) ->
  exists pre post,
    s = pre +:+ String c post
    /\ Strings.Index pre (String c EmptyString) = -1
    /\ Strings.Index s (String c EmptyString) = Z.of_nat (String.length pre)
    /\ Strings.upto s (Strings.Index s (String c EmptyString)) = pre
    /\ Strings.from s (Strings.Index s (String c EmptyString))
       = String c post.
Proof.
  induction s as [|b s IH]; [cbn; lia|].
  rewrite Index_char_cons.
  destruct (Ascii.eqb_spec c b) as [->|Hne].
  - intros _. exists EmptyString, s.
    rewrite upto_0, from_0. repeat split; reflexivity.
  - destruct (Z.eqb_spec (Strings.Index s (String c EmptyString)) (-1)) as [|Hi];
      [lia|].
    intros _. pose proof (Index_char_range c s) as Hr.
    destruct IH as (pre & post & Hs & Hpre & Hlen & Hup & Hfrom); [lia|].
    exists (String b pre), post.
    rewrite upto_cons, from_cons by lia. rewrite Hup, Hfrom.
    repeat split.
    + rewrite append_cons. congruence.
    + rewrite Index_char_cons.
      destruct (Ascii.eqb_spec c b); [contradiction|]. now rewrite Hpre.
    + cbn [String.length]. lia.
Qed.

Lemma Index_char_app (c : ascii) (pre post : string) :
  Strings.Index pre (String c EmptyString) = -1 ->
  Strings.Index (pre +:+ String c post) (String c EmptyString)
  = Z.of_nat (String.length pre).
Proof.
  induction pre as [|b pre IH].
  - intros _. rewrite append_empty_l, Index_char_cons.
    now rewrite Ascii.eqb_refl.
  - rewrite Index_char_cons, append_cons, Index_char_cons.
    destruct (Ascii.eqb c b); [lia|].
    destruct (Z.eqb_spec (Strings.Index pre (String c EmptyString)) (-1)) as [E|E].
    + intros _. rewrite (IH E). cbn [String.length].
      destruct (Z.eqb_spec (Z.of_nat (String.length pre)) (-1)); lia.
    + pose proof (Index_char_range c pre). lia.
Qed.

Lemma Index_char_absent_app (c : ascii) (a b : string) :
  Strings.Index a (String c EmptyString) = -1 ->
  Strings.Index b (String c EmptyString) = -1 ->
  Strings.Index (a +:+ b) (String c EmptyString) = -1.
Proof.
  intros Ha Hb. induction a as [|x a IH]; [now rewrite append_empty_l|].
  rewrite append_cons, Index_char_cons. rewrite Index_char_cons in Ha.
  destruct (Ascii.eqb c x); [lia|].
  destruct (Z.eqb_spec (Strings.Index a (String c EmptyString)) (-1)) as [E|E].
  - now rewrite (IH E).
  - pose proof (Index_char_range c a). lia.
Qed.

Lemma upto_app (pre post : string) :
  Strings.upto (pre +:+ post) (Z.of_nat (String.length pre)) = pre.
Proof.
  induction pre as [|b pre IH].
  - rewrite append_empty_l. apply upto_0.
  - rewrite append_cons. cbn [String.length].
    replace (Z.of_nat (S (String.length pre)))
      with (1 + Z.of_nat (String.length pre)) by lia.
    rewrite upto_cons by lia. now rewrite IH.
Qed.

Lemma from_app (pre post : string) :
  Strings.from (pre +:+ post) (Z.of_nat (String.length pre)) = post.
Proof.
  induction pre as [|b pre IH].
  - rewrite append_empty_l. apply from_0.
  - rewrite append_cons. cbn [String.length].
    replace (Z.of_nat (S (String.length pre)))
      with (1 + Z.of_nat (String.length pre)) by lia.
    rewrite from_cons by lia. exact IH.
Qed.

Lemma Contains_char_app_r (c : ascii) (a post : string) :
  Strings.Contains (a +:+ String c post) (String c EmptyString) = true.
Proof.
  unfold Strings.Contains. apply Z.leb_le.
  induction a as [|x a IH].
  - rewrite append_empty_l, Index_char_cons. now rewrite Ascii.eqb_refl.
  - rewrite append_cons, Index_char_cons.
    destruct (Ascii.eqb c x); [lia|].
    destruct (Z.eqb_spec (Strings.Index (a +:+ String c post)
                            (String c EmptyString)) (-1)); lia.
Qed.

Lemma Contains_char_false (c : ascii) (s : string) :
  Strings.Contains s (String c EmptyString) = false
  <-> Strings.Index s (String c EmptyString) = -1.
Proof.
  unfold Strings.Contains. pose proof (Index_char_range c s).
  rewrite Z.leb_gt. lia.
Qed.

(** ** The server address *)

Section AddrFacts.

Variable SplitHostPort : string -> option (string * string).

(** X1. [parseServerAddr] cuts the address at its first slash: the text
    before it goes to [net.SplitHostPort], the slash and everything behind
    it is the path, and without a slash the path is "/".  The path is
    never looked at, so [ValidateServerAddr] accepts such an address
    exactly when the host and port part splits. *)
Theorem parseServerAddr_cuts_at_first_slash (hostport rest : string) :
  Strings.Contains hostport "/" = false ->
  Addr.parseServerAddr SplitHostPort (hostport +:+ String "/" rest)
  = match SplitHostPort hostport with
    | Some (host, port) => Some (host, port, String "/" rest)
    | None => None
    end
  /\ Addr.parseServerAddr SplitHostPort hostport
     = match SplitHostPort hostport with
       | Some (host, port) => Some (host, port, "/"%string)
       | None => None
       end
  /\ Addr.ValidateServerAddr SplitHostPort (hostport +:+ String "/" rest)
     = match SplitHostPort hostport with Some _ => true | None => false end.
Proof.
  intros Hno. apply Contains_char_false in Hno.
  assert (E1 : Addr.parseServerAddr SplitHostPort (hostport +:+ String "/" rest)
               = match SplitHostPort hostport with
                 | Some (host, port) => Some (host, port, String "/" rest)
                 | None => None
                 end).
  { unfold Addr.parseServerAddr.
    rewrite (Index_char_app "/" hostport rest Hno).
    destruct (Z.eqb_spec (Z.of_nat (String.length hostport)) (-1)); [lia|].
    cbn [negb]. rewrite upto_app, from_app.
    destruct (SplitHostPort hostport) as [[host port]|]; reflexivity. }
  split; [exact E1|]. split.
  - unfold Addr.parseServerAddr. rewrite Hno, Z.eqb_refl. cbn [negb].
    destruct (SplitHostPort hostport) as [[host port]|]; reflexivity.
  - unfold Addr.ValidateServerAddr. rewrite E1.
    assert (Hne : Client.isEmptyString (hostport +:+ String "/" rest) = false)
      by (destruct hostport; reflexivity).
    rewrite Hne.
    destruct (SplitHostPort hostport) as [[host port]|]; reflexivity.
Qed.

End AddrFacts.

Lemma parseServerAddr_cuts_at_first_slash_witness :
  Strings.Contains "gw.example.com:443" "/" = false
  /\ Addr.parseServerAddr Addr.plainSplitHostPort "gw.example.com:443/ws/a"
     = Some ("gw.example.com", "443", "/ws/a")%string
  /\ Addr.parseServerAddr Addr.plainSplitHostPort "gw.example.com:443"
     = Some ("gw.example.com", "443", "/")%string
  /\ Addr.ValidateServerAddr Addr.plainSplitHostPort "gw.example.com:443/ws/a"
     = true.
Proof.
  split; [reflexivity|].
  exact (parseServerAddr_cuts_at_first_slash Addr.plainSplitHostPort
           "gw.example.com:443" "ws/a" eq_refl).
Defined.

(** ** More of the HTTP front *)

Section HTTPMore.
Import HTTP.
Context {T : GoText}.
Variable handleTunnel : string -> Z -> string -> option error.

Lemma http_scheme (s : string) :
  "http://" +:+ s
  = String "h" (String "t" (String "t" (String "p" (String ":"
      (String "/" (String "/" s)))))).
Proof. reflexivity. Qed.

Lemma substring_all (s : string) :
  String.substring 0 (String.length s) s = s.
Proof.
  induction s as [|b s IH]; [reflexivity|].
  cbn [String.length String.substring]. now rewrite IH.
Qed.

Lemma scheme_stripped (s : string) :
  Strings.HasPrefix ("http://" +:+ s) "http://" = true
  /\ Strings.TrimPrefix ("http://" +:+ s) "http://" = s.
Proof.
  assert (H : Strings.HasPrefix ("http://" +:+ s) "http://" = true).
  { rewrite http_scheme. unfold Strings.HasPrefix. cbn.
    destruct s; reflexivity. }
  split; [exact H|]. unfold Strings.TrimPrefix. rewrite H.
  rewrite http_scheme. cbn [String.length Nat.sub String.substring].
  rewrite Nat.sub_0_r. apply substring_all.
Qed.

(** X2. The target of an absolute-form request URL: behind "http://", the
    authority is the text up to the first slash and the path is the rest
    from that slash on; without a slash the path is "/".  An empty
    authority is not noticed: the path itself becomes the target. *)
Theorem absolute_uri_target (authority rest : string)
  (headers : gmap string string) :
  Strings.Contains authority "/" = false ->
  authority <> EmptyString ->
  targetAndPath ("http://" +:+ authority +:+ String "/" rest) headers
  = (authority, String "/" rest)
  /\ targetAndPath ("http://" +:+ authority) headers = (authority, "/"%string)
  /\ targetAndPath ("http://" +:+ String "/" rest) headers
     = (String "/" rest, "/"%string).
Proof.
  intros Hno Hne. apply Contains_char_false in Hno.
  unfold targetAndPath.
  repeat split.
  - destruct (scheme_stripped (authority +:+ String "/" rest)) as [-> ->].
    rewrite (Index_char_app "/" authority rest Hno).
    destruct authority as [|a authority]; [contradiction|].
    cbn [String.length]. 
    destruct (Z.ltb_spec 0 (Z.of_nat (S (String.length authority)))); [|lia].
    change (S (String.length authority))
      with (String.length (String a authority)).
    now rewrite upto_app, from_app.
  - destruct (scheme_stripped authority) as [-> ->]. rewrite Hno. reflexivity.
  - destruct (scheme_stripped (String "/" rest)) as [-> ->].
    rewrite Index_char_cons. reflexivity.
Qed.

(** X3. A request forwarded in proxy mode always names a port: the target
    handed to the tunnel contains a colon, ":80" being appended to a
    target without one.  (A CONNECT target is passed on as it came.) *)
Theorem forwarded_target_names_a_port
  (clientAddr method requestURL httpVersion : string)
  (headers : gmap string string) (headerLines : list string)
  (input : string) :
  Forall (fun a => match a with
                   | Tunnel target mode _ =>
                       mode = modeHTTPProxy ->
                       Strings.Contains target ":" = true
                   | _ => True
                   end)
    (serve handleTunnel clientAddr method requestURL httpVersion
       headers headerLines input).
Proof.
  unfold serve, logTunnelError.
  destruct (String.eqb method "CONNECT").
  - repeat constructor; try discriminate.
    destruct (handleTunnel _ _ _) as [e|]; [|constructor].
    destruct (isNormalCloseError _); repeat constructor.
  - destruct (isProxyMethod method); [|repeat constructor].
    constructor; [exact I|].
    destruct (targetAndPath requestURL headers) as [target path].
    destruct (nonEmpty target); [|repeat constructor].
    constructor.
    + intros _. destruct (Strings.Contains target ":") eqn:E; [exact E|].
      apply (Contains_char_app_r ":" target "80").
    + destruct (handleTunnel _ _ _) as [e|]; [|constructor].
      destruct (isNormalCloseError _); repeat constructor.
Qed.

(** X4. One request, one outcome: the handler opens at most one tunnel,
    and when it opens one it writes no response of its own (the responses
    400 and 405 are written only when no tunnel is opened). *)
Theorem handleHTTP_one_outcome (clientAddr : string) (firstByte : ascii)
  (conn : string) :
  exists actions,
    handleHTTP handleTunnel clientAddr firstByte conn = Done actions
    /\ (length (List.filter Actions.isTunnel actions) <= 1)%nat
    /\ (length (List.filter Actions.isWrite actions) <= 1)%nat
    /\ (existsb Actions.isTunnel actions = true ->
        existsb Actions.isWrite actions = false).
Proof.
  assert (Hlog : forall what err,
            List.filter Actions.isTunnel (logTunnelError what clientAddr err) = []
            /\ List.filter Actions.isWrite (logTunnelError what clientAddr err) = []
            /\ existsb Actions.isTunnel (logTunnelError what clientAddr err) = false
            /\ existsb Actions.isWrite (logTunnelError what clientAddr err) = false).
  { intros what [e|]; unfold logTunnelError; [|repeat split; reflexivity].
    destruct (isNormalCloseError _); repeat split; reflexivity. }
  unfold handleHTTP.
  destruct (ReadString (String firstByte conn)) as [[line rest]|];
    [|exists []; cbn; repeat split; (lia || discriminate)].
  destruct (_ <? 3)%nat; [exists []; cbn; repeat split; (lia || discriminate)|].
  destruct (readHeaders_returns (S (String.length rest)) rest ∅ [])
    as [r ->]; [lia|].
  rewrite bind_Done.
  destruct r as [[[headers headerLines] input]|];
    [|exists []; cbn; repeat split; (lia || discriminate)].
  eexists. split; [reflexivity|]. unfold serve.
  destruct (String.eqb _ "CONNECT").
  - destruct (Hlog "HTTP-CONNECT"%string
                (handleTunnel (nth 1 (Fields line) EmptyString)
                   modeHTTPConnect EmptyString)) as (H1 & H2 & H3 & H4).
    cbn [app List.filter existsb Actions.isTunnel Actions.isWrite orb].
    rewrite H1, H2, H4. cbn. repeat split; (lia || reflexivity).
  - destruct (isProxyMethod _);
      [|cbn; repeat split; (lia || discriminate)].
    destruct (targetAndPath _ headers) as [target path].
    destruct (nonEmpty target);
      [|cbn; repeat split; (lia || discriminate)].
    match goal with
    | |- context [logTunnelError ?w clientAddr ?e] =>
        destruct (Hlog w e) as (H1 & H2 & H3 & H4)
    end.
    cbn [app List.filter existsb Actions.isTunnel Actions.isWrite orb].
    rewrite H1, H2, H4. cbn. repeat split; (lia || reflexivity).
Qed.

Lemma ReadString_line (line rest : string) :
  Strings.Index line (String Strings.LF EmptyString) = -1 ->
  ReadString (line +:+ Strings.CRLF +:+ rest)
  = Some (line +:+ Strings.CRLF, rest).
Proof.
  induction line as [|c line IH].
  - intros _. reflexivity.
  - rewrite Index_char_cons. rewrite !append_cons. cbn [ReadString].
    rewrite (Ascii.eqb_sym c Strings.LF).
    destruct (Ascii.eqb Strings.LF c); [lia|].
    destruct (Z.eqb_spec (Strings.Index line (String Strings.LF EmptyString)) (-1))
      as [E|E]; [|pose proof (Index_char_range Strings.LF line); lia].
    intros _. now rewrite (IH E).
Qed.

Lemma cleanLine_facts (line : string) :
  Actions.cleanLine line = true ->
  Strings.Index line (String Strings.LF EmptyString) = -1
  /\ Strings.TrimRight_crlf (line +:+ Strings.CRLF) = line
  /\ line <> EmptyString.
Proof.
  induction line as [|c line IH]; [discriminate|].
  destruct line as [|d line].
  - cbn [Actions.cleanLine]. intros Hc. apply negb_true_iff in Hc.
    repeat split; [| |discriminate].
    + rewrite Index_char_cons. unfold Strings.is_crlf in Hc.
      apply orb_false_iff in Hc as [_ Hc].
      rewrite (Ascii.eqb_sym Strings.LF c), Hc. reflexivity.
    + unfold Strings.TrimRight_crlf.
      change (String c EmptyString +:+ Strings.CRLF)
        with (String c (String Strings.CR (String Strings.LF EmptyString))).
      cbn. now rewrite Hc.
  - change (Actions.cleanLine (String c (String d line)))
      with (negb (Ascii.eqb c Strings.LF) && Actions.cleanLine (String d line)).
    intros Hc. apply andb_true_iff in Hc as [Hc Hrest].
    apply negb_true_iff in Hc.
    destruct (IH Hrest) as (Hi & Ht & _).
    repeat split; [| |discriminate].
    + rewrite Index_char_cons, (Ascii.eqb_sym Strings.LF c), Hc, Hi.
      reflexivity.
    + unfold Strings.TrimRight_crlf in *. rewrite append_cons.
      cbn [Strings.TrimRightFunc]. rewrite Ht. reflexivity.
Qed.

Lemma readHeaders_block (lines : list string) (rest : string) :
  forallb Actions.cleanLine lines = true ->
  forall (fuel : nat) (headers : gmap string string) (acc : list string),
    (length lines < fuel)%nat ->
    exists headers',
      readHeaders fuel (headerBlock lines +:+ Strings.CRLF +:+ rest) headers acc
      = Done (Some (headers', acc ++ lines, rest)).
Proof.
  induction lines as [|line lines IH]; intros Hclean fuel headers acc Hfuel.
  - destruct fuel as [|fuel]; [cbn in Hfuel; lia|].
    exists headers. rewrite app_nil_r. reflexivity.
  - cbn [forallb] in Hclean. apply andb_true_iff in Hclean as [Hline Hlines].
    destruct (cleanLine_facts line Hline) as (Hi & Ht & Hne).
    destruct fuel as [|fuel]; [cbn in Hfuel; lia|].
    cbn [length] in Hfuel.
    cbn [headerBlock fold_right readHeaders].
    fold (headerBlock lines).
    rewrite !append_assoc.
    rewrite (ReadString_line line _ Hi). rewrite Ht.
    assert (Hnon : nonEmpty line = true)
      by (destruct line; [contradiction|reflexivity]).
    rewrite Hnon.
    edestruct (IH Hlines fuel) as [headers' E]; [lia|].
    rewrite <- !append_assoc. rewrite append_assoc.
    rewrite E. exists headers'.
    rewrite <- app_assoc. reflexivity.
Qed.

Lemma headerBlock_length (lines : list string) :
  (length lines <= String.length (headerBlock lines))%nat.
Proof.
  induction lines as [|line lines IH]; [cbn; lia|].
  cbn [headerBlock fold_right length]. fold (headerBlock lines).
  rewrite !length_append. cbn [String.length]. unfold Strings.CRLF.
  cbn [String.length]. lia.
Qed.

(** X5. Reading a request head gives back what the client sent: for a
    request line (without a line feed inside) split by [strings.Fields]
    into method, URL and version, followed by header lines that are not
    empty, hold no line feed and do not end in a carriage return, each
    closed by CRLF, and by a blank line, the handler serves that method,
    URL and version with exactly those header lines, in order, and with
    exactly the bytes behind the blank line left to read. *)
Theorem request_head_roundtrip
  (clientAddr : string) (firstByte : ascii) (lineRest : string)
  (method requestURL httpVersion : string)
  (lines : list string) (rest : string) :
  Strings.Index (String firstByte lineRest) (String Strings.LF EmptyString)
    = -1 ->
  Fields (String firstByte lineRest +:+ Strings.CRLF)
    = [method; requestURL; httpVersion] ->
  forallb Actions.cleanLine lines = true ->
  exists headers,
    handleHTTP handleTunnel clientAddr firstByte
      (lineRest +:+ Strings.CRLF +:+ headerBlock lines
         +:+ Strings.CRLF +:+ rest)
    = Done (serve handleTunnel clientAddr method requestURL httpVersion
              headers lines rest).
Proof.
  intros Hline Hfields Hclean. unfold handleHTTP.
  rewrite <- append_cons.
  rewrite (ReadString_line _ _ Hline). rewrite Hfields.
  cbn [length Nat.ltb Nat.leb nth].
  destruct (readHeaders_block lines rest Hclean
              (S (String.length (headerBlock lines +:+ Strings.CRLF +:+ rest)))
              ∅ []) as [headers E].
  { pose proof (headerBlock_length lines).
    rewrite length_append. lia. }
  rewrite E. exists headers. reflexivity.
Qed.

Lemma readHeaders_block_map (lines : list string) (rest : string) :
  forallb Actions.cleanLine lines = true ->
  forall (fuel : nat) (headers : gmap string string) (acc : list string),
    (length lines < fuel)%nat ->
    exists headers',
      readHeaders fuel (headerBlock lines +:+ Strings.CRLF +:+ rest) headers acc
      = Done (Some (headers', acc ++ lines, rest))
      /\ forall name,
           headers' !! name
           = match Request.headerOf name lines with
             | Some value => Some value
             | None => headers !! name
             end.
Proof.
  induction lines as [|line lines IH]; intros Hclean fuel headers acc Hfuel.
  - destruct fuel as [|fuel]; [cbn in Hfuel; lia|].
    exists headers. rewrite app_nil_r. split; reflexivity.
  - cbn [forallb] in Hclean. apply andb_true_iff in Hclean as [Hline Hlines].
    destruct (cleanLine_facts line Hline) as (Hi & Ht & Hne).
    destruct fuel as [|fuel]; [cbn in Hfuel; lia|].
    cbn [length] in Hfuel.
    cbn [headerBlock fold_right readHeaders].
    fold (headerBlock lines).
    rewrite !append_assoc.
    rewrite (ReadString_line line _ Hi). rewrite Ht.
    assert (Hnon : nonEmpty line = true)
      by (destruct line; [contradiction|reflexivity]).
    rewrite Hnon.
    edestruct (IH Hlines fuel) as (headers' & E & Hmap); [lia|].
    rewrite <- !append_assoc. rewrite append_assoc.
    rewrite E. exists headers'.
    split; [rewrite <- app_assoc; reflexivity|].
    intros name. rewrite Hmap. cbn [Request.headerOf].
    destruct (Request.headerOf name lines) as [value|]; [reflexivity|].
    unfold Request.named, Request.headerName, Request.headerValue.
    destruct (0 <? Strings.Index line ":"); [|reflexivity].
    rewrite lookup_insert.
    destruct (String.eqb_spec
                (ToLower (TrimSpace (Strings.upto line (Strings.Index line ":"))))
                name) as [Heq|Hneq].
    + rewrite decide_True by exact Heq. reflexivity.
    + rewrite decide_False by exact Hneq. reflexivity.
Qed.

(** The handler on a request as the client sends it: the switch gets the
    method, URL and version of the request line, the header lines as
    sent, each header by name as its last line gives it, and the bytes
    behind the blank line. *)
Lemma handleHTTP_request
  (clientAddr : string) (firstByte : ascii) (lineRest : string)
  (method requestURL httpVersion : string)
  (lines : list string) (rest : string) :
  Strings.Index (String firstByte lineRest) (String Strings.LF EmptyString)
    = -1 ->
  Fields (String firstByte lineRest +:+ Strings.CRLF)
    = [method; requestURL; httpVersion] ->
  forallb Actions.cleanLine lines = true ->
  exists headers,
    (forall name, headers !! name = Request.headerOf name lines)
    /\ handleHTTP handleTunnel clientAddr firstByte
         (lineRest +:+ Strings.CRLF +:+ headerBlock lines
            +:+ Strings.CRLF +:+ rest)
       = Done (serve handleTunnel clientAddr method requestURL httpVersion
                 headers lines rest).
Proof.
  intros Hline Hfields Hclean. unfold handleHTTP.
  rewrite <- append_cons.
  rewrite (ReadString_line _ _ Hline). rewrite Hfields.
  cbn [length Nat.ltb Nat.leb nth].
  destruct (readHeaders_block_map lines rest Hclean
              (S (String.length (headerBlock lines +:+ Strings.CRLF +:+ rest)))
              ∅ []) as (headers & E & Hmap).
  { pose proof (headerBlock_length lines).
    rewrite length_append. lia. }
  rewrite E. exists headers. split; [|reflexivity].
  intros name. rewrite Hmap, lookup_empty.
  destruct (Request.headerOf name lines); reflexivity.
Qed.

(** The branch of the switch that forwards: what is handed to the
    tunnel. *)
Lemma serve_proxy (clientAddr method requestURL httpVersion : string)
  (headers : gmap string string) (headerLines : list string) (input : string) :
  isProxyMethod method = true ->
  fst (targetAndPath requestURL headers) <> EmptyString ->
  let target := fst (targetAndPath requestURL headers) in
  let path := snd (targetAndPath requestURL headers) in
  let target' :=
    if Strings.Contains target ":" then target else target +:+ ":80" in
  let frame := firstFrame method path httpVersion headerLines headers input in
  serve handleTunnel clientAddr method requestURL httpVersion
    headers headerLines input
  = LogInfo ("HTTP-" +:+ method +:+ ": " +:+ clientAddr +:+ " -> "
               +:+ requestURL)
      :: Tunnel target' modeHTTPProxy frame
      :: logTunnelError ("HTTP-" +:+ method) clientAddr
           (handleTunnel target' modeHTTPProxy frame).
Proof.
  intros Hm Ht. cbv zeta. unfold serve.
  rewrite (proxy_method_not_connect handleTunnel method Hm), Hm.
  destruct (targetAndPath requestURL headers) as [target path].
  cbn [fst snd] in *.
  assert (Hnon : nonEmpty target = true)
    by (destruct target; [contradiction|reflexivity]).
  rewrite Hnon. reflexivity.
Qed.

(** The frame up to the body: request line, kept header lines, blank
    line, then some bytes of the input. *)
Lemma firstFrame_shape (method path httpVersion : string)
  (headerLines : list string) (headers : gmap string string) (input : string) :
  exists k : Z,
    firstFrame method path httpVersion headerLines headers input
    = (method +:+ " " +:+ path +:+ " " +:+ httpVersion +:+ Strings.CRLF)
        +:+ headerBlock (List.filter keepHeader headerLines) +:+ Strings.CRLF
        +:+ Strings.upto input k.
Proof.
  rewrite firstFrame_cases. cbv zeta. unfold frameHead.
  set (head := (method +:+ " " +:+ path +:+ " " +:+ httpVersion +:+ Strings.CRLF)
                 +:+ headerBlock (List.filter keepHeader headerLines)
                 +:+ Strings.CRLF).
  assert (Hnone : exists k : Z,
            head = (method +:+ " " +:+ path +:+ " " +:+ httpVersion
                      +:+ Strings.CRLF)
                     +:+ headerBlock (List.filter keepHeader headerLines)
                     +:+ Strings.CRLF +:+ Strings.upto input k).
  { exists 0. rewrite upto_0, append_nil_r. reflexivity. }
  destruct (nonEmpty _); [|exact Hnone].
  destruct (_ && _); [|exact Hnone].
  unfold ReadFull. destruct (_ <=? _); [|exact Hnone].
  eexists. unfold head. rewrite !append_assoc. reflexivity.
Qed.

(** C3. What is handed to the tunnel for a forwarded (non-CONNECT)
    request is, as first frame, the request line, then exactly the header
    lines whose key (the text before the first colon, trimmed and
    lowercased) is neither "proxy-connection" nor "proxy-authorization",
    verbatim, in their original order and each closed by CRLF, then one
    blank line, then the body bytes: for every list of header lines that
    reaches the switch, and, for a request as the client sends it (request
    line, header lines closed by CRLF, blank line), for the header lines
    that were sent. *)
Theorem header_sanitization
  (clientAddr method requestURL httpVersion : string) :
  isProxyMethod method = true ->
  (forall headerLines : list string,
     let kept := List.filter keepHeader headerLines in
     (forall line,
        In line kept
        <-> In line headerLines
            /\ ToLower (TrimSpace (hd EmptyString (Strings.Split line ":"%char)))
                 <> "proxy-connection"%string
            /\ ToLower (TrimSpace (hd EmptyString (Strings.Split line ":"%char)))
                 <> "proxy-authorization"%string)
     /\ sublist kept headerLines
     /\ forall (headers : gmap string string) (input : string),
          let target := fst (targetAndPath requestURL headers) in
          let path := snd (targetAndPath requestURL headers) in
          target <> EmptyString ->
          exists (k : Z) (log : list action),
            serve handleTunnel clientAddr method requestURL httpVersion
              headers headerLines input
            = LogInfo ("HTTP-" +:+ method +:+ ": " +:+ clientAddr +:+ " -> "
                         +:+ requestURL)
                :: Tunnel (if Strings.Contains target ":" then target
                           else target +:+ ":80") modeHTTPProxy
                     ((method +:+ " " +:+ path +:+ " " +:+ httpVersion
                         +:+ Strings.CRLF)
                        +:+ headerBlock kept +:+ Strings.CRLF
                        +:+ Strings.upto input k)
                :: log)
  /\ (forall (firstByte : ascii) (lineRest : string) (lines : list string)
        (rest : string),
        Strings.Index (String firstByte lineRest)
          (String Strings.LF EmptyString) = -1 ->
        Fields (String firstByte lineRest +:+ Strings.CRLF)
          = [method; requestURL; httpVersion] ->
        forallb Actions.cleanLine lines = true ->
        exists headers : gmap string string,
          (forall name, headers !! name = Request.headerOf name lines)
          /\ let target := fst (targetAndPath requestURL headers) in
             let path := snd (targetAndPath requestURL headers) in
             (target <> EmptyString ->
              exists (k : Z) (log : list action),
                handleHTTP handleTunnel clientAddr firstByte
                  (lineRest +:+ Strings.CRLF +:+ headerBlock lines
                     +:+ Strings.CRLF +:+ rest)
                = Done
                    (LogInfo ("HTTP-" +:+ method +:+ ": " +:+ clientAddr
                                +:+ " -> " +:+ requestURL)
                       :: Tunnel (if Strings.Contains target ":" then target
                                  else target +:+ ":80") modeHTTPProxy
                            ((method +:+ " " +:+ path +:+ " " +:+ httpVersion
                                +:+ Strings.CRLF)
                               +:+ headerBlock (List.filter keepHeader lines)
                               +:+ Strings.CRLF +:+ Strings.upto rest k)
                       :: log))).
Proof.
  intros Hm. split.
  - intros headerLines kept. split; [|split].
    + intros line. unfold kept. rewrite filter_In, keepHeader_spec.
      reflexivity.
    + apply filter_sublist.
    + intros headers input target path Ht.
      pose proof (serve_proxy clientAddr method requestURL httpVersion
                    headers headerLines input Hm Ht) as E.
      cbv zeta in E. rewrite E.
      destruct (firstFrame_shape method path httpVersion headerLines headers
                  input) as [k Hk].
      exists k. eexists. unfold path in Hk. rewrite Hk. reflexivity.
  - intros firstByte lineRest lines rest Hline Hfields Hclean.
    destruct (handleHTTP_request clientAddr firstByte lineRest method
                requestURL httpVersion lines rest Hline Hfields Hclean)
      as (headers & Hmap & E).
    exists headers. split; [exact Hmap|]. intros target path Ht.
    rewrite E.
    pose proof (serve_proxy clientAddr method requestURL httpVersion
                  headers lines rest Hm Ht) as Es.
    cbv zeta in Es. rewrite Es.
    destruct (firstFrame_shape method path httpVersion lines headers rest)
      as [k Hk].
    exists k. eexists. unfold path in Hk. rewrite Hk. reflexivity.
Qed.

(** C7. For a forwarded (non-CONNECT) request as the client sends it
    whose header lines give a Content-Length (the value of the last line
    with that name): if the value scans as an integer [N] with
    0 < N < 10*1048576, the first frame handed to the tunnel is the frame
    up to the blank line followed by exactly the [N] bytes that the
    client sent behind the blank line; if N <= 0, if N >= 10*1048576, or
    if the value is empty or does not scan, nothing follows the blank
    line.  (Nothing follows either when the client supplies fewer than
    [N] bytes, or when no header line has that name.) *)
Theorem content_length_body
  (clientAddr : string) (firstByte : ascii)
  (lineRest method requestURL httpVersion : string)
  (lines : list string) (rest : string) :
  Strings.Index (String firstByte lineRest) (String Strings.LF EmptyString)
    = -1 ->
  Fields (String firstByte lineRest +:+ Strings.CRLF)
    = [method; requestURL; httpVersion] ->
  isProxyMethod method = true ->
  forallb Actions.cleanLine lines = true ->
  exists headers : gmap string string,
    (forall name, headers !! name = Request.headerOf name lines)
    /\ let target := fst (targetAndPath requestURL headers) in
       let path := snd (targetAndPath requestURL headers) in
       let head := frameHead method path httpVersion lines in
       let forwards (frame : string) :=
         exists log : list action,
           handleHTTP handleTunnel clientAddr firstByte
             (lineRest +:+ Strings.CRLF +:+ headerBlock lines
                +:+ Strings.CRLF +:+ rest)
           = Done
               (LogInfo ("HTTP-" +:+ method +:+ ": " +:+ clientAddr
                           +:+ " -> " +:+ requestURL)
                  :: Tunnel (if Strings.Contains target ":" then target
                             else target +:+ ":80") modeHTTPProxy frame
                  :: log) in
       target <> EmptyString ->
       (forall value N,
          Request.headerOf "content-length" lines = Some value ->
          value <> EmptyString -> Sscanf_d value = Some N ->
          0 < N < 10 * 1048576 -> N <= Z.of_nat (String.length rest) ->
          forwards (head +:+ Strings.upto rest N)
          /\ Z.of_nat (String.length (Strings.upto rest N)) = N)
       /\ (forall value N,
             Request.headerOf "content-length" lines = Some value ->
             Sscanf_d value = Some N ->
             N <= 0 \/ 10 * 1048576 <= N -> forwards head)
       /\ (forall value,
             Request.headerOf "content-length" lines = Some value ->
             Sscanf_d value = None -> forwards head)
       /\ (Request.headerOf "content-length" lines = Some EmptyString ->
           forwards head)
       /\ (forall value N,
             Request.headerOf "content-length" lines = Some value ->
             Sscanf_d value = Some N ->
             Z.of_nat (String.length rest) < N -> forwards head)
       /\ (Request.headerOf "content-length" lines = None -> forwards head).
Proof.
  intros Hline Hfields Hm Hclean.
  destruct (handleHTTP_request clientAddr firstByte lineRest method
              requestURL httpVersion lines rest Hline Hfields Hclean)
    as (headers & Hmap & E).
  exists headers. split; [exact Hmap|].
  intros target path head forwards Ht.
  pose proof (serve_proxy clientAddr method requestURL httpVersion
                headers lines rest Hm Ht) as Es.
  cbv zeta in Es. fold target in Es. fold path in Es.
  assert (Hfw : forwards (firstFrame method path httpVersion lines headers rest)).
  { unfold forwards. eexists. rewrite E, Es. reflexivity. }
  clear E Es. revert Hfw.
  rewrite firstFrame_cases. cbv zeta. fold head.
  rewrite (Hmap "content-length"%string).
  generalize dependent forwards. intros forwards.
  split; [|split; [|split; [|split; [|split]]]].
  - intros value N Hcl Hne HN Hrange Hin. revert Hfw.
    rewrite Hcl. cbn [from_option id]. rewrite HN. cbn [from_option id].
    assert (Hnon : nonEmpty value = true)
      by (destruct value; [contradiction|reflexivity]).
    rewrite Hnon.
    destruct (Z.ltb_spec 0 N); [|lia].
    destruct (Z.ltb_spec N (10 * 1024 * 1024)); [|lia]. cbn [andb].
    unfold ReadFull.
    destruct (Z.leb_spec N (Z.of_nat (String.length rest))); [|lia].
    intros Hfw. split; [exact Hfw|].
    unfold Strings.upto. rewrite length_substring0 by lia. lia.
  - intros value N Hcl HN Hrange. revert Hfw.
    rewrite Hcl. cbn [from_option id]. rewrite HN. cbn [from_option id].
    destruct (nonEmpty value); [|exact (fun H => H)].
    destruct (Z.ltb_spec 0 N); [|exact (fun H => H)].
    destruct (Z.ltb_spec N (10 * 1024 * 1024)); [lia|exact (fun H => H)].
  - intros value Hcl HN. revert Hfw.
    rewrite Hcl. cbn [from_option id]. rewrite HN. cbn [from_option id].
    destruct (nonEmpty value); exact (fun H => H).
  - intros Hcl. revert Hfw. rewrite Hcl. cbn [from_option id nonEmpty].
    exact (fun H => H).
  - intros value N Hcl HN Hshort. revert Hfw.
    rewrite Hcl. cbn [from_option id]. rewrite HN. cbn [from_option id].
    destruct (nonEmpty value); [|exact (fun H => H)].
    destruct (_ && _); [|exact (fun H => H)].
    unfold ReadFull.
    destruct (Z.leb_spec N (Z.of_nat (String.length rest))); [lia|].
    exact (fun H => H).
  - intros Hcl. revert Hfw. rewrite Hcl. cbn [from_option id nonEmpty].
    exact (fun H => H).
Qed.

End HTTPMore.

Lemma absolute_uri_target_witness :
  HTTP.targetAndPath "http://example.com:8080/a/b" ∅
  = ("example.com:8080", "/a/b")%string
  /\ HTTP.targetAndPath "http://example.com:8080" ∅
     = ("example.com:8080", "/")%string
  /\ HTTP.targetAndPath "http:///a/b" ∅ = ("/a/b", "/")%string.
Proof.
  apply (absolute_uri_target "example.com:8080" "a/b" ∅).
  - reflexivity.
  - discriminate.
Defined.

Lemma request_head_roundtrip_witness :
  let lines := ["Host: example.com"; "Accept: */*"]%string in
  Strings.Index "GET http://example.com/ HTTP/1.1"
    (String Strings.LF EmptyString) = -1
  /\ forallb Actions.cleanLine lines = true
  /\ exists headers,
       HTTP.handleHTTP (T := HTTP.asciiText) (fun _ _ _ => None)
         "10.0.0.2:5000" "G"
         ("ET http://example.com/ HTTP/1.1" +:+ Strings.CRLF
            +:+ HTTP.headerBlock lines +:+ Strings.CRLF +:+ "body")
       = Done (HTTP.serve (T := HTTP.asciiText) (fun _ _ _ => None)
                 "10.0.0.2:5000" "GET" "http://example.com/" "HTTP/1.1"
                 headers lines "body").
Proof.
  intros lines. split; [reflexivity|]. split; [reflexivity|].
  apply (request_head_roundtrip (T := HTTP.asciiText) (fun _ _ _ => None)
           "10.0.0.2:5000" "G" "ET http://example.com/ HTTP/1.1"
           "GET" "http://example.com/" "HTTP/1.1" lines "body");
    reflexivity.
Defined.

(** A GET through the proxy with a Proxy-Connection header: the frame
    handed to the tunnel has the other two header lines. *)
Lemma header_sanitization_witness :
  let tunnel : string -> Z -> string -> option HTTP.error := fun _ _ _ => None in
  let lines := ["Host: example.com"; "Proxy-Connection: keep-alive";
                "Accept: */*"]%string in
  HTTP.isProxyMethod "GET" = true
  /\ List.filter (HTTP.keepHeader (T := HTTP.asciiText)) lines
     = ["Host: example.com"; "Accept: */*"]%string
  /\ exists (k : Z) (log : list HTTP.action),
       HTTP.handleHTTP (T := HTTP.asciiText) tunnel "10.0.0.2:5000" "G"
         ("ET http://example.com/a HTTP/1.1" +:+ Strings.CRLF
            +:+ HTTP.headerBlock lines +:+ Strings.CRLF +:+ EmptyString)
       = Done
           (HTTP.LogInfo "HTTP-GET: 10.0.0.2:5000 -> http://example.com/a"
              :: HTTP.Tunnel "example.com:80" HTTP.modeHTTPProxy
                   (("GET /a HTTP/1.1" +:+ Strings.CRLF)
                      +:+ HTTP.headerBlock
                            ["Host: example.com"; "Accept: */*"]%string
                      +:+ Strings.CRLF +:+ Strings.upto EmptyString k)
              :: log).
Proof.
  intros tunnel lines.
  assert (Hm : HTTP.isProxyMethod "GET" = true) by reflexivity.
  split; [exact Hm|]. split; [reflexivity|].
  destruct (header_sanitization (T := HTTP.asciiText) tunnel "10.0.0.2:5000"
              "GET" "http://example.com/a" "HTTP/1.1" Hm) as [_ Hwire].
  destruct (Hwire "G"%char "ET http://example.com/a HTTP/1.1"%string lines
              EmptyString eq_refl eq_refl eq_refl)
    as (headers & _ & H).
  cbv zeta in H.
  change (HTTP.targetAndPath "http://example.com/a" headers)
    with ("example.com"%string, "/a"%string) in H.
  cbn [fst snd] in H.
  destruct (H ltac:(discriminate)) as (k & log & E).
  exists k, log. exact E.
Defined.

(** Content-Length 3 with six bytes behind the blank line: three of them
    are handed to the tunnel. *)
Lemma content_length_body_witness :
  let tunnel : string -> Z -> string -> option HTTP.error := fun _ _ _ => None in
  let lines := ["Host: example.com"; "Content-Length: 3"]%string in
  HTTP.isProxyMethod "POST" = true
  /\ forallb Actions.cleanLine lines = true
  /\ Request.headerOf (T := HTTP.asciiText) "content-length" lines
     = Some "3"%string
  /\ exists log : list HTTP.action,
       HTTP.handleHTTP (T := HTTP.asciiText) tunnel "10.0.0.2:5000" "P"
         ("OST http://example.com/x HTTP/1.1" +:+ Strings.CRLF
            +:+ HTTP.headerBlock lines +:+ Strings.CRLF +:+ "abcdef")
       = Done
           (HTTP.LogInfo "HTTP-POST: 10.0.0.2:5000 -> http://example.com/x"
              :: HTTP.Tunnel "example.com:80" HTTP.modeHTTPProxy
                   (HTTP.frameHead (T := HTTP.asciiText) "POST" "/x"
                      "HTTP/1.1" lines +:+ "abc")
              :: log).
Proof.
  intros tunnel lines.
  assert (Hm : HTTP.isProxyMethod "POST" = true) by reflexivity.
  assert (Hclean : forallb Actions.cleanLine lines = true) by reflexivity.
  assert (Hcl : Request.headerOf (T := HTTP.asciiText) "content-length" lines
                = Some "3"%string) by reflexivity.
  repeat (split; [assumption|]).
  destruct (content_length_body (T := HTTP.asciiText) tunnel "10.0.0.2:5000"
              "P" "OST http://example.com/x HTTP/1.1" "POST"
              "http://example.com/x" "HTTP/1.1" lines "abcdef"
              eq_refl eq_refl Hm Hclean)
    as (headers & _ & H).
  cbv zeta in H.
  change (HTTP.targetAndPath "http://example.com/x" headers)
    with ("example.com"%string, "/x"%string) in H.
  cbn [fst snd] in H.
  destruct (H ltac:(discriminate)) as (Hbody & _).
  destruct (Hbody "3"%string 3 Hcl ltac:(discriminate) eq_refl ltac:(lia)
              ltac:(cbn; lia)) as [[log E] _].
  exists log. exact E.
Defined.

(** ** The sniffer and the HTTP methods *)

(** X6. The sniffer and the HTTP handler agree: a first byte is passed to
    the HTTP handler exactly when it is the first byte of a method the
    handler serves (CONNECT or one of the eight forwarded methods). *)
Theorem sniffer_agrees_with_methods (b : byte) :
  Sniff.byteIn b Sniff.httpFirstBytes = true
  <-> exists method,
        Actions.isSupportedMethod method = true
        /\ Actions.firstByteOf method = Some b.
Proof.
  split.
  - intros H. apply byteIn_In in H. cbn [In Sniff.httpFirstBytes] in H.
    destruct H as [<-|[<-|[<-|[<-|[<-|[<-|[<-|[]]]]]]]].
    + exists "CONNECT"%string. split; reflexivity.
    + exists "GET"%string. split; reflexivity.
    + exists "POST"%string. split; reflexivity.
    + exists "HEAD"%string. split; reflexivity.
    + exists "DELETE"%string. split; reflexivity.
    + exists "OPTIONS"%string. split; reflexivity.
    + exists "TRACE"%string. split; reflexivity.
  - intros (method & Hm & Hb).
    unfold Actions.isSupportedMethod, HTTP.isProxyMethod in Hm.
    apply orb_true_iff in Hm as [Hm|Hm].
    + apply String.eqb_eq in Hm. subst method.
      injection Hb as <-. reflexivity.
    + apply existsb_exists in Hm as (m & Hin & E).
      apply String.eqb_eq in E. subst m. cbn [In] in Hin.
      destruct Hin as [<-|[<-|[<-|[<-|[<-|[<-|[<-|[<-|[]]]]]]]]];
        injection Hb as <-; reflexivity.
Qed.

(** ** SOCKS5 *)

Section SOCKS5Facts.
Import SOCKS5.

Variable IPString : list byte -> string.
Variable handleTunnel : string -> Z -> string -> option HTTP.error.

Lemma ReadFull_app (pre post : list byte) (n : Z) :
  len pre = n -> ReadFull (pre ++ post) n = Some (pre, post).
Proof.
  intros <-. unfold ReadFull. rewrite len_app.
  pose proof (len_nonneg post).
  destruct (Z.leb_spec (len pre) (len pre + len post)); [|lia].
  unfold len. rewrite Nat2Z.id, take_app_length, drop_app_length.
  reflexivity.
Qed.

Lemma ReadFull_inv (conn : list byte) (n : Z) (buf rest : list byte) :
  0 <= n -> ReadFull conn n = Some (buf, rest) ->
  conn = buf ++ rest /\ len buf = n.
Proof.
  unfold ReadFull. intros Hn.
  destruct (Z.leb_spec n (len conn)); [|discriminate].
  intros [= <- <-]. split; [symmetry; apply take_drop|].
  rewrite len_take. lia.
Qed.

Lemma port_value (port : Z) :
  0 <= port < 65536 ->
  Z.lor (Z.shiftl (u8 (byte_of_Z (Z.shiftr port 8))) 8) (u8 (byte_of_Z port))
  = port.
Proof.
  intros Hp. rewrite !u8_byte_of_Z, Z.shiftr_div_pow2, Z.shiftl_mul_pow2 by lia.
  rewrite (lor_disjoint_add _ _ 8).
  - change (2 ^ 8) with 256. Z.div_mod_to_equations. lia.
  - lia.
  - change (2 ^ 8) with 256. Z.div_mod_to_equations. lia.
  - apply Z.mod_mul. lia.
Qed.

Lemma port_bytes (p0 p1 : byte) :
  let port := Z.lor (Z.shiftl (u8 p0) 8) (u8 p1) in
  0 <= port < 65536
  /\ [p0; p1] = [byte_of_Z (Z.shiftr port 8); byte_of_Z port].
Proof.
  pose proof (u8_range p0). pose proof (u8_range p1).
  assert (E : Z.lor (Z.shiftl (u8 p0) 8) (u8 p1) = u8 p0 * 256 + u8 p1).
  { rewrite Z.shiftl_mul_pow2 by lia. rewrite (lor_disjoint_add _ _ 8).
    - reflexivity.
    - lia.
    - change (2 ^ 8) with 256. lia.
    - apply Z.mod_mul. lia. }
  cbv zeta. rewrite E. split; [lia|].
  rewrite Z.shiftr_div_pow2 by lia. change (2 ^ 8) with 256.
  f_equal; [|f_equal].
  - symmetry. apply byte_of_Z_mod. Z.div_mod_to_equations. lia.
  - symmetry. apply byte_of_Z_mod. Z.div_mod_to_equations. lia.
Qed.

Lemma readHost_address (a : address) (tail : list byte) :
  wfAddress a = true ->
  readHost IPString (atypOf a) (encodeAddress a ++ tail)
  = inr (hostOf IPString a, tail).
Proof.
  destruct a as [ip|name|ip]; cbn [wfAddress atypOf encodeAddress hostOf];
    intros Hwf; unfold readHost; cbn [Byte.eqb].
  - apply Z.eqb_eq in Hwf. change (Byte.eqb x01 x01) with true. cbv iota.
    now rewrite (ReadFull_app ip tail 4 Hwf).
  - apply Z.ltb_lt in Hwf. pose proof (len_nonneg name).
    change (Byte.eqb x03 x01) with false. change (Byte.eqb x03 x03) with true.
    cbv iota.
    change ((byte_of_Z (len name) :: name) ++ tail)
      with ([byte_of_Z (len name)] ++ (name ++ tail)).
    rewrite (ReadFull_app [byte_of_Z (len name)] (name ++ tail) 1 eq_refl).
    cbn [at_ nth]. rewrite u8_byte_of_Z, Z.mod_small by lia.
    now rewrite (ReadFull_app name tail (len name) eq_refl).
  - apply Z.eqb_eq in Hwf.
    change (Byte.eqb x04 x01) with false. change (Byte.eqb x04 x03) with false.
    change (Byte.eqb x04 x04) with true. cbv iota.
    now rewrite (ReadFull_app ip tail 16 Hwf).
Qed.

Lemma readHost_inv (atyp : byte) (conn : list byte) (host : string)
  (rest : list byte) :
  readHost IPString atyp conn = inr (host, rest) ->
  exists a, wfAddress a = true /\ atypOf a = atyp
            /\ conn = encodeAddress a ++ rest /\ host = hostOf IPString a.
Proof.
  unfold readHost.
  destruct (Byte.eqb atyp x01) eqn:E1.
  { apply Byte.byte_dec_bl in E1.
    destruct (ReadFull conn 4) as [[buf conn']|] eqn:R; [|discriminate].
    intros [= <- <-]. apply ReadFull_inv in R as [-> Hl]; [|lia].
    exists (IPv4 buf). cbn. rewrite Hl. repeat split; congruence. }
  destruct (Byte.eqb atyp x03) eqn:E3.
  { apply Byte.byte_dec_bl in E3.
    destruct (ReadFull conn 1) as [[buf conn']|] eqn:R; [|discriminate].
    destruct (ReadFull conn' (u8 (at_ buf 0))) as [[domainBuf conn'']|] eqn:R';
      [|discriminate].
    intros [= <- <-]. pose proof (u8_range (at_ buf 0)).
    apply ReadFull_inv in R as [-> Hl]; [|lia].
    apply ReadFull_inv in R' as [-> Hl']; [|lia].
    destruct buf as [|b [|b' buf]]; rewrite ?len_cons, ?len_nil in Hl;
      try lia; try (pose proof (len_nonneg buf); lia).
    cbn [at_ nth] in *.
    exists (Domain domainBuf). cbn [wfAddress atypOf encodeAddress hostOf].
    rewrite Hl', byte_of_Z_u8. repeat split; try congruence.
    apply Z.ltb_lt. lia. }
  destruct (Byte.eqb atyp x04) eqn:E4; [|discriminate].
  apply Byte.byte_dec_bl in E4.
  destruct (ReadFull conn 16) as [[buf conn']|] eqn:R; [|discriminate].
  intros [= <- <-]. apply ReadFull_inv in R as [-> Hl]; [|lia].
  exists (IPv6 buf). cbn. rewrite Hl. repeat split; congruence.
Qed.

Lemma targetOf_text (a : address) (port : Z) :
  targetOf (atypOf a) (hostOf IPString a) port = targetText IPString a port.
Proof. destruct a; reflexivity. Qed.

Lemma request_wire (clientAddr : string) (command rsv : byte) (a : address)
  (port : Z) (rest : list byte) :
  wfAddress a = true -> 0 <= port < 65536 ->
  request IPString handleTunnel clientAddr
    ([x05; command; rsv; atypOf a] ++ encodeAddress a
       ++ [byte_of_Z (Z.shiftr port 8); byte_of_Z port] ++ rest)
  = if negb (Byte.eqb command x01) then [write (reply x07)]
    else
      [HTTP.LogInfo ("SOCKS5: " +:+ clientAddr +:+ " -> "
                       +:+ targetText IPString a port);
       HTTP.Tunnel (targetText IPString a port) HTTP.modeSOCKS5 EmptyString]
        ++ HTTP.logTunnelError "SOCKS5" clientAddr
             (handleTunnel (targetText IPString a port) HTTP.modeSOCKS5
                EmptyString).
Proof.
  intros Hwf Hport. unfold request.
  rewrite (ReadFull_app [x05; command; rsv; atypOf a] _ 4 eq_refl).
  cbn [at_ nth]. change (u8 x05 =? 5) with true. cbn [negb].
  rewrite (readHost_address a _ Hwf).
  rewrite (ReadFull_app [byte_of_Z (Z.shiftr port 8); byte_of_Z port]
             rest 2 eq_refl).
  cbn [at_ nth]. rewrite (port_value port Hport), targetOf_text.
  reflexivity.
Qed.

Lemma negotiation_wire (greetingOK : bool) (clientAddr : string)
  (methods tail : list byte) :
  len methods < 256 ->
  handleSOCKS5 IPString handleTunnel greetingOK clientAddr x05
    (byte_of_Z (len methods) :: methods ++ tail)
  = write greeting
      :: (if greetingOK
          then request IPString handleTunnel clientAddr tail else []).
Proof.
  intros Hm. pose proof (len_nonneg methods). unfold handleSOCKS5.
  change (Byte.eqb x05 x05) with true. cbn [negb].
  change (byte_of_Z (len methods) :: methods ++ tail)
    with ([byte_of_Z (len methods)] ++ (methods ++ tail)).
  rewrite (ReadFull_app [byte_of_Z (len methods)] _ 1 eq_refl).
  cbn [at_ nth]. rewrite u8_byte_of_Z, Z.mod_small by lia.
  now rewrite (ReadFull_app methods tail (len methods) eq_refl).
Qed.

Lemma encodeRequest_app (methods : list byte) (command rsv : byte)
  (a : address) (port : Z) (rest : list byte) :
  encodeRequest methods command rsv a port ++ rest
  = byte_of_Z (len methods) :: methods
      ++ ([x05; command; rsv; atypOf a] ++ encodeAddress a
            ++ [byte_of_Z (Z.shiftr port 8); byte_of_Z port] ++ rest).
Proof.
  unfold encodeRequest.
  rewrite <- app_comm_cons, <- app_assoc. do 2 f_equal.
  rewrite <- !app_assoc. reflexivity.
Qed.

(** X7. A CONNECT request on the wire (RFC 1928: the methods offered,
    then version 5, command 1, a reserved octet, the address type, the
    address and the port, big-endian) opens one tunnel to the address it
    names: the method selection 05 00 is written, then the target
    host:port (an IPv6 host in brackets, the port in decimal) is handed to
    the tunnel in SOCKS5 mode without a first frame.  Whatever follows the
    request on the connection makes no difference. *)
Theorem socks5_connect_roundtrip (clientAddr : string)
  (methods : list byte) (rsv : byte) (a : address) (port : Z)
  (rest : list byte) :
  len methods < 256 -> wfAddress a = true -> 0 <= port < 65536 ->
  handleSOCKS5 IPString handleTunnel true clientAddr x05
    (encodeRequest methods x01 rsv a port ++ rest)
  = write greeting
      :: HTTP.LogInfo ("SOCKS5: " +:+ clientAddr +:+ " -> "
                         +:+ targetText IPString a port)
      :: HTTP.Tunnel (targetText IPString a port) HTTP.modeSOCKS5 EmptyString
      :: HTTP.logTunnelError "SOCKS5" clientAddr
           (handleTunnel (targetText IPString a port) HTTP.modeSOCKS5
              EmptyString).
Proof.
  intros Hm Hwf Hport. rewrite encodeRequest_app.
  rewrite (negotiation_wire true clientAddr methods _ Hm).
  f_equal.
  exact (request_wire clientAddr x01 rsv a port rest Hwf Hport).
Qed.

(** X8. A complete request with another command than CONNECT (BIND, UDP
    ASSOCIATE, anything else) is refused: after the method selection the
    reply with code 07 is written, and no tunnel is opened. *)
Theorem socks5_other_commands_refused (clientAddr : string)
  (methods : list byte) (command rsv : byte) (a : address) (port : Z)
  (rest : list byte) :
  len methods < 256 -> wfAddress a = true -> 0 <= port < 65536 ->
  command <> x01 ->
  handleSOCKS5 IPString handleTunnel true clientAddr x05
    (encodeRequest methods command rsv a port ++ rest)
  = [write greeting; write (reply x07)].
Proof.
  intros Hm Hwf Hport Hc. rewrite encodeRequest_app.
  rewrite (negotiation_wire true clientAddr methods _ Hm).
  f_equal.
  rewrite (request_wire clientAddr command rsv a port rest Hwf Hport).
  destruct (Byte.eqb command x01) eqn:Eq; [|reflexivity].
  apply Byte.byte_dec_bl in Eq. contradiction.
Qed.

(** X9. An address type other than 1 (IPv4), 3 (domain name) and 4 (IPv6)
    is answered with reply code 08 as soon as the four-octet request head
    is read, whatever the command and whatever follows. *)
Theorem socks5_unknown_address_type (clientAddr : string)
  (methods : list byte) (command rsv atyp : byte) (tail : list byte) :
  len methods < 256 ->
  atyp <> x01 -> atyp <> x03 -> atyp <> x04 ->
  handleSOCKS5 IPString handleTunnel true clientAddr x05
    (byte_of_Z (len methods) :: methods
       ++ [x05; command; rsv; atyp] ++ tail)
  = [write greeting; write (reply x08)].
Proof.
  intros Hm H1 H3 H4.
  rewrite (negotiation_wire true clientAddr methods _ Hm).
  f_equal. unfold request.
  rewrite (ReadFull_app [x05; command; rsv; atyp] tail 4 eq_refl).
  cbn [at_ nth]. change (u8 x05 =? 5) with true. cbn [negb].
  unfold readHost.
  destruct (Byte.eqb atyp x01) eqn:E1;
    [apply Byte.byte_dec_bl in E1; contradiction|].
  destruct (Byte.eqb atyp x03) eqn:E3;
    [apply Byte.byte_dec_bl in E3; contradiction|].
  destruct (Byte.eqb atyp x04) eqn:E4;
    [apply Byte.byte_dec_bl in E4; contradiction|].
  reflexivity.
Qed.

Lemma logTunnelError_no_tunnel (what clientAddr : string)
  (err : option HTTP.error) (target : string) (mode : Z) (frame : string) :
  ~ In (HTTP.Tunnel target mode frame) (HTTP.logTunnelError what clientAddr err).
Proof.
  unfold HTTP.logTunnelError. destruct err as [e|]; [|intros []].
  destruct (HTTP.isNormalCloseError _); [intros []|].
  intros [H|[]]. discriminate.
Qed.

(** X10. A tunnel is opened only for a complete CONNECT request: if the
    handler hands a target to the tunnel, then the first byte was 5, the
    method selection was written, and the bytes on the connection begin
    with a request as in X7 (with command 1), whose address and port are
    the target; the mode is SOCKS5 and there is no first frame. *)
Theorem socks5_tunnel_only_for_connect (greetingOK : bool)
  (clientAddr : string) (firstByte : byte) (conn : list byte)
  (target : string) (mode : Z) (frame : string) :
  In (HTTP.Tunnel target mode frame)
    (handleSOCKS5 IPString handleTunnel greetingOK clientAddr firstByte conn) ->
  firstByte = x05 /\ greetingOK = true
  /\ mode = HTTP.modeSOCKS5 /\ frame = EmptyString
  /\ exists methods rsv a port rest,
       len methods < 256 /\ wfAddress a = true /\ 0 <= port < 65536
       /\ conn = encodeRequest methods x01 rsv a port ++ rest
       /\ target = targetText IPString a port.
Proof.
  unfold handleSOCKS5.
  destruct (Byte.eqb firstByte x05) eqn:E5; cbn [negb];
    [|intros [H|[]]; discriminate].
  apply Byte.byte_dec_bl in E5.
  destruct (ReadFull conn 1) as [[buf conn1]|] eqn:R1; [|intros []].
  destruct (ReadFull conn1 (u8 (at_ buf 0))) as [[methods conn2]|] eqn:R2;
    [|intros []].
  pose proof (u8_range (at_ buf 0)) as Hn.
  apply ReadFull_inv in R1 as [-> Hl1]; [|lia].
  apply ReadFull_inv in R2 as [-> Hl2]; [|lia].
  destruct buf as [|n [|n' buf]]; rewrite ?len_cons, ?len_nil in Hl1;
    try lia; try (pose proof (len_nonneg buf); lia).
  cbn [at_ nth] in *.
  intros [H|H]; [discriminate|].
  destruct greetingOK; [|destruct H].
  unfold request in H.
  destruct (ReadFull conn2 4) as [[head conn3]|] eqn:R3; [|destruct H].
  apply ReadFull_inv in R3 as [-> Hl3]; [|lia].
  destruct head as [|v [|command [|rsv [|atyp [|x head]]]]];
    rewrite ?len_cons, ?len_nil in Hl3;
    try lia; try (pose proof (len_nonneg head); lia).
  cbn [at_ nth] in H.
  destruct (Z.eqb_spec (u8 v) 5) as [Hv|Hv]; cbn [negb] in H; [|destruct H].
  assert (v = x05) by (rewrite <- (byte_of_Z_u8 v), Hv; reflexivity).
  subst v.
  destruct (readHost IPString atyp conn3) as [acts|[host conn4]] eqn:RH.
  { exfalso. unfold readHost in RH.
    destruct (Byte.eqb atyp x01).
    { destruct (ReadFull conn3 4) as [[? ?]|]; [discriminate|].
      injection RH as <-. destruct H. }
    destruct (Byte.eqb atyp x03).
    { destruct (ReadFull conn3 1) as [[b1 c1]|];
        [|injection RH as <-; destruct H].
      destruct (ReadFull c1 _) as [[? ?]|]; [discriminate|].
      injection RH as <-. destruct H. }
    destruct (Byte.eqb atyp x04).
    { destruct (ReadFull conn3 16) as [[? ?]|]; [discriminate|].
      injection RH as <-. destruct H. }
    injection RH as <-. destruct H as [H|[]]. discriminate. }
  apply readHost_inv in RH as (a & Hwf & Hat & -> & ->).
  destruct (ReadFull conn4 2) as [[pb conn5]|] eqn:R5; [|destruct H].
  apply ReadFull_inv in R5 as [-> Hl5]; [|lia].
  destruct pb as [|p0 [|p1 [|x pb]]]; rewrite ?len_cons, ?len_nil in Hl5;
    try lia; try (pose proof (len_nonneg pb); lia).
  cbn [at_ nth] in H.
  destruct (Byte.eqb command x01) eqn:Ec; cbn [negb] in H;
    [|destruct H as [H|[]]; discriminate].
  apply Byte.byte_dec_bl in Ec. subst command.
  cbn [app In] in H.
  destruct H as [H|[H|H]]; [discriminate| |].
  2: { exfalso. revert H. apply logTunnelError_no_tunnel. }
  injection H as <- <- <-.
  destruct (port_bytes p0 p1) as [Hport Hbytes]. cbv zeta in Hport, Hbytes.
  repeat split; try assumption.
  exists methods, rsv, a, (Z.lor (Z.shiftl (u8 p0) 8) (u8 p1)), conn5.
  repeat split; try lia; try assumption.
  - rewrite encodeRequest_app, <- Hat, <- Hbytes, Hl2, byte_of_Z_u8.
    cbn [app]. rewrite <- ?app_assoc. reflexivity.
  - rewrite <- Hat. apply targetOf_text.
Qed.

End SOCKS5Facts.

Lemma socks5_connect_roundtrip_witness :
  let a := SOCKS5.Domain (list_byte_of_string "example.com") in
  len [x00; x02] < 256 /\ SOCKS5.wfAddress a = true /\ 0 <= 443 < 65536
  /\ SOCKS5.handleSOCKS5 SOCKS5.dottedQuad (fun _ _ _ => None) true
       "10.0.0.2:5000" x05
       (SOCKS5.encodeRequest [x00; x02] x01 x00 a 443 ++ [x16; x03])
     = [SOCKS5.write SOCKS5.greeting;
        HTTP.LogInfo "SOCKS5: 10.0.0.2:5000 -> example.com:443";
        HTTP.Tunnel "example.com:443" HTTP.modeSOCKS5 EmptyString].
Proof.
  intros a.
  assert (H1 : len [x00; x02] < 256) by reflexivity.
  assert (H2 : SOCKS5.wfAddress a = true) by reflexivity.
  assert (H3 : 0 <= 443 < 65536) by lia.
  repeat (split; [assumption|]).
  exact (socks5_connect_roundtrip SOCKS5.dottedQuad (fun _ _ _ => None)
           "10.0.0.2:5000" [x00; x02] x00 a 443 [x16; x03] H1 H2 H3).
Defined.

Lemma socks5_other_commands_refused_witness :
  let a := SOCKS5.IPv4 [x0a; x00; x00; x01] in
  len [x00] < 256 /\ SOCKS5.wfAddress a = true /\ 0 <= 53 < 65536
  /\ x03 <> x01
  /\ SOCKS5.handleSOCKS5 SOCKS5.dottedQuad (fun _ _ _ => None) true
       "10.0.0.2:5000" x05 (SOCKS5.encodeRequest [x00] x03 x00 a 53 ++ [])
     = [SOCKS5.write SOCKS5.greeting; SOCKS5.write (SOCKS5.reply x07)].
Proof.
  intros a.
  assert (H1 : len [x00] < 256) by reflexivity.
  assert (H2 : SOCKS5.wfAddress a = true) by reflexivity.
  assert (H3 : 0 <= 53 < 65536) by lia.
  assert (H4 : x03 <> x01) by discriminate.
  repeat (split; [assumption|]).
  exact (socks5_other_commands_refused SOCKS5.dottedQuad (fun _ _ _ => None)
           "10.0.0.2:5000" [x00] x03 x00 a 53 [] H1 H2 H3 H4).
Defined.

Lemma socks5_unknown_address_type_witness :
  len [x00] < 256 /\ x02 <> x01 /\ x02 <> x03 /\ x02 <> x04
  /\ SOCKS5.handleSOCKS5 SOCKS5.dottedQuad (fun _ _ _ => None) true
       "10.0.0.2:5000" x05
       (byte_of_Z (len [x00]) :: [x00] ++ [x05; x01; x00; x02] ++ [x7f])
     = [SOCKS5.write SOCKS5.greeting; SOCKS5.write (SOCKS5.reply x08)].
Proof.
  assert (H1 : len [x00] < 256) by reflexivity.
  assert (H2 : x02 <> x01) by discriminate.
  assert (H3 : x02 <> x03) by discriminate.
  assert (H4 : x02 <> x04) by discriminate.
  repeat (split; [assumption|]).
  exact (socks5_unknown_address_type SOCKS5.dottedQuad (fun _ _ _ => None)
           "10.0.0.2:5000" [x00] x01 x00 x02 [x7f] H1 H2 H3 H4).
Defined.

Lemma socks5_tunnel_only_for_connect_witness :
  let conn := [x01; x00; x05; x01; x00; x01; x0a; x00; x00; x01; x01; xbb] in
  In (HTTP.Tunnel "10.0.0.1:443" HTTP.modeSOCKS5 EmptyString)
    (SOCKS5.handleSOCKS5 SOCKS5.dottedQuad (fun _ _ _ => None) true
       "10.0.0.2:5000" x05 conn)
  /\ exists methods rsv a port rest,
       len methods < 256 /\ SOCKS5.wfAddress a = true /\ 0 <= port < 65536
       /\ conn = SOCKS5.encodeRequest methods x01 rsv a port ++ rest
       /\ "10.0.0.1:443"%string = SOCKS5.targetText SOCKS5.dottedQuad a port.
Proof.
  intros conn.
  assert (H : In (HTTP.Tunnel "10.0.0.1:443" HTTP.modeSOCKS5 EmptyString)
                (SOCKS5.handleSOCKS5 SOCKS5.dottedQuad (fun _ _ _ => None)
                   true "10.0.0.2:5000" x05 conn))
    by (right; right; left; reflexivity).
  split; [exact H|].
  exact (proj2 (proj2 (proj2 (proj2
           (socks5_tunnel_only_for_connect SOCKS5.dottedQuad
              (fun _ _ _ => None) true "10.0.0.2:5000" x05 conn
              "10.0.0.1:443" HTTP.modeSOCKS5 EmptyString H))))).
Defined.

(** ** Where the ECH configuration comes from *)

Lemma bind_inv {A B} (m : outcome A) (k : A -> outcome B) (b : B) :
  (m ≫= k) = Done b -> exists a, m = Done a /\ k a = Done b.
Proof. destruct m as [a| |]; [eauto|discriminate|discriminate]. Qed.

Lemma slice_part (s : list byte) (lo hi : Z) (v : list byte) :
  slice s lo hi = Done v -> exists pre post, s = pre ++ v ++ post.
Proof.
  unfold slice. destruct (_ && _); [|discriminate]. intros [= <-].
  exists (take (Z.to_nat lo) s),
    (drop (Z.to_nat (hi - lo)) (drop (Z.to_nat lo) s)).
  change firstn with (@take byte). change skipn with (@drop byte).
  now rewrite take_drop, take_drop.
Qed.

Lemma takenFrom_part (s : string) (data pre post : list byte) :
  Actions.takenFrom s data -> Actions.takenFrom s (pre ++ data ++ post).
Proof.
  intros (p & v & q & -> & Hv & ->).
  exists (pre ++ p), v, (q ++ post). repeat split; [|assumption].
  now rewrite <- !app_assoc.
Qed.

Lemma svcParams_part (fuel : nat) (data : list byte) (offset : Z) (s : string) :
  DNS.svcParams fuel data offset = Done s ->
  s = EmptyString \/ Actions.takenFrom s data.
Proof.
  revert offset. induction fuel as [|fuel IH]; intros offset H; [discriminate|].
  cbn [DNS.svcParams] in H.
  destruct (offset + 4 <=? len data); [|injection H as <-; now left].
  apply bind_inv in H as (k & _ & H). apply bind_inv in H as (key & _ & H).
  apply bind_inv in H as (l & _ & H). apply bind_inv in H as (n & _ & H).
  destruct (len data <? offset + 4 + n); [injection H as <-; now left|].
  apply bind_inv in H as (value & Hv & H).
  destruct (key =? 5); [|exact (IH _ H)].
  injection H as <-. destruct value as [|b value]; [now left|right].
  apply slice_part in Hv as (pre & post & ->).
  exists pre, (b :: value), post. repeat split. discriminate.
Qed.

Lemma parseHTTPSRecord_part (data : list byte) (s : string) :
  DNS.parseHTTPSRecord data = Done s ->
  s = EmptyString \/ Actions.takenFrom s data.
Proof.
  unfold DNS.parseHTTPSRecord.
  destruct (len data <? 2); [intros [= <-]; now left|].
  intros H. apply bind_inv in H as (root & _ & H).
  apply bind_inv in H as (offset & _ & H).
  exact (svcParams_part _ _ _ _ H).
Qed.

Lemma answers_part (left : nat) (response : list byte) (offset : Z)
  (s : string) (err : option DNS.dns_error) :
  DNS.answers left response offset = Done (s, err) ->
  err = None /\ (s = EmptyString \/ Actions.takenFrom s response).
Proof.
  revert offset. induction left as [|left IH]; intros offset H;
    cbn [DNS.answers] in H.
  { injection H as <- <-. split; [reflexivity|now left]. }
  destruct (len response <=? offset);
    [injection H as <- <-; split; [reflexivity|now left]|].
  apply bind_inv in H as (b & _ & H).
  apply bind_inv in H as (o & _ & H).
  destruct (len response <? o + 10);
    [injection H as <- <-; split; [reflexivity|now left]|].
  apply bind_inv in H as (t & _ & H). apply bind_inv in H as (rrType & _ & H).
  apply bind_inv in H as (d & _ & H). apply bind_inv in H as (dataLen & _ & H).
  destruct (len response <? o + 8 + 2 + dataLen);
    [injection H as <- <-; split; [reflexivity|now left]|].
  apply bind_inv in H as (data & Hdata & H).
  destruct (rrType =? DNS.typeHTTPS); [|exact (IH _ H)].
  apply bind_inv in H as (ech & Hech & H).
  destruct (DNS.nonEmpty ech) eqn:Hne; [|exact (IH _ H)].
  injection H as <- <-. split; [reflexivity|].
  apply parseHTTPSRecord_part in Hech as [->|Htaken]; [discriminate|].
  right. apply slice_part in Hdata as (pre & post & ->).
  now apply takenFrom_part.
Qed.

Lemma parseDNSResponse_returns (response : list byte) :
  exists r, DNS.parseDNSResponse response = Done r.
Proof.
  unfold DNS.parseDNSResponse.
  destruct (Z.ltb_spec (len response) 12) as [|Hlen]; [eauto|].
  destruct (slice_in_range response 6 8) as (h & Eh & Lh); [lia..|].
  destruct (Uint16_in_range h) as (ancount & Ea & _); [lia|].
  rewrite Eh, bind_Done, Ea, bind_Done.
  destruct (ancount =? 0); [eauto|].
  destruct (skipLabels_total (S (length response)) response 12)
    as (o & Eo & Ho); [lia|unfold len; lia|].
  rewrite Eo, bind_Done. apply answers_total. lia.
Qed.

Lemma parseDNSResponse_shape (response : list byte) :
  exists s err,
    DNS.parseDNSResponse response = Done (s, err)
    /\ (err <> None -> s = EmptyString)
    /\ (s <> EmptyString ->
        err = None
        /\ exists pre v post,
             response = pre ++ v ++ post /\ v <> []
             /\ s = Base64.EncodeToString v
             /\ Base64.DecodeString s = Some v).
Proof.
  destruct (parseDNSResponse_returns response) as [[s err] E].
  exists s, err. split; [exact E|].
  unfold DNS.parseDNSResponse in E.
  destruct (len response <? 12).
  { injection E as <- <-. split; [reflexivity|contradiction]. }
  apply bind_inv in E as (h & _ & E). apply bind_inv in E as (ancount & _ & E).
  destruct (ancount =? 0).
  { injection E as <- <-. split; [reflexivity|contradiction]. }
  apply bind_inv in E as (o & _ & E).
  apply answers_part in E as [-> [->|Htaken]].
  - split; [contradiction|contradiction].
  - split; [contradiction|]. intros _. split; [reflexivity|].
    destruct Htaken as (pre & v & post & Hr & Hv & Hs).
    exists pre, v, post. repeat split; try assumption.
    rewrite Hs. apply DecodeString_EncodeToString.
Qed.

(** X11. Whatever [parseDNSResponse] returns comes out of the response:
    on every input it returns; with a non-nil error the string is empty;
    and a non-empty string is the base64 text of a non-empty run of
    consecutive bytes of the response, which [DecodeString] gives back. *)
Theorem parsed_ech_is_part_of_response (response : list byte) :
  exists s err,
    DNS.parseDNSResponse response = Done (s, err)
    /\ (err <> None -> s = EmptyString)
    /\ (s <> EmptyString ->
        err = None
        /\ exists pre v post,
             response = pre ++ v ++ post /\ v <> []
             /\ s = Base64.EncodeToString v
             /\ Base64.DecodeString s = Some v).
Proof. exact (parseDNSResponse_shape response). Qed.

(** ** The ECH store and the life cycle of the client *)

Section ClientFacts.
Import Client.

Lemma isEmptyString_spec (s : string) :
  isEmptyString s = true <-> s = EmptyString.
Proof. unfold isEmptyString. apply String.eqb_eq. Qed.

Lemma isEmptyString_false (s : string) :
  isEmptyString s = false <-> s <> EmptyString.
Proof. unfold isEmptyString. apply String.eqb_neq. Qed.

Lemma len_zero (l : list byte) : (len l =? 0) = true <-> l = [].
Proof.
  rewrite Z.eqb_eq. unfold len.
  destruct l; cbn [length]; split; intros H; try reflexivity; try discriminate;
    lia.
Qed.

Lemma getECHList_loaded (c : ProxyClient) :
  echList c <> [] -> getECHList c = inl (echList c).
Proof.
  intros H. unfold getECHList.
  destruct (len (echList c) =? 0) eqn:E; [|reflexivity].
  apply len_zero in E. contradiction.
Qed.

(** What [prepareECH] does, by cases: it stores a non-empty run of bytes
    of the resolver's reply, or it fails and leaves the store alone; the
    decoding step never fails. *)
Lemma prepareECH_cases (reply : option (list byte)) (c : ProxyClient) :
  exists c' err,
    prepareECH reply c = Done (c', err)
    /\ running c' = running c /\ listener c' = listener c
    /\ serverAddr c' = serverAddr c /\ serverIP c' = serverIP c
    /\ match err with
       | None =>
           echList c' <> []
           /\ journal c'
              = journal c ++ [Query (echDomain c) (dnsServer c);
                              InfoECHLoaded (len (echList c'))]
           /\ exists response pre post,
                reply = Some response
                /\ response = pre ++ echList c' ++ post
       | Some e =>
           echList c' = echList c /\ e <> ErrECHDecode
           /\ journal c' = journal c ++ [Query (echDomain c) (dnsServer c)]
       end.
Proof.
  unfold prepareECH, queryHTTPSRecord.
  destruct reply as [response|].
  2: { rewrite bind_Done. cbn [snd]. eexists _, _. split; [reflexivity|].
       cbn. repeat split. discriminate. }
  destruct (parseDNSResponse_shape response) as (s & err & E & Herr & Hs).
  rewrite E, !bind_Done. cbn [fst snd].
  destruct err as [e|]; cbn [option_map].
  { eexists _, _. split; [reflexivity|]. cbn. repeat split. discriminate. }
  destruct (isEmptyString s) eqn:Es.
  { eexists _, _. split; [reflexivity|]. cbn. repeat split. discriminate. }
  apply isEmptyString_false in Es.
  destruct (Hs Es) as (_ & pre & v & post & Hr & Hv & _ & Hdec).
  rewrite Hdec. eexists _, _. split; [reflexivity|].
  cbn. repeat split; try assumption.
  - now rewrite <- app_assoc.
  - exists response, pre, post. split; [reflexivity|exact Hr].
Qed.

(** X12. The ECH store holds only what the resolver sent: [prepareECH]
    returns on every reply; on success the store is a non-empty run of
    consecutive bytes of the reply and [getECHList] returns it; on failure
    the store is as before.  The error of the base64 decoding step is
    never returned, and the running flag and the listener are left
    alone. *)
Theorem prepareECH_loads_or_keeps (reply : option (list byte))
  (c : ProxyClient) :
  exists c' err,
    prepareECH reply c = Done (c', err)
    /\ running c' = running c /\ listener c' = listener c
    /\ match err with
       | None =>
           echList c' <> [] /\ getECHList c' = inl (echList c')
           /\ exists response pre post,
                reply = Some response
                /\ response = pre ++ echList c' ++ post
       | Some e => echList c' = echList c /\ e <> ErrECHDecode
       end.
Proof.
  destruct (prepareECH_cases reply c)
    as (c' & err & E & Hr & Hl & _ & _ & Hcase).
  exists c', err. repeat (split; [assumption|]).
  destruct err as [e|].
  - destruct Hcase as (He & Hd & _). split; assumption.
  - destruct Hcase as (He & _ & Hpart).
    repeat split; [assumption|now apply getECHList_loaded|assumption].
Qed.

(** What [Start] does, by cases. *)
Lemma Start_cases (env : start_env) (listenAddr : string) (c : ProxyClient) :
  exists c' err,
    Start env listenAddr c = Done (c', err)
    /\ serverAddr c' = serverAddr c
    /\ match err with
       | None =>
           running c = false /\ running c' = true
           /\ listener c' = listenReply env /\ listener c' <> None
           /\ echList c' <> []
       | Some e =>
           running c' = running c /\ listener c' = listener c
           /\ (e = ErrAlreadyRunning -> c' = c)
           /\ (running c = true -> e = ErrAlreadyRunning)
           /\ (echList c' = echList c \/ echList c' <> [])
       end.
Proof.
  unfold Start. destruct (running c) eqn:Hrun.
  { exists c, (Some ErrAlreadyRunning). repeat split; auto. }
  destruct (prepareECH_cases (echReply env) (record InfoFetchingECH c))
    as (c1 & err & E & Hr & Hl & Hsa & Hip & Hcase).
  rewrite E, bind_Done. cbn [fst snd].
  cbn [record running listener serverAddr serverIP echList] in Hr, Hl, Hsa, Hip, Hcase.
  destruct err as [e|].
  { exists c1, (Some (ErrPrepareECH e)). split; [reflexivity|].
    destruct Hcase as (He & _). 
    repeat split; try congruence. left. exact He. }
  destruct Hcase as (He & _).
  destruct (listenReply env) as [l|].
  - eexists _, None. split; [reflexivity|].
    destruct (isEmptyString _); cbn; repeat split; try congruence.
  - eexists _, (Some ErrListenFailed). split; [reflexivity|].
    cbn. repeat split; try congruence. right. exact He.
Qed.

(** X13. [Start] is all or nothing: it returns on every input; with a nil
    error the client was stopped before and now runs, holding the listener
    that [net.Listen] returned and a loaded ECH store; with an error it
    runs no more and no less than before and holds the same listener (on
    a client that is running nothing at all changes). *)
Theorem Start_all_or_nothing (env : start_env) (listenAddr : string)
  (c : ProxyClient) :
  exists c' err,
    Start env listenAddr c = Done (c', err)
    /\ match err with
       | None =>
           running c = false /\ running c' = true
           /\ listener c' = listenReply env /\ listener c' <> None
           /\ echList c' <> []
       | Some e =>
           running c' = running c /\ listener c' = listener c
           /\ (running c = true -> e = ErrAlreadyRunning /\ c' = c)
       end.
Proof.
  destruct (Start_cases env listenAddr c) as (c' & err & E & _ & Hcase).
  exists c', err. split; [exact E|].
  destruct err as [e|]; [|exact Hcase].
  destruct Hcase as (Hr & Hl & Hsame & Hrun & _).
  repeat split; auto.
Qed.

Lemma Stop_cases (c : ProxyClient) :
  let r := Stop c in
  running (fst r) = false
  /\ echList (fst r) = echList c /\ serverAddr (fst r) = serverAddr c
  /\ (running c = false -> r = (c, Some ErrNotRunning))
  /\ (running c = true ->
      snd r = None /\ listener (fst r) = None
      /\ journal (fst r)
         = journal c
             ++ match listener c with
                | Some l => [CloseListener l]
                | None => []
                end ++ [InfoStopped]).
Proof.
  unfold Stop. destruct (running c) eqn:Hrun; cbn [negb].
  - destruct (listener c) as [l|]; cbn; repeat split; try discriminate.
    now rewrite <- app_assoc.
  - cbn. repeat split; try discriminate. exact Hrun.
Qed.

(** X14. Stopping undoes starting: after a [Start] that succeeded, [Stop]
    succeeds, closes exactly the listener that [Start] opened, leaves the
    client stopped without a listener and with its ECH store as loaded;
    a second [Stop] fails and changes nothing. *)
Theorem Stop_undoes_Start (env : start_env) (listenAddr : string)
  (c c1 : ProxyClient) :
  Start env listenAddr c = Done (c1, None) ->
  exists l,
    listenReply env = Some l
    /\ snd (Stop c1) = None
    /\ running (fst (Stop c1)) = false
    /\ listener (fst (Stop c1)) = None
    /\ echList (fst (Stop c1)) = echList c1
    /\ journal (fst (Stop c1)) = journal c1 ++ [CloseListener l; InfoStopped]
    /\ Stop (fst (Stop c1)) = (fst (Stop c1), Some ErrNotRunning).
Proof.
  intros E.
  destruct (Start_cases env listenAddr c) as (c' & err & E' & _ & Hcase).
  rewrite E in E'. injection E' as <- <-.
  destruct Hcase as (_ & Hrun & Hl & Hsome & _).
  destruct (listener c1) as [l|] eqn:El; [|contradiction].
  exists l. split; [congruence|].
  destruct (Stop_cases c1) as (Hoff & He & _ & _ & Hon).
  destruct (Hon Hrun) as (Hs & Hnone & Hj).
  rewrite El in Hj. repeat split; try assumption.
  destruct (Stop_cases (fst (Stop c1))) as (_ & _ & _ & Hidle & _).
  exact (Hidle Hoff).
Qed.

Lemma refreshECH_cases (reply : option (list byte)) (c : ProxyClient) :
  exists c' err,
    refreshECH reply c = Done (c', err)
    /\ running c' = running c /\ listener c' = listener c
    /\ serverAddr c' = serverAddr c
    /\ (echList c' = echList c \/ echList c' <> []).
Proof.
  unfold refreshECH.
  destruct (prepareECH_cases reply (record InfoRefreshECH c))
    as (c' & err & E & Hr & Hl & Hsa & _ & Hcase).
  exists c', err. split; [exact E|]. cbn in Hr, Hl, Hsa, Hcase.
  repeat (split; [assumption|]).
  destruct err as [e|]; [left|right]; apply Hcase.
Qed.

Lemma step_consistent (k : call) (c : ProxyClient) :
  Actions.consistent c ->
  exists c', step k c = Done c' /\ Actions.consistent c'
             /\ serverAddr c' = serverAddr c.
Proof.
  intros [Hrl Hre]. destruct k as [env listenAddr| |reply]; cbn [step].
  - destruct (Start_cases env listenAddr c) as (c' & err & E & Hsa & Hcase).
    rewrite E, bind_Done. exists c'. cbn [fst].
    split; [reflexivity|]. split; [|exact Hsa].
    destruct err as [e|].
    + destruct Hcase as (Hr & Hl & _ & _ & He). unfold Actions.consistent.
      rewrite Hr, Hl. split; [exact Hrl|].
      intros Hrun. destruct He as [He|He]; [rewrite He; auto|exact He].
    + destruct Hcase as (_ & Hr & _ & Hl & He). unfold Actions.consistent.
      rewrite Hr. split; [split; auto|auto].
  - exists (fst (Stop c)). split; [reflexivity|].
    destruct (Stop_cases c) as (Hoff & He & Hsa & Hidle & Hon).
    split; [|exact Hsa].
    unfold Actions.consistent. rewrite Hoff.
    split; [|discriminate]. split; [discriminate|].
    intros Hl. exfalso. apply Hl.
    destruct (running c) eqn:Hrun.
    + apply Hon. reflexivity.
    + rewrite (Hidle eq_refl). cbn [fst].
      destruct (listener c) as [l|] eqn:El; [|reflexivity].
      assert (Hx : false = true) by (apply Hrl; discriminate).
      discriminate.
  - destruct (refreshECH_cases reply c) as (c' & err & E & Hr & Hl & Hsa & He).
    rewrite E, bind_Done. exists c'. cbn [fst].
    split; [reflexivity|]. split; [|exact Hsa].
    unfold Actions.consistent. rewrite Hr, Hl. split; [exact Hrl|].
    intros Hrun. destruct He as [He|He]; [rewrite He; auto|exact He].
Qed.

(** X15. The life cycle keeps the client consistent: from a client made
    by [NewProxyClient], every sequence of [Start], [Stop] and ECH
    refreshes, whatever the resolver and [net.Listen] answer, returns, and
    leaves a client that runs exactly when it holds a listener, has a
    loaded ECH store whenever it runs, still has the server address it
    was made with, and whose status text is "running" exactly when it
    holds a listener. *)
Theorem lifecycle_consistent (config : Config) (c0 : ProxyClient)
  (ks : list call) :
  NewProxyClient config = inl c0 ->
  exists c,
    run ks c0 = Done c
    /\ (running c = true <-> listener c <> None)
    /\ (running c = true -> echList c <> [])
    /\ serverAddr c = ServerAddr config
    /\ (Android.GetStatus (statusView c) = "运行中"%string
        <-> listener c <> None).
Proof.
  intros Hnew.
  assert (H0 : Actions.consistent c0 /\ serverAddr c0 = ServerAddr config).
  { unfold NewProxyClient in Hnew.
    destruct (isEmptyString (ServerAddr config)); [discriminate|].
    injection Hnew as <-. cbn. split; [|reflexivity].
    split; [split; [discriminate|]|discriminate].
    intros H. exfalso. apply H. reflexivity. }
  destruct H0 as [Hc Hsa]. rewrite <- Hsa. clear Hnew Hsa.
  assert (Hrun : exists c, run ks c0 = Done c /\ Actions.consistent c
                           /\ serverAddr c = serverAddr c0).
  { revert c0 Hc. induction ks as [|k ks IH]; intros c0 Hc.
    - exists c0. split; [reflexivity|]. split; [exact Hc|reflexivity].
    - cbn [run].
      destruct (step_consistent k c0 Hc) as (c1 & E & Hc1 & Hsa1).
      rewrite E, bind_Done.
      destruct (IH c1 Hc1) as (c & Er & Hcc & Hsac).
      exists c. split; [exact Er|]. split; [exact Hcc|congruence]. }
  destruct Hrun as (c & E & [Hrl Hre] & Hsa).
  exists c. repeat (split; [assumption|]).
  rewrite <- Hrl. unfold Android.GetStatus, Android.IsRunning,
    Android.ProxyClient_IsRunning, statusView. cbn.
  destruct (running c); split; intros H; try reflexivity; discriminate.
Qed.

End ClientFacts.

Lemma Stop_undoes_Start_witness :
  let e := [xfe; x0d; x00; x41] in
  let response :=
    Wire.header 1 33152 1 1 0 0
      ++ drop 12 (DNS.buildDNSQuery "cloudflare-ech.com" DNS.typeHTTPS)
      ++ Wire.record (Wire.OwnerPointer xc0 x0c) DNS.typeHTTPS 1 300
           (Wire.httpsRData 1 (Wire.encodeName []) [] e []) in
  let env := {| Client.echReply := Some response;
                Client.listenReply := Some 3%nat |} in
  let c := {| Client.serverAddr := "gw.example.com:443/ws";
              Client.serverIP := EmptyString; Client.token := "t";
              Client.dnsServer := "dns.alidns.com/dns-query";
              Client.echDomain := "cloudflare-ech.com";
              Client.echList := []; Client.listener := None;
              Client.running := false; Client.logCallback := None;
              Client.journal := [] |} in
  exists c1,
    Client.Start env "127.0.0.1:1080" c = Done (c1, None)
    /\ Client.echList c1 = e
    /\ exists l,
         Client.listenReply env = Some l
         /\ snd (Client.Stop c1) = None
         /\ Client.running (fst (Client.Stop c1)) = false
         /\ Client.listener (fst (Client.Stop c1)) = None
         /\ Client.echList (fst (Client.Stop c1)) = Client.echList c1
         /\ Client.journal (fst (Client.Stop c1))
            = Client.journal c1
                ++ [Client.CloseListener l; Client.InfoStopped]
         /\ Client.Stop (fst (Client.Stop c1))
            = (fst (Client.Stop c1), Some Client.ErrNotRunning).
Proof.
  intros e response env c. eexists.
  split; [vm_compute; reflexivity|]. split; [reflexivity|].
  apply (Stop_undoes_Start env "127.0.0.1:1080" c).
  vm_compute. reflexivity.
Defined.

Lemma lifecycle_consistent_witness :
  let e := [xfe; x0d; x00; x41] in
  let response :=
    Wire.header 1 33152 1 1 0 0
      ++ drop 12 (DNS.buildDNSQuery "cloudflare-ech.com" DNS.typeHTTPS)
      ++ Wire.record (Wire.OwnerPointer xc0 x0c) DNS.typeHTTPS 1 300
           (Wire.httpsRData 1 (Wire.encodeName []) [] e []) in
  let up := {| Client.echReply := Some response;
               Client.listenReply := Some 3%nat |} in
  let busy := {| Client.echReply := Some response;
                 Client.listenReply := None |} in
  let config := {| Client.ServerAddr := "gw.example.com:443/ws";
                   Client.ServerIP := EmptyString; Client.Token := "t";
                   Client.DNSServer := EmptyString;
                   Client.ECHDomain := EmptyString |} in
  let ks := [Client.CallStart busy ":1080"; Client.CallStop;
             Client.CallStart up ":1080"; Client.CallRefresh None;
             Client.CallStart up ":1081"] in
  exists c0,
    Client.NewProxyClient config = inl c0
    /\ exists c,
         Client.run ks c0 = Done c
         /\ (Client.running c = true <-> Client.listener c <> None)
         /\ (Client.running c = true -> Client.echList c <> [])
         /\ Client.serverAddr c = Client.ServerAddr config
         /\ (Android.GetStatus (Client.statusView c) = "运行中"%string
             <-> Client.listener c <> None).
Proof.
  intros e response up busy config ks. eexists.
  split; [reflexivity|].
  apply (lifecycle_consistent config _ ks). reflexivity.
Defined.

(** ** The Android binding *)

(** X16. What the binding's constructors make: the defaults that
    [NewAndroidProxyClient] fills in itself change nothing, so it (and
    [CreateClientFull]) fails exactly when [NewProxyClient] fails on the
    arguments as given, and otherwise wraps the client that
    [NewProxyClient] makes from them, with the client's log callback set
    to the forwarding closure and the wrapper's own callback nil;
    [CreateClient] and [CreateClientWithIP] do the same with the resolver
    "dns.alidns.com/dns-query" and the ECH domain "cloudflare-ech.com".
    A client made this way never logs to the standard logger: its lines
    are dropped until [SetLogCallback] gives a callback, and go to that
    callback from then on. *)
Theorem binding_constructors_agree
  (serverAddr serverIP token dnsServer echDomain : string) :
  let wrap (made : Client.ProxyClient + Client.client_error) :=
    match made with
    | inl c =>
        inl {| Binding.client :=
                 Client.SetLogCallback (Some Client.ForwardToBinding) c;
               Binding.logCallback := None |}
    | inr e => inr e
    end in
  Binding.NewAndroidProxyClient serverAddr serverIP token dnsServer echDomain
  = wrap (Client.NewProxyClient
            {| Client.ServerAddr := serverAddr; Client.ServerIP := serverIP;
               Client.Token := token; Client.DNSServer := dnsServer;
               Client.ECHDomain := echDomain |})
  /\ Binding.CreateClientFull serverAddr serverIP token dnsServer echDomain
     = wrap (Client.NewProxyClient
               {| Client.ServerAddr := serverAddr;
                  Client.ServerIP := serverIP;
                  Client.Token := token; Client.DNSServer := dnsServer;
                  Client.ECHDomain := echDomain |})
  /\ Binding.CreateClient serverAddr token
     = wrap (Client.NewProxyClient
               {| Client.ServerAddr := serverAddr;
                  Client.ServerIP := EmptyString;
                  Client.Token := token;
                  Client.DNSServer := "dns.alidns.com/dns-query";
                  Client.ECHDomain := "cloudflare-ech.com" |})
  /\ Binding.CreateClientWithIP serverAddr serverIP token
     = wrap (Client.NewProxyClient
               {| Client.ServerAddr := serverAddr;
                  Client.ServerIP := serverIP;
                  Client.Token := token;
                  Client.DNSServer := "dns.alidns.com/dns-query";
                  Client.ECHDomain := "cloudflare-ech.com" |})
  /\ (forall a,
        Binding.NewAndroidProxyClient serverAddr serverIP token dnsServer
          echDomain = inl a ->
        Binding.deliver a = Binding.Dropped
        /\ (forall callback,
              Binding.deliver (Binding.SetLogCallback (Some callback) a)
              = Binding.OnLog callback)
        /\ Binding.deliver (Binding.SetLogCallback None a) = Binding.Dropped).
Proof.
  intros wrap.
  assert (Hnew : Binding.NewAndroidProxyClient serverAddr serverIP token
                    dnsServer echDomain
                  = wrap (Client.NewProxyClient
                            {| Client.ServerAddr := serverAddr;
                               Client.ServerIP := serverIP;
                               Client.Token := token;
                               Client.DNSServer := dnsServer;
                               Client.ECHDomain := echDomain |})).
  { unfold wrap, Binding.NewAndroidProxyClient, Client.NewProxyClient.
    cbn [Client.ServerAddr Client.ServerIP Client.Token Client.DNSServer
         Client.ECHDomain].
    destruct (Client.isEmptyString serverAddr); [reflexivity|].
    destruct (Client.isEmptyString dnsServer) eqn:Ed;
      destruct (Client.isEmptyString echDomain) eqn:Ee;
      cbn; rewrite ?Ed, ?Ee; reflexivity. }
  split; [exact Hnew|]. split; [exact Hnew|].
  split; [|split].
  - unfold wrap, Binding.CreateClient, Binding.NewAndroidProxyClient,
      Client.NewProxyClient.
    cbn [Client.ServerAddr Client.ServerIP Client.Token Client.DNSServer
         Client.ECHDomain].
    destruct (Client.isEmptyString serverAddr); reflexivity.
  - unfold wrap, Binding.CreateClientWithIP, Binding.NewAndroidProxyClient,
      Client.NewProxyClient.
    cbn [Client.ServerAddr Client.ServerIP Client.Token Client.DNSServer
         Client.ECHDomain].
    destruct (Client.isEmptyString serverAddr); reflexivity.
  - intros a Ha. rewrite Hnew in Ha. unfold wrap in Ha.
    destruct (Client.NewProxyClient _) as [c|e]; [|discriminate].
    injection Ha as <-. repeat split.
Qed.

(** X17. What a constructor hands out: the only error is the one for an
    empty server address; a client that is made has a server address, a
    resolver and an ECH domain that are not empty, the server IP and token
    as given, is stopped, holds no listener and has no ECH configuration
    yet ([getECHList] fails). *)
Theorem constructed_client (config : Client.Config) :
  match Client.NewProxyClient config with
  | inr e => e = Client.ErrNoServerAddr
             /\ Client.ServerAddr config = EmptyString
  | inl c =>
      Client.serverAddr c = Client.ServerAddr config
      /\ Client.serverAddr c <> EmptyString
      /\ Client.dnsServer c <> EmptyString
      /\ Client.echDomain c <> EmptyString
      /\ (Client.DNSServer config <> EmptyString ->
          Client.dnsServer c = Client.DNSServer config)
      /\ (Client.ECHDomain config <> EmptyString ->
          Client.echDomain c = Client.ECHDomain config)
      /\ Client.serverIP c = Client.ServerIP config
      /\ Client.token c = Client.Token config
      /\ Client.IsRunning c = false /\ Client.listener c = None
      /\ Client.getECHList c = inr Client.ErrECHNotLoaded
      /\ Android.GetStatus (Client.statusView c) = "已停止"%string
  end.
Proof.
  unfold Client.NewProxyClient.
  destruct (Client.isEmptyString (Client.ServerAddr config)) eqn:Es.
  { split; [reflexivity|]. now apply isEmptyString_spec. }
  apply isEmptyString_false in Es.
  cbn. repeat split; try assumption.
  - destruct (Client.isEmptyString (Client.DNSServer config)) eqn:E;
      [discriminate|now apply isEmptyString_false].
  - destruct (Client.isEmptyString (Client.ECHDomain config)) eqn:E;
      [discriminate|now apply isEmptyString_false].
  - intros H. apply isEmptyString_false in H. now rewrite H.
  - intros H. apply isEmptyString_false in H. now rewrite H.
Qed.

(** ** The dialer's budget *)

Section BudgetFacts.
Import Dial.
Variable env : environment.

Lemma sleepCount_snoc (t : list event) (ev : event) :
  Actions.sleepCount (t ++ [ev])
  = (Actions.sleepCount t + if Actions.isSleep ev then 1 else 0)%nat.
Proof.
  unfold Actions.sleepCount. rewrite List.filter_app, length_app. cbn.
  destruct (Actions.isSleep ev); reflexivity.
Qed.

Lemma refreshCount_snoc (t : list event) (ev : event) :
  Actions.refreshCount (t ++ [ev])
  = (Actions.refreshCount t + if Actions.isRefresh ev then 1 else 0)%nat.
Proof.
  unfold Actions.refreshCount. rewrite List.filter_app, length_app. cbn.
  destruct (Actions.isRefresh ev); reflexivity.
Qed.

Lemma counts_refresh (st : state) :
  Actions.sleepCount (trace (refreshECH env st)) = Actions.sleepCount (trace st)
  /\ Actions.refreshCount (trace (refreshECH env st))
     = S (Actions.refreshCount (trace st)).
Proof.
  unfold refreshECH. cbn [trace emit].
  rewrite sleepCount_snoc, refreshCount_snoc. cbn. lia.
Qed.

(** With [left] iterations to go, of which the last cannot retry. *)
Lemma attempts_budget (left : nat) (maxRetries attempt : Z) (st : state) :
  maxRetries - attempt + 1 <= Z.of_nat left ->
  let st' := snd (attempts env left maxRetries attempt st) in
  (Actions.sleepCount (trace st')
   <= Actions.sleepCount (trace st) + (left - 1))%nat
  /\ (Actions.refreshCount (trace st')
      <= Actions.refreshCount (trace st) + (left - 1))%nat.
Proof.
  revert attempt st. induction left as [|left IH]; intros attempt st Hleft.
  - cbn. lia.
  - cbn [attempts].
    destruct (counts_refresh st) as [Hs Hr].
    destruct (isEmpty (echList st)).
    { destruct (Z.ltb_spec attempt maxRetries); [|cbn; lia].
      destruct left as [|left]; [lia|].
      specialize (IH (attempt + 1) (refreshECH env st) ltac:(lia)).
      cbv zeta in IH. rewrite Hs, Hr in IH. cbv zeta. lia. }
    destruct (rootsOK env); cbn [negb]; [|cbn; lia].
    unfold dial. destruct (dialReply env (dials st)) as [c|msg] eqn:Ed.
    + cbn [snd trace]. rewrite sleepCount_snoc, refreshCount_snoc. cbn. lia.
    + destruct (Strings.Contains msg "ECH" && (attempt <? maxRetries)) eqn:Ec.
      * apply andb_true_iff in Ec as [_ Hlt]. apply Z.ltb_lt in Hlt.
        destruct left as [|left]; [lia|].
        match goal with
        | |- context [attempts env (S left) maxRetries (attempt + 1) ?s] =>
            specialize (IH (attempt + 1) s ltac:(lia))
        end.
        cbv zeta in IH. cbv zeta.
        cbn [emit trace] in IH. rewrite sleepCount_snoc, refreshCount_snoc in IH.
        match type of IH with
        | context [refreshECH env ?s] =>
            destruct (counts_refresh s) as [Hs' Hr']
        end.
        rewrite Hs', Hr' in IH. cbn [emit trace] in IH.
        rewrite !sleepCount_snoc, !refreshCount_snoc in IH.
        cbn [Actions.isSleep Actions.isRefresh] in IH. lia.
      * cbn [snd trace]. rewrite sleepCount_snoc, refreshCount_snoc. cbn. lia.
Qed.

Lemma dial_budget (maxRetries : Z) (st : state) :
  let st' := snd (dialWebSocketWithECH env maxRetries st) in
  (Actions.sleepCount (trace st')
   <= Actions.sleepCount (trace st) + Z.to_nat (maxRetries - 1))%nat
  /\ (Actions.refreshCount (trace st')
      <= Actions.refreshCount (trace st) + Z.to_nat (maxRetries - 1))%nat
  /\ (dialCount (trace st')
      <= dialCount (trace st) + Z.to_nat maxRetries)%nat.
Proof.
  unfold dialWebSocketWithECH.
  destruct (serverAddrOK env); cbn [negb]; [|cbn; lia].
  pose proof (attempts_budget (Z.to_nat maxRetries) maxRetries 1 st
                ltac:(lia)) as H.
  pose proof (attempts_dial_bound env (Z.to_nat maxRetries) maxRetries 1 st).
  cbv zeta in *. lia.
Qed.

(** X18. The dialer's budget: one call of [dialWebSocketWithECH] sleeps
    at most [maxRetries - 1] times (one second each) and refreshes the ECH
    configuration at most [maxRetries - 1] times; with [maxRetries <= 1]
    it neither sleeps nor refreshes. *)
Theorem dialer_budget (maxRetries : Z) (st : state) :
  let st' := snd (dialWebSocketWithECH env maxRetries st) in
  (Actions.sleepCount (trace st')
   <= Actions.sleepCount (trace st) + Z.to_nat (maxRetries - 1))%nat
  /\ (Actions.refreshCount (trace st')
      <= Actions.refreshCount (trace st) + Z.to_nat (maxRetries - 1))%nat.
Proof.
  pose proof (dial_budget maxRetries st) as H. cbv zeta in *.
  split; apply H.
Qed.

Lemma attempts_without_ech (left : nat) (maxRetries attempt : Z) (st : state) :
  echList st = [] ->
  (forall k, dnsReply env k = None \/ dnsReply env k = Some []) ->
  exists e,
    fst (attempts env left maxRetries attempt st) = Failed e
    /\ dialCount (trace (snd (attempts env left maxRetries attempt st)))
       = dialCount (trace st)
    /\ echList (snd (attempts env left maxRetries attempt st)) = [].
Proof.
  intros Hempty Hdns. revert attempt st Hempty.
  induction left as [|left IH]; intros attempt st Hempty.
  - exists ErrMaxRetries. cbn. auto.
  - cbn [attempts]. rewrite Hempty. cbn [isEmpty].
    destruct (attempt <? maxRetries);
      [|exists ErrECHNotLoaded; cbn; auto].
    assert (Hstill : echList (refreshECH env st) = []).
    { unfold refreshECH. cbn [echList].
      destruct (Hdns (refreshes st)) as [-> | ->]; [exact Hempty|reflexivity]. }
    destruct (IH (attempt + 1) (refreshECH env st) Hstill) as (e & H1 & H2 & H3).
    exists e. rewrite H1, H2, H3, dialCount_refresh. auto.
Qed.

(** X19. No ECH, no connection: when the ECH store is empty and no refresh
    brings a configuration, [dialWebSocketWithECH] fails without a single
    dial, however many retries it is given. *)
Theorem no_dial_without_ech (maxRetries : Z) (st : state) :
  echList st = [] ->
  (forall k, dnsReply env k = None \/ dnsReply env k = Some []) ->
  exists e,
    fst (dialWebSocketWithECH env maxRetries st) = Failed e
    /\ dialCount (trace (snd (dialWebSocketWithECH env maxRetries st)))
       = dialCount (trace st).
Proof.
  intros Hempty Hdns. unfold dialWebSocketWithECH.
  destruct (serverAddrOK env); cbn [negb];
    [|exists ErrServerAddr; cbn; auto].
  destruct (attempts_without_ech (Z.to_nat maxRetries) maxRetries 1 st
              Hempty Hdns) as (e & H1 & H2 & _).
  exists e. auto.
Qed.

End BudgetFacts.

Lemma no_dial_without_ech_witness :
  let env := {| Dial.serverAddrOK := true; Dial.rootsOK := true;
                Dial.dnsReply := fun _ => None;
                Dial.dialReply := fun _ => Dial.DialOk 1%nat |} in
  let st := {| Dial.echList := []; Dial.refreshes := 0%nat;
               Dial.dials := 0%nat; Dial.trace := [] |} in
  Dial.echList st = []
  /\ (forall k, Dial.dnsReply env k = None \/ Dial.dnsReply env k = Some [])
  /\ exists e,
       fst (Dial.dialWebSocketWithECH env 5 st) = Dial.Failed e
       /\ Dial.dialCount (Dial.trace (snd (Dial.dialWebSocketWithECH env 5 st)))
          = Dial.dialCount (Dial.trace st).
Proof.
  intros env st.
  assert (H1 : Dial.echList st = []) by reflexivity.
  assert (H2 : forall k, Dial.dnsReply env k = None
                         \/ Dial.dnsReply env k = Some [])
    by (intros k; left; reflexivity).
  split; [exact H1|]. split; [exact H2|].
  exact (no_dial_without_ech env 5 st H1 H2).
Defined.

(** ** The tunnel handshake *)

Section TunnelFacts.
Import Tunnel.

Variable env : environment.

Lemma handleTunnel_failed_dial (st : Dial.state) (target clientAddr : string)
  (mode : Z) (firstFrame : string) (e : Dial.dial_error) :
  fst (Dial.dialWebSocketWithECH (dialEnv env) 2 st) = Dial.Failed e ->
  handleTunnel env st target clientAddr mode firstFrame
  = (Some (ErrDialFailed e), sendErrorResponse mode,
     snd (Dial.dialWebSocketWithECH (dialEnv env) 2 st)).
Proof.
  unfold handleTunnel.
  destruct (Dial.dialWebSocketWithECH (dialEnv env) 2 st) as [res st'].
  cbn [fst snd]. now intros ->.
Qed.

Lemma handleTunnel_connected (st : Dial.state) (target clientAddr : string)
  (mode : Z) (firstFrame : string) (wsConn : nat) :
  fst (Dial.dialWebSocketWithECH (dialEnv env) 2 st) = Dial.Connected wsConn ->
  handleTunnel env st target clientAddr mode firstFrame
  = (fst (handshake env target clientAddr mode firstFrame),
     [StartKeepalive] ++ snd (handshake env target clientAddr mode firstFrame)
       ++ [StopKeepalive; WSClose wsConn],
     snd (Dial.dialWebSocketWithECH (dialEnv env) 2 st)).
Proof.
  unfold handleTunnel.
  destruct (Dial.dialWebSocketWithECH (dialEnv env) 2 st) as [res st'].
  cbn [fst snd]. intros ->.
  now destruct (handshake env target clientAddr mode firstFrame).
Qed.

Ltac modes mode :=
  unfold sendErrorResponse, sendSuccessResponse;
  destruct (mode =? HTTP.modeSOCKS5) eqn:?;
  destruct (mode =? HTTP.modeHTTPConnect) eqn:?;
  destruct (mode =? HTTP.modeHTTPProxy) eqn:?.

(** The handshake proper, by cases. *)
Lemma handshake_cases (target clientAddr : string) (mode : Z)
  (firstFrame : string) :
  let r := handshake env target clientAddr mode firstFrame in
  (existsb isRelay (snd r) = true <-> fst r = None)
  /\ (fst r = None ->
      wsWriteOK env = true /\ wsReply env = Some "CONNECTED"%string)
  /\ List.filter isClientWrite (snd r)
     = match fst r with
       | None => fst (sendSuccessResponse true mode)
       | Some ErrClientWrite => fst (sendSuccessResponse true mode)
       | Some _ => sendErrorResponse mode
       end
  /\ (existsb isPeek (snd r) = true
      <-> firstFrame = EmptyString /\ mode = HTTP.modeSOCKS5).
Proof.
  assert (Hpeek : negb (HTTP.nonEmpty firstFrame) && (mode =? HTTP.modeSOCKS5)
                  = true
                  <-> firstFrame = EmptyString /\ mode = HTTP.modeSOCKS5).
  { rewrite andb_true_iff, Z.eqb_eq.
    destruct firstFrame; cbn; intuition (try discriminate; auto). }
  cbv zeta. unfold handshake.
  destruct (negb (HTTP.nonEmpty firstFrame) && (mode =? HTTP.modeSOCKS5));
    (destruct (wsWriteOK env);
     [destruct (wsReply env) as [response|];
      [destruct (Strings.HasPrefix response "ERROR:");
       [|destruct (String.eqb response "CONNECTED") eqn:Eresp;
         [apply String.eqb_eq in Eresp; subst response|]]|]|]);
    modes mode; try destruct (clientWriteOK env);
    cbn [negb fst snd app existsb List.filter isRelay isClientWrite isPeek orb];
    rewrite <- Hpeek;
    (split; [split; (reflexivity || discriminate)|]);
    (split; [intros; (discriminate || (split; reflexivity))|]);
    (split; [reflexivity|]);
    split; (reflexivity || discriminate).
Qed.

Lemma sendErrorResponse_writes (mode : Z) :
  existsb isRelay (sendErrorResponse mode) = false
  /\ existsb isPeek (sendErrorResponse mode) = false
  /\ List.filter isClientWrite (sendErrorResponse mode)
     = sendErrorResponse mode
  /\ (length (sendErrorResponse mode) <= 1)%nat
  /\ (1 <= mode <= 3 -> length (sendErrorResponse mode) = 1%nat).
Proof.
  unfold sendErrorResponse, HTTP.modeSOCKS5, HTTP.modeHTTPConnect,
    HTTP.modeHTTPProxy.
  destruct (Z.eqb_spec mode 1); [cbn; repeat split; lia|].
  destruct (Z.eqb_spec mode 2); [cbn; repeat split; lia|].
  destruct (Z.eqb_spec mode 3); cbn; repeat split; lia.
Qed.

(** X20. Data is relayed only through an accepted tunnel: the copying
    between the client and the gateway starts exactly when [handleTunnel]
    returns a nil error, and then a dial has succeeded, the CONNECT
    message was written and the gateway's first message was exactly
    "CONNECTED". *)
Theorem relay_only_when_connected (st : Dial.state)
  (target clientAddr : string) (mode : Z) (firstFrame : string) :
  let r := handleTunnel env st target clientAddr mode firstFrame in
  (existsb isRelay (snd (fst r)) = true <-> fst (fst r) = None)
  /\ (fst (fst r) = None ->
      (exists wsConn,
         fst (Dial.dialWebSocketWithECH (dialEnv env) 2 st)
         = Dial.Connected wsConn
         /\ last (snd (fst r)) = Some (WSClose wsConn))
      /\ wsWriteOK env = true
      /\ wsReply env = Some "CONNECTED"%string).
Proof.
  cbv zeta.
  destruct (fst (Dial.dialWebSocketWithECH (dialEnv env) 2 st))
    as [wsConn|e] eqn:Ed.
  - rewrite (handleTunnel_connected st target clientAddr mode firstFrame
               wsConn Ed).
    cbn [fst snd].
    destruct (handshake_cases target clientAddr mode firstFrame)
      as (Hrelay & Hok & _).
    cbv zeta in Hrelay, Hok.
    split.
    + rewrite <- Hrelay. cbn [app existsb isRelay orb].
      rewrite existsb_app. cbn [existsb isRelay orb].
      now rewrite orb_false_r.
    + intros Hnone. destruct (Hok Hnone) as [Hw Hr].
      split; [|split; assumption].
      exists wsConn. split; [reflexivity|].
      change ([StartKeepalive]
                ++ snd (handshake env target clientAddr mode firstFrame)
                ++ [StopKeepalive; WSClose wsConn])
        with (StartKeepalive
                :: snd (handshake env target clientAddr mode firstFrame)
                ++ [StopKeepalive; WSClose wsConn]).
      replace (StartKeepalive
                 :: snd (handshake env target clientAddr mode firstFrame)
                 ++ [StopKeepalive; WSClose wsConn])
        with ((StartKeepalive
                 :: snd (handshake env target clientAddr mode firstFrame)
                 ++ [StopKeepalive]) ++ [WSClose wsConn])
        by (cbn [app]; now rewrite <- app_assoc).
      apply last_snoc.
  - rewrite (handleTunnel_failed_dial st target clientAddr mode firstFrame
               e Ed).
    cbn [fst snd].
    destruct (sendErrorResponse_writes mode) as (Hno & _).
    rewrite Hno. split; [split; discriminate|discriminate].
Qed.

(** X21. The client gets one answer at most, and the right one: in the
    modes SOCKS5 and HTTP CONNECT a tunnel that fails before the success
    response is answered with the failure response of that mode (SOCKS5
    reply code 04 or "502 Bad Gateway") and nothing else is written; a
    tunnel that is accepted is answered with the success response only;
    a forwarded HTTP request gets "502 Bad Gateway" on failure and no
    response of the proxy's own on success. *)
Theorem client_answered_once (st : Dial.state)
  (target clientAddr : string) (mode : Z) (firstFrame : string) :
  let r := handleTunnel env st target clientAddr mode firstFrame in
  let writes := List.filter isClientWrite (snd (fst r)) in
  (length writes <= 1)%nat
  /\ writes = match fst (fst r) with
              | None => fst (sendSuccessResponse true mode)
              | Some ErrClientWrite => fst (sendSuccessResponse true mode)
              | Some _ => sendErrorResponse mode
              end
  /\ (mode = HTTP.modeHTTPProxy -> fst (fst r) = None -> writes = [])
  /\ (1 <= mode <= 3 -> fst (fst r) <> None ->
      fst (fst r) <> Some ErrClientWrite ->
      writes = sendErrorResponse mode /\ length writes = 1%nat).
Proof.
  cbv zeta.
  assert (Hsucc : (length (fst (sendSuccessResponse true mode)) <= 1)%nat
                  /\ (mode = HTTP.modeHTTPProxy ->
                      fst (sendSuccessResponse true mode) = [])).
  { unfold sendSuccessResponse.
    destruct (Z.eqb_spec mode HTTP.modeSOCKS5) as [->|];
      [cbn; split; [lia|discriminate]|].
    destruct (Z.eqb_spec mode HTTP.modeHTTPConnect) as [->|];
      [cbn; split; [lia|discriminate]|].
    cbn. split; [lia|reflexivity]. }
  destruct Hsucc as [Hs1 Hs3].
  destruct (sendErrorResponse_writes mode) as (_ & _ & Hf & He1 & He3).
  assert (Hw : List.filter isClientWrite
                 (snd (fst (handleTunnel env st target clientAddr mode
                              firstFrame)))
               = match fst (fst (handleTunnel env st target clientAddr mode
                                   firstFrame)) with
                 | None => fst (sendSuccessResponse true mode)
                 | Some ErrClientWrite => fst (sendSuccessResponse true mode)
                 | Some _ => sendErrorResponse mode
                 end).
  { destruct (fst (Dial.dialWebSocketWithECH (dialEnv env) 2 st))
      as [wsConn|e] eqn:Ed.
    - rewrite (handleTunnel_connected st target clientAddr mode firstFrame
                 wsConn Ed).
      cbn [fst snd].
      destruct (handshake_cases target clientAddr mode firstFrame)
        as (_ & _ & Hwrites & _).
      cbv zeta in Hwrites. rewrite <- Hwrites.
      cbn [app List.filter isClientWrite].
      rewrite List.filter_app. cbn [List.filter isClientWrite].
      now rewrite app_nil_r.
    - rewrite (handleTunnel_failed_dial st target clientAddr mode firstFrame
                 e Ed).
      cbn [fst snd]. exact Hf. }
  rewrite Hw.
  destruct (fst (fst (handleTunnel env st target clientAddr mode firstFrame)))
    as [e|].
  - destruct e; (split; [auto|]); (split; [reflexivity|]);
      (split; [intros; discriminate|]); intros Hm _ Hc;
      try (now contradiction Hc); split; auto.
  - split; [auto|]. split; [reflexivity|]. split; [auto|].
    intros _ H. now contradiction H.
Qed.

(** X22. Early data is looked for only where it can be: the 100 ms read
    on the client connection happens exactly when a dial has succeeded,
    the mode is SOCKS5 and no first frame was handed in; an HTTP request
    is never read a second time. *)
Theorem peek_only_for_socks5 (st : Dial.state)
  (target clientAddr : string) (mode : Z) (firstFrame : string) :
  let r := handleTunnel env st target clientAddr mode firstFrame in
  existsb isPeek (snd (fst r)) = true
  <-> (exists wsConn,
         fst (Dial.dialWebSocketWithECH (dialEnv env) 2 st)
         = Dial.Connected wsConn)
      /\ firstFrame = EmptyString /\ mode = HTTP.modeSOCKS5.
Proof.
  cbv zeta.
  destruct (fst (Dial.dialWebSocketWithECH (dialEnv env) 2 st))
    as [wsConn|e] eqn:Ed.
  - rewrite (handleTunnel_connected st target clientAddr mode firstFrame
               wsConn Ed).
    cbn [fst snd].
    destruct (handshake_cases target clientAddr mode firstFrame)
      as (_ & _ & _ & Hpeek).
    cbv zeta in Hpeek. rewrite <- Hpeek.
    cbn [app existsb isPeek orb]. rewrite existsb_app.
    cbn [existsb isPeek orb]. rewrite orb_false_r.
    split; [intros H; split; [eauto|exact H]|intros [_ H]; exact H].
  - rewrite (handleTunnel_failed_dial st target clientAddr mode firstFrame
               e Ed).
    cbn [fst snd].
    destruct (sendErrorResponse_writes mode) as (_ & Hno & _).
    rewrite Hno. split; [discriminate|intros [[w Hw] _]; discriminate].
Qed.

(** X23. One tunnel costs at most two dials: [handleTunnel] dials at most
    twice, sleeps at most once (one second) and refreshes the ECH
    configuration at most once, whatever the gateway answers. *)
Theorem tunnel_dial_budget (st : Dial.state)
  (target clientAddr : string) (mode : Z) (firstFrame : string) :
  let st' := snd (handleTunnel env st target clientAddr mode firstFrame) in
  (Dial.dialCount (Dial.trace st') <= Dial.dialCount (Dial.trace st) + 2)%nat
  /\ (Actions.sleepCount (Dial.trace st')
      <= Actions.sleepCount (Dial.trace st) + 1)%nat
  /\ (Actions.refreshCount (Dial.trace st')
      <= Actions.refreshCount (Dial.trace st) + 1)%nat.
Proof.
  cbv zeta.
  assert (E : snd (handleTunnel env st target clientAddr mode firstFrame)
              = snd (Dial.dialWebSocketWithECH (dialEnv env) 2 st)).
  { destruct (fst (Dial.dialWebSocketWithECH (dialEnv env) 2 st))
      as [wsConn|e] eqn:Ed.
    - now rewrite (handleTunnel_connected st target clientAddr mode
                     firstFrame wsConn Ed).
    - now rewrite (handleTunnel_failed_dial st target clientAddr mode
                     firstFrame e Ed). }
  rewrite E. pose proof (dial_budget (dialEnv env) 2 st) as H.
  cbv zeta in H. change (Z.to_nat (2 - 1)) with 1%nat in H.
  change (Z.to_nat 2) with 2%nat in H. lia.
Qed.

End TunnelFacts.

Lemma connect_split (t1 t2 f1 f2 : string) :
  Strings.Contains t1 "|" = false -> Strings.Contains t2 "|" = false ->
  t1 +:+ String "|" f1 = t2 +:+ String "|" f2 -> t1 = t2 /\ f1 = f2.
Proof.
  intros H1 H2. apply Contains_char_false in H1, H2.
  revert t2 H2. induction t1 as [|a t1 IH]; intros t2 H2 E.
  - destruct t2 as [|b t2].
    + rewrite !append_empty_l in E. injection E as <-. auto.
    + rewrite append_empty_l, append_cons in E. injection E as <- _.
      rewrite Index_char_cons in H2. cbn in H2. discriminate.
  - destruct t2 as [|b t2].
    + rewrite append_empty_l, append_cons in E. injection E as -> _.
      rewrite Index_char_cons in H1. cbn in H1. discriminate.
    + rewrite !append_cons in E. injection E as <- E.
      rewrite Index_char_cons in H1, H2.
      destruct (Ascii.eqb "|" a); [discriminate|].
      destruct (Z.eqb_spec (Strings.Index t1 "|") (-1)) as [E1|E1];
        [|pose proof (Index_char_range "|" t1); lia].
      destruct (Z.eqb_spec (Strings.Index t2 "|") (-1)) as [E2|E2];
        [|pose proof (Index_char_range "|" t2); lia].
      destruct (IH E1 t2 E2 E) as [-> ->]. auto.
Qed.

(** X24. The CONNECT message can be read back: for targets without a
    vertical bar, the message sent to the gateway determines the target
    and the first frame (which may itself contain bars). *)
Theorem connectMsg_injective (target1 target2 frame1 frame2 : string) :
  Strings.Contains target1 "|" = false ->
  Strings.Contains target2 "|" = false ->
  Tunnel.connectMsg target1 frame1 = Tunnel.connectMsg target2 frame2 ->
  target1 = target2 /\ frame1 = frame2.
Proof.
  intros H1 H2 E. unfold Tunnel.connectMsg in E.
  change ("|" +:+ frame1) with (String "|" frame1) in E.
  change ("|" +:+ frame2) with (String "|" frame2) in E.
  change ("CONNECT:" +:+ ?x)
    with (String "C" (String "O" (String "N" (String "N" (String "E"
           (String "C" (String "T" (String ":" x)))))))) in E.
  injection E as E. exact (connect_split _ _ _ _ H1 H2 E).
Qed.

Lemma connectMsg_injective_witness :
  Strings.Contains "example.com:443" "|" = false
  /\ Tunnel.connectMsg "example.com:443" "a|b" = "CONNECT:example.com:443|a|b"%string
  /\ ("example.com:443"%string = "example.com:443"%string
      /\ "a|b"%string = "a|b"%string).
Proof.
  split; [reflexivity|]. split; [reflexivity|].
  exact (connectMsg_injective "example.com:443" "example.com:443" "a|b" "a|b"
           eq_refl eq_refl eq_refl).
Defined.

(** ** Testing the connection *)

(** X25. [TestConnection] is one attempt and leaves the proxy alone: it
    returns on every input, dials at most once and only with an ECH
    configuration just taken from the resolver's reply, never sleeps or
    refreshes, closes the connection exactly when it reports success, and
    does not change whether the client runs or which listener it holds. *)
Theorem TestConnection_single_attempt (reply : option (list byte))
  (env : Dial.environment) (c : Client.ProxyClient) :
  exists err c' t closed,
    Binding.TestConnection reply env c = Done (err, c', t, closed)
    /\ (Dial.dialCount t <= 1)%nat
    /\ Actions.sleepCount t = 0%nat /\ Actions.refreshCount t = 0%nat
    /\ (Dial.dialCount t = 1%nat ->
        Client.echList c' <> []
        /\ exists response pre post,
             reply = Some response
             /\ response = pre ++ Client.echList c' ++ post)
    /\ (err = None <-> closed <> None)
    /\ Client.running c' = Client.running c
    /\ Client.listener c' = Client.listener c.
Proof.
  unfold Binding.TestConnection.
  destruct (prepareECH_cases reply c)
    as (c1 & err & E & Hr & Hl & _ & _ & Hcase).
  rewrite E, bind_Done. cbn [fst snd].
  destruct err as [e|].
  { eexists _, _, _, _. split; [reflexivity|]. cbn.
    repeat split; try assumption; try lia; try discriminate.
    intros H. now contradiction H. }
  destruct Hcase as (Hne & _ & Hpart).
  unfold Dial.dialWebSocketWithECH.
  destruct (Dial.serverAddrOK env); cbn [negb].
  2: { eexists _, _, _, _. split; [reflexivity|]. cbn.
       repeat split; try assumption; try lia; try discriminate.
       intros H. now contradiction H. }
  change (Z.to_nat 1) with 1%nat. cbn [Dial.attempts].
  unfold Binding.dialState at 1. cbn [Dial.echList].
  destruct (Client.echList c1) as [|b l] eqn:Eech; [contradiction|].
  cbn [Dial.isEmpty].
  destruct (Dial.rootsOK env); cbn [negb].
  2: { eexists _, _, _, _. split; [reflexivity|]. cbn.
       repeat split; try assumption; try lia; try discriminate.
       intros H. now contradiction H. }
  unfold Dial.dial. cbn [Dial.dials Binding.dialState].
  destruct (Dial.dialReply env 0) as [wsConn|msg].
  - eexists _, _, _, _. split; [reflexivity|]. cbn.
    repeat split; try assumption; try lia; try discriminate;
      rewrite ?Eech; try exact Hpart; discriminate.
  - rewrite andb_false_r.
    eexists _, _, _, _. split; [reflexivity|]. cbn.
    repeat split; try assumption; try lia; try discriminate;
      rewrite ?Eech; try exact Hpart; try discriminate.
    intros H. now contradiction H.
Qed.

(** ** The size of the query *)

Lemma len_label_cons (l : list byte) (ls : list (list byte)) :
  len (Wire.encodeLabels (l :: ls)) = 1 + len l + len (Wire.encodeLabels ls).
Proof. rewrite encodeLabels_cons, len_app, len_cons. lia. Qed.

Lemma len_bytes (s : string) :
  len (list_byte_of_string s) = Z.of_nat (String.length s).
Proof. unfold len. now rewrite length_list_byte_of_string. Qed.

Lemma Split_size (s : string) (sep : ascii) :
  len (Wire.encodeLabels (map list_byte_of_string (Strings.Split s sep)))
  = Z.of_nat (String.length s) + 1.
Proof.
  induction s as [|c s IH]; [reflexivity|].
  cbn [Strings.Split String.length].
  destruct (Ascii.eqb c sep).
  - cbn [map]. rewrite len_label_cons, len_bytes, IH. cbn [String.length].
    lia.
  - destruct (Strings.Split s sep) as [|hd tl].
    + cbn [map] in IH. change (len (Wire.encodeLabels [])) with 0 in IH. lia.
    + cbn [map] in IH |- *. rewrite len_label_cons, len_bytes in IH.
      rewrite len_label_cons, len_bytes. cbn [String.length]. lia.
Qed.

(** X26. The size and frame of a query: for every domain and type,
    [buildDNSQuery] gives the fixed twelve-octet header (ID 1, RD set, one
    question), then one octet more than the domain has bytes for the
    name, its closing zero, the type and class IN: eighteen octets more
    than the domain is long. *)
Theorem query_size (domain : string) (qtype : Z) :
  exists name,
    DNS.buildDNSQuery domain qtype
    = DNS.queryHeader ++ name ++ x00 :: Wire.be16 qtype ++ Wire.be16 1
    /\ len name = Z.of_nat (String.length domain) + 1
    /\ len (DNS.buildDNSQuery domain qtype)
       = Z.of_nat (String.length domain) + 18.
Proof.
  exists (Wire.encodeLabels (Wire.labelsOf domain)).
  rewrite buildDNSQuery_wire.
  pose proof (Split_size domain ".") as H. fold (Wire.labelsOf domain) in H.
  split; [reflexivity|]. split; [exact H|].
  rewrite !len_app, len_cons, len_app, !len_be16, H.
  change (len DNS.queryHeader) with 12. lia.
Qed.

(** ** Which record gives the ECH configuration *)




Lemma svcParams_none fuel data pre ps :
  wfOtherParams ps = true -> (length ps < fuel)%nat ->
  data = pre ++ encodeParams ps ->
  DNS.svcParams fuel data (len pre) = Done EmptyString.
Proof.
  revert fuel data pre.
  induction ps as [|[k v] ps IH]; intros fuel data pre Hwf Hfuel ->.
  - destruct fuel as [|fuel]; [simpl in Hfuel; lia|].
    cbn [encodeParams map concat DNS.svcParams]. rewrite app_nil_r.
    destruct (Z.leb_spec (len pre + 4) (len pre)); [lia|reflexivity].
  - destruct fuel as [|fuel]; [simpl in Hfuel; lia|].
    apply wfOtherParams_cons in Hwf as [(Hk & Hk5 & Hv) Hwf].
    cbn [fst snd] in Hk, Hk5, Hv.
    change (encodeParams ((k, v) :: ps))
      with (encodeParam (k, v) ++ encodeParams ps).
    rewrite (svcParams_step fuel _ pre k v (encodeParams ps));
      [|lia|lia|reflexivity].
    destruct (Z.eqb_spec k 5); [lia|].
    replace (len pre + (4 + len v)) with (len (pre ++ encodeParam (k, v)))
      by (rewrite len_app, len_encodeParam; lia).
    apply IH; [exact Hwf|simpl in Hfuel; lia|].
    rewrite <- ?app_assoc. reflexivity.
Qed.

Lemma parseHTTPSRecord_no_ech priority target ps :
  wfLabels 255 target = true -> wfOtherParams ps = true ->
  DNS.parseHTTPSRecord (be16 priority ++ encodeName target ++ encodeParams ps)
  = Done EmptyString.
Proof.
  intros Hwf Hps.
  set (data := be16 priority ++ encodeName target ++ encodeParams ps).
  assert (Hdata : data = be16 priority ++ encodeLabels target ++ x00 ::
                    encodeParams ps).
  { unfold data, encodeName. rewrite <- ?app_assoc. reflexivity. }
  assert (Hlen : len data = 2 + len (encodeLabels target) + 1
                            + len (encodeParams ps)).
  { rewrite Hdata. lens. lia. }
  pose proof (len_nonneg (encodeLabels target)) as Hl.
  pose proof (len_nonneg (encodeParams ps)) as Hp.
  pose proof (labels_count target Hwf) as Hcl.
  pose proof (params_count ps) as Hcp.
  assert (Hfl : (length target < S (length data))%nat)
    by (unfold len in *; lia).
  assert (Hfp : (length ps < S (length data))%nat)
    by (unfold len in *; lia).
  assert (Hsvc : DNS.svcParams (S (length data)) data
                   (2 + len (encodeLabels target) + 1)
                 = Done EmptyString).
  { replace (2 + len (encodeLabels target) + 1)
      with (len (be16 priority ++ encodeName target))
      by (lens; rewrite len_encodeName; lia).
    apply (svcParams_none _ _ _ ps Hps Hfp).
    unfold data. rewrite <- ?app_assoc. reflexivity. }
  unfold DNS.parseHTTPSRecord. fold data.
  destruct (Z.ltb_spec (len data) 2); [lia|].
  destruct (Z.ltb_spec 2 (len data)); [|lia].
  destruct target as [|l ls].
  - rewrite (index_at data (be16 priority) x00 (encodeParams ps))
      by (try reflexivity; exact Hdata).
    rewrite !bind_Done. change (u8 x00 =? 0) with true. cbv iota.
    rewrite bind_Done. exact Hsvc.
  - pose proof Hwf as Hwf'. apply wfLabels_cons in Hwf' as [Hl1 _].
    rewrite (index_at data (be16 priority) (byte_of_Z (len l))
               (l ++ encodeLabels ls ++ x00 :: encodeParams ps))
      by (try reflexivity; rewrite Hdata, encodeLabels_cons; cbn [app];
          rewrite <- ?app_assoc; reflexivity).
    rewrite !bind_Done, u8_byte_of_Z, Z.mod_small by lia.
    destruct (Z.eqb_spec (len l) 0); [lia|]. cbv iota.
    change 2 with (len (be16 priority)) at 1.
    rewrite (skipLabels_name _ data (be16 priority) (l :: ls) _ Hwf Hfl Hdata).
    rewrite !bind_Done. rewrite len_be16. exact Hsvc.
Qed.

(** X28. An HTTPS record without an [ech] parameter is stepped over:
    when the RDATA is SvcPriority, an uncompressed TargetName and
    SvcParams none of which has key 5 (an AliasMode record has none at
    all), [parseHTTPSRecord] finds nothing, so the answer loop goes on to
    the next record. *)
Theorem record_without_ech_is_stepped_over
  (o : owner) (class ttl priority : Z) (target : list (list byte))
  (ps : list (Z * list byte)) :
  wfOwner o = true ->
  wfLabels 255 target = true ->
  wfOtherParams ps = true ->
  let rdata := be16 priority ++ encodeName target ++ encodeParams ps in
  len rdata < 65536 ->
  DNS.parseHTTPSRecord rdata = Done EmptyString
  /\ Actions.steppedOver
       {| rr_owner := o; rr_type := DNS.typeHTTPS; rr_class := class;
          rr_ttl := ttl; rr_data := rdata |} = true.
Proof.
  intros Ho Ht Hps rdata Hrd.
  pose proof (parseHTTPSRecord_no_ech priority target ps Ht Hps) as E.
  fold rdata in E. split; [exact E|].
  unfold Actions.steppedOver. cbn [rr_owner rr_type rr_data].
  rewrite Ho, E. apply Z.ltb_lt in Hrd. rewrite Hrd. reflexivity.
Qed.

Lemma record_without_ech_is_stepped_over_witness :
  let o := OwnerPointer xc0 x0c in
  let target := labelsOf "pool.example.net" in
  let ps := [(1, [x02; "h"%byte; "3"%byte])] in
  let rdata := be16 0 ++ encodeName target ++ encodeParams ps in
  wfOwner o = true /\ wfLabels 255 target = true
  /\ wfOtherParams ps = true /\ len rdata < 65536
  /\ DNS.parseHTTPSRecord rdata = Done EmptyString
  /\ Actions.steppedOver
       {| rr_owner := o; rr_type := DNS.typeHTTPS; rr_class := 1;
          rr_ttl := 60; rr_data := rdata |} = true.
Proof.
  intros o target ps rdata.
  assert (H1 : wfOwner o = true) by reflexivity.
  assert (H2 : wfLabels 255 target = true) by reflexivity.
  assert (H3 : wfOtherParams ps = true) by reflexivity.
  assert (H4 : len rdata < 65536) by reflexivity.
  repeat (split; [assumption|]).
  exact (record_without_ech_is_stepped_over o 1 60 0 target ps H1 H2 H3 H4).
Defined.


(** ** Errors that are not reported *)

Lemma substring_skip (pre s : string) (n : nat) :
  String.substring (String.length pre) n (pre +:+ s) = String.substring 0 n s.
Proof.
  induction pre as [|a pre IH]; [reflexivity|].
  rewrite append_cons. cbn [String.length String.substring]. exact IH.
Qed.

Lemma substring_prefix (pat post : string) :
  String.substring 0 (String.length pat) (pat +:+ post) = pat.
Proof.
  induction pat as [|a pat IH]; [destruct post; reflexivity|].
  rewrite append_cons. cbn [String.length String.substring]. now rewrite IH.
Qed.

Lemma Contains_infix (pre pat post : string) :
  pat <> EmptyString ->
  Strings.Contains (pre +:+ pat +:+ post) pat = true.
Proof.
  intros Hne. unfold Strings.Contains, Strings.Index.
  destruct (String.index 0 pat (pre +:+ pat +:+ post)) as [i|] eqn:E.
  - apply Z.leb_le. lia.
  - exfalso.
    apply (index_correct3 0 (String.length pre) pat _ E Hne); [lia|].
    rewrite substring_skip. apply substring_prefix.
Qed.

(** X29. What counts as a normal close: a tunnel error is kept out of
    the log when it is nil, when it is [io.EOF], or when its text contains
    one of the four phrases anywhere (so also inside a message reported by
    the gateway); every other error gives exactly one error line, which
    ends in the error's text. *)
Theorem normal_close_is_silent (what clientAddr : string) :
  HTTP.logTunnelError what clientAddr None = []
  /\ HTTP.logTunnelError what clientAddr (Some HTTP.EOF) = []
  /\ (forall phrase pre post,
        In phrase ["use of closed network connection"; "broken pipe";
                   "connection reset by peer"; "normal closure"]%string ->
        HTTP.logTunnelError what clientAddr
          (Some (HTTP.Err (pre +:+ phrase +:+ post))) = [])
  /\ (forall e,
        HTTP.isNormalCloseError (Some e) = false ->
        HTTP.logTunnelError what clientAddr (Some e)
        = [HTTP.LogError (what +:+ " 代理失败 " +:+ clientAddr +:+ ": "
                            +:+ HTTP.errorText e)]).
Proof.
  split; [reflexivity|]. split; [reflexivity|]. split.
  - intros phrase pre post Hin.
    assert (Hne : phrase <> EmptyString)
      by (cbn [In] in Hin; intuition (subst; discriminate)).
    pose proof (Contains_infix pre phrase post Hne) as Hc.
    unfold HTTP.logTunnelError, HTTP.isNormalCloseError.
    cbn [In] in Hin.
    destruct Hin as [<-|[<-|[<-|[<-|[]]]]]; rewrite Hc;
      rewrite ?orb_true_r; reflexivity.
  - intros e He. unfold HTTP.logTunnelError. now rewrite He.
Qed.

(** ** Starting through the binding *)

(** X30. The listener is opened last: through the binding's [Start],
    [net.Listen] is called at most once, only on a client that was
    stopped and after an ECH configuration has been loaded, and on the
    address given or on "127.0.0.1:1080" when none is given, never on an
    empty one; the accept loop is started only when [Start] succeeds, on
    the listener the client then holds. *)
Theorem listener_opened_last (env : Client.start_env) (listenAddr : string)
  (c : Client.ProxyClient) :
  exists c' err new,
    Binding.Start env listenAddr c = Done (c', err)
    /\ Client.journal c' = Client.journal c ++ new
    /\ (length (List.filter
                  (fun ev => match ev with
                             | Client.Listen _ => true
                             | _ => false
                             end) new) <= 1)%nat
    /\ (forall a, In (Client.Listen a) new ->
          a <> EmptyString
          /\ (listenAddr <> EmptyString -> a = listenAddr)
          /\ (listenAddr = EmptyString -> a = "127.0.0.1:1080"%string)
          /\ Client.running c = false
          /\ Client.echList c' <> [])
    /\ (forall l, In (Client.AcceptLoop l) new ->
          err = None /\ Client.listener c' = Some l
          /\ Android.GetStatus (Client.statusView c') = "运行中"%string).
Proof.
  unfold Binding.Start.
  set (addr := if Client.isEmptyString listenAddr
               then "127.0.0.1:1080"%string else listenAddr).
  assert (Haddr : addr <> EmptyString
                  /\ (listenAddr <> EmptyString -> addr = listenAddr)
                  /\ (listenAddr = EmptyString
                      -> addr = "127.0.0.1:1080"%string)).
  { unfold addr. destruct (Client.isEmptyString listenAddr) eqn:E.
    - apply isEmptyString_spec in E. subst.
      repeat split; try discriminate. intros H. now contradiction H.
    - apply isEmptyString_false in E.
      repeat split; try assumption. intros H. contradiction. }
  clearbody addr. unfold Client.Start.
  destruct (Client.running c) eqn:Hrun.
  { exists c, (Some Client.ErrAlreadyRunning), [].
    rewrite app_nil_r. split; [reflexivity|]. split; [reflexivity|].
    split; [cbn; lia|]. split; intros ? []. }
  destruct (prepareECH_cases (Client.echReply env)
              (Client.record Client.InfoFetchingECH c))
    as (c1 & err & E & Hr & Hl & _ & _ & Hcase).
  rewrite E, bind_Done. cbn [fst snd].
  cbn [Client.record Client.journal Client.echDomain Client.dnsServer
       Client.echList] in Hcase.
  destruct err as [e|].
  { destruct Hcase as (_ & _ & Hj).
    eexists c1, _, _. split; [reflexivity|].
    split; [rewrite Hj, <- app_assoc; reflexivity|].
    split; [cbn; lia|].
    split; intros x Hin; cbn [In app] in Hin;
      intuition discriminate. }
  destruct Hcase as (Hne & Hj & _).
  destruct (Client.listenReply env) as [l|].
  - destruct (Client.isEmptyString (Client.serverIP _)) eqn:Eip.
    + eexists _, None, _. split; [reflexivity|].
      cbn [Client.record Client.setListener Client.journal Client.echList
           Client.listener Client.serverAddr].
      split; [rewrite Hj, <- !app_assoc; cbn [app]; reflexivity|].
      split; [cbn; lia|].
      split; intros x Hin; cbn [In app] in Hin.
      * destruct Hin as [Hin|[Hin|[Hin|[Hin|Hin]]]]; try discriminate.
        -- injection Hin as <-. destruct Haddr as (H1 & H2 & H3).
           repeat split; assumption.
        -- destruct Hin as [Hin|[Hin|[Hin|[]]]]; discriminate.
      * destruct Hin as [Hin|[Hin|[Hin|[Hin|Hin]]]]; try discriminate.
        destruct Hin as [Hin|[Hin|[Hin|[]]]]; try discriminate.
        injection Hin as <-. repeat split; reflexivity.
    + eexists _, None, _. split; [reflexivity|].
      cbn [Client.record Client.setListener Client.journal Client.echList
           Client.listener Client.serverAddr].
      split; [rewrite Hj, <- !app_assoc; cbn [app]; reflexivity|].
      split; [cbn; lia|].
      split; intros x Hin; cbn [In app] in Hin.
      * destruct Hin as [Hin|[Hin|[Hin|[Hin|Hin]]]]; try discriminate.
        -- injection Hin as <-. destruct Haddr as (H1 & H2 & H3).
           repeat split; assumption.
        -- destruct Hin as [Hin|[Hin|[Hin|[Hin|[]]]]]; discriminate.
      * destruct Hin as [Hin|[Hin|[Hin|[Hin|Hin]]]]; try discriminate.
        destruct Hin as [Hin|[Hin|[Hin|[Hin|[]]]]]; try discriminate.
        injection Hin as <-. repeat split; reflexivity.
  - eexists _, _, _. split; [reflexivity|].
    cbn [Client.record Client.journal Client.echList].
    split; [rewrite Hj, <- !app_assoc; cbn [app]; reflexivity|].
    split; [cbn; lia|].
    split; intros x Hin; cbn [In app] in Hin.
    + destruct Hin as [Hin|[Hin|[Hin|[Hin|[]]]]]; try discriminate.
      injection Hin as <-. destruct Haddr as (H1 & H2 & H3).
      repeat split; assumption.
    + destruct Hin as [Hin|[Hin|[Hin|[Hin|[]]]]]; discriminate.
Qed.
